(** * Joystick reaching tasks: visuomotor adaptation and stop-signal pilot

    A shallow embedding of [adaptation_main.py] and [stop-signal_pilot.py].

    Python integers are [Z].  A Python float (a duration, a radius, an
    angle, the stop-signal delay) is the rational [Q] it denotes.  What the
    scripts compute and then log or carry from trial to trial, the
    differences of clock readings and the updates of the stop-signal delay,
    is rounded to the nearest double as IEEE 754 does ([Py.float]); the
    products that only feed [int] or a comparison are kept exact.  The
    PsychoPy and NumPy calls the scripts make
    (joystick, clock, window, coordinate tools, random numbers) are
    collaborators: their results come from the environment. *)

From Stdlib Require Import String.
From Stdlib Require Import ZArith QArith Qround Qabs Qpower List Bool Lia Lqa.
From Stdlib Require Import Permutation.
From Stdlib Require Import Ascii DecimalString DecimalZ.
Import ListNotations.

(** ** Python and NumPy primitives *)

Module Py.

(** [a < b] on floats. *)
Definition Qlt_bool (a b : Q) : bool :=
  (Qnum a * QDen b <? Qnum b * QDen a)%Z.

(** [int(x)] on a float: truncation toward zero. *)
Definition int (x : Q) : Z := Z.quot (Qnum x) (Zpos (Qden x)).

(** [round(x)] / [np.round(x)]: nearest integer, ties to the even one. *)
Definition round (x : Q) : Z :=
  let f := Qfloor x in
  match (x - inject_Z f ?= 1 # 2)%Q with
  | Lt => f
  | Gt => (f + 1)%Z
  | Eq => if Z.even f then f else (f + 1)%Z
  end.

(** [floor(log2(x))] for [x > 0]: the difference of the bit lengths of
    numerator and denominator, or one less. *)
Definition ilog2 (x : Q) : Z :=
  let e := (Z.log2 (Qnum x) - Z.log2 (Zpos (Qden x)))%Z in
  if Qle_bool (2 ^ e) x then e else (e - 1)%Z.

(** The unit in the last place of the doubles next to [x]: 53 significant
    bits, and no exponent below -1022. *)
Definition ulp (x : Q) : Q := 2 ^ (Z.max (ilog2 (Qabs x)) (-1022) - 52).

(** The double a float operation returns when its exact result is [x]: the
    nearest multiple of [ulp x], ties to the even one.  Overflow to infinity
    is not modelled. *)
Definition float (x : Q) : Q :=
  if Qeq_bool x 0 then 0
  else Qred (inject_Z (round (x / ulp x)) * ulp x).

(** [np.arange(n)] for an integer-valued [n]: [0, 1, ..., n-1]. *)
Definition arange (n : Z) : list Z := map Z.of_nat (seq 0 (Z.to_nat n)).

(** [l * k]: [k] copies of [l], none when [k <= 0]. *)
Definition list_mul {A} (l : list A) (k : Z) : list A :=
  concat (repeat l (Z.to_nat k)).

(** [l[i]]: negative indices count from the end, anything else out of
    range raises [IndexError] ([None]). *)
Definition getitem {A} (l : list A) (i : Z) : option A :=
  if (i <? 0)%Z
  then if (- i <=? Z.of_nat (length l))%Z
       then nth_error l (Z.to_nat (Z.of_nat (length l) + i))
       else None
  else nth_error l (Z.to_nat i).

(** Truth value of an [int] used as a condition. *)
Definition truthy (z : Z) : bool := negb (z =? 0)%Z.

End Py.

(** ** The laboratory: collaborators and the state the scripts act on *)

Inductive Color : Set := white | green | red.

(** A [visual.Circle]; only the attributes the scripts assign. *)
Record Circle : Set := mkCircle {
  fillColor : option Color;
  lineColor : Color;
  pos : Q * Q }.

(** What a [draw()] call puts in the back buffer. *)
Inductive Draw : Set :=
| drawn_target (c : Circle)
| drawn_cursor (p : Q * Q)
| drawn_text (s : string)
| drawn_blank.

(** The collaborators.  The [k]-th sampling of the joystick answers
    [getX k] and [getY k], the [k]-th reading of the experiment clock
    answers [getTime k]; [cart2pol] returns [(theta, radius)]. *)
Record Collaborators : Type := mkCollaborators {
  getX : nat -> Q;
  getY : nat -> Q;
  getTime : nat -> Q;
  getKeys : nat -> bool;
  uniform : Q -> Q -> nat -> Q;
  cart2pol : Q -> Q -> Q * Q;
  pol2cart : Q -> Q -> Q * Q;
  radians : Q -> Q }.

(** One row of the stop-signal data frame (the columns of [data_dict]). *)
Record Row : Set := mkRow {
  col_ID : string;
  col_trial : Z;
  col_fix_dur : Q;
  col_ready_dur : Q;
  col_go_dur : Q;
  col_post_go_dur : Q;
  col_ITI_dur : Q;
  col_SSD : Q;
  col_target_angle : Q;
  col_GO_Stop : Z;
  col_start_mov : Z;
  col_full_mov : Z }.

(** The joystick samples of a trial: [x_trial], [y_trial], [t_trial]. *)
Record Trace : Set := mkTrace {
  xs : list Q;
  ys : list Q;
  ts : list Q }.

Definition empty_trace : Trace := mkTrace [] [] [].

Definition record_sample (tr : Trace) (x y t : Q) : Trace :=
  mkTrace (xs tr ++ [x]) (ys tr ++ [y]) (ts tr ++ [t]).

(** A write to the session directory. *)
Inductive FileWrite : Set :=
| to_csv (rows : list Row)
| np_save (trial : Z) (joystick_output : Trace).

Record World : Type := mkWorld {
  joy_reads : nat;
  clock_reads : nat;
  key_polls : nat;
  rng_draws : nat;
  target : Circle;
  cursor_pos : Q * Q;
  back_buffer : list Draw;
  presented : list (list Draw);   (* frames shown so far, newest first *)
  disk : list FileWrite }.        (* writes so far, newest first *)

Inductive exn : Set :=
| IndexError
| ValueError
| StillWaiting.   (* the bound on an unbounded wait ran out *)

Inductive Res (A : Type) : Type :=
| Ok (a : A) (w : World)
| Raise (e : exn) (w : World).
Arguments Ok {A} a w.
Arguments Raise {A} e w.

(** State and exceptions threaded through the scripts. *)
Definition M (A : Type) : Type := World -> Res A.

Definition ret {A} (a : A) : M A := fun w => Ok a w.

Definition bind {A B} (c : M A) (k : A -> M B) : M B :=
  fun w => match c w with
           | Ok a w' => k a w'
           | Raise e w' => Raise e w'
           end.

Definition raise {A} (e : exn) : M A := fun w => Raise e w.

Declare Scope script_scope.
Delimit Scope script_scope with script.
Notation "x <- c ;; k" := (bind c (fun x => k))
  (at level 61, c at next level, right associativity) : script_scope.
Notation "c ;; k" := (bind c (fun _ => k))
  (at level 61, right associativity) : script_scope.
Local Open Scope script_scope.

(** [for i in l: acc = body(i, acc)]. *)
Fixpoint for_each {I A} (l : list I) (body : I -> A -> M A) (acc : A) : M A :=
  match l with
  | [] => ret acc
  | i :: rest => acc' <- body i acc ;; for_each rest body acc'
  end.

Definition lookup {A} (l : list A) (i : Z) : M A :=
  match Py.getitem l i with
  | Some a => ret a
  | None => raise IndexError
  end.

Section Lab.
Variable lab : Collaborators.

(** [x, y = joy.getX(), -joy.getY()] *)
Definition joy_sample : M (Q * Q) := fun w =>
  Ok (getX lab (joy_reads w), (- getY lab (joy_reads w))%Q)
     (mkWorld (S (joy_reads w)) (clock_reads w) (key_polls w) (rng_draws w)
              (target w) (cursor_pos w) (back_buffer w) (presented w) (disk w)).

(** [exp_clock.getTime()] *)
Definition clock_getTime : M Q := fun w =>
  Ok (getTime lab (clock_reads w))
     (mkWorld (joy_reads w) (S (clock_reads w)) (key_polls w) (rng_draws w)
              (target w) (cursor_pos w) (back_buffer w) (presented w) (disk w)).

(** [event.getKeys(keyList=['q'])], as a truth value *)
Definition event_getKeys : M bool := fun w =>
  Ok (getKeys lab (key_polls w))
     (mkWorld (joy_reads w) (clock_reads w) (S (key_polls w)) (rng_draws w)
              (target w) (cursor_pos w) (back_buffer w) (presented w) (disk w)).

(** [np.random.uniform(low, high)] *)
Definition random_uniform (low high : Q) : M Q := fun w =>
  Ok (uniform lab low high (rng_draws w))
     (mkWorld (joy_reads w) (clock_reads w) (key_polls w) (S (rng_draws w))
              (target w) (cursor_pos w) (back_buffer w) (presented w) (disk w)).

Definition set_target (f : Circle -> Circle) : M unit := fun w =>
  Ok tt (mkWorld (joy_reads w) (clock_reads w) (key_polls w) (rng_draws w)
                 (f (target w)) (cursor_pos w) (back_buffer w) (presented w)
                 (disk w)).

Definition set_cursor_pos (p : Q * Q) : M unit := fun w =>
  Ok tt (mkWorld (joy_reads w) (clock_reads w) (key_polls w) (rng_draws w)
                 (target w) p (back_buffer w) (presented w) (disk w)).

Definition draw (d : World -> Draw) : M unit := fun w =>
  Ok tt (mkWorld (joy_reads w) (clock_reads w) (key_polls w) (rng_draws w)
                 (target w) (cursor_pos w) (back_buffer w ++ [d w])
                 (presented w) (disk w)).

Definition target_draw : M unit := draw (fun w => drawn_target (target w)).
Definition cursor_draw : M unit := draw (fun w => drawn_cursor (cursor_pos w)).
Definition text_draw (s : string) : M unit := draw (fun _ => drawn_text s).
Definition blank_draw : M unit := draw (fun _ => drawn_blank).

(** [win.flip()]: the back buffer becomes the frame on screen. *)
Definition win_flip : M unit := fun w =>
  Ok tt (mkWorld (joy_reads w) (clock_reads w) (key_polls w) (rng_draws w)
                 (target w) (cursor_pos w) [] (back_buffer w :: presented w)
                 (disk w)).

Definition write (f : FileWrite) : M unit := fun w =>
  Ok tt (mkWorld (joy_reads w) (clock_reads w) (key_polls w) (rng_draws w)
                 (target w) (cursor_pos w) (back_buffer w) (presented w)
                 (f :: disk w)).
End Lab.

(** Attribute assignments on the target. *)
Definition with_fillColor (c : option Color) (t : Circle) : Circle :=
  mkCircle c (lineColor t) (pos t).
Definition with_lineColor (c : Color) (t : Circle) : Circle :=
  mkCircle (fillColor t) c (pos t).
Definition with_pos (p : Q * Q) (t : Circle) : Circle :=
  mkCircle (fillColor t) (lineColor t) p.

(** ** The adaptation task ([adaptation_main.py]) *)

Module Adaptation.

Definition NO_PERTURBATION_TRIAL : Z := 80.
Definition ADAPTATION_PHASE_START : Z := 80.
Definition ADAPTATION_PHASE_END : Z := 230.

Inductive ExperimentPhases : Set :=
| NO_PERTURBATION
| ADAPTATION
| AFTER_EFFECT.

(** The keys of [config/exp_settings.json] the runner reads. *)
Record Settings : Set := mkSettings {
  n_trial : Z;
  target_angle : Q;
  scaling : Q;
  starting_radius : Q;
  hidden_radius : Q;
  fixation_time : Q;
  ready_time : Q;
  go_time : Q;
  post_go_time : Q;
  ITI : Q * Q;
  target_origin : Q * Q }.

(** The part of [ExperimentSetup] the runner reads. *)
Record Setup : Set := mkSetup {
  settings : Settings;
  framerate_r : Q }.

(** [ExperimentSetup.get_framerate], from the measured rate. *)
Definition get_framerate (framerate : Q) : Q := inject_Z (Py.round framerate).

Definition determine_experiment_phase (trial : Z) : ExperimentPhases :=
  if (trial <? NO_PERTURBATION_TRIAL)%Z then NO_PERTURBATION
  else if ((ADAPTATION_PHASE_START <=? trial)%Z
           && (trial <=? ADAPTATION_PHASE_END)%Z) then ADAPTATION
  else AFTER_EFFECT.

(** What [run_phase] returns. *)
Record PhaseResult : Set := mkPhaseResult {
  exp_phase_onset : Q;
  tmp : Trace;
  tmp_start : Z;
  tmp_full : Z }.

(** The local variables of the frame loop of [run_phase]. *)
Record Locals : Set := mkLocals {
  l_tmp : Trace;
  l_start : Z;
  l_full : Z }.

Section Runner.
Variable lab : Collaborators.
Variable setup : Setup.

Definition PERTURBATION_ANGLE : Q := radians lab 60.

(** The perturbation [run] hands to [execute_trial]. *)
Definition perturbation_of (current_phase : ExperimentPhases) : Q :=
  match current_phase with
  | NO_PERTURBATION => 0
  | ADAPTATION => PERTURBATION_ANGLE
  | AFTER_EFFECT => 0
  end.

Definition trial_perturbation (trial : Z) : Q :=
  perturbation_of (determine_experiment_phase trial).

Definition generate_angle_list : list Q :=
  Py.list_mul
    (map (fun i => radians lab (target_angle (settings setup) * inject_Z i))
         (Py.arange 5))
    (Py.int (inject_Z (n_trial (settings setup)) / 5)).

(** The movement test of the go phase. *)
Definition go_branch (radius : Q) (l : Locals) : M Locals :=
  if Py.Qlt_bool radius (starting_radius (settings setup)) then
    cursor_draw ;; ret l
  else if Py.Qlt_bool radius (hidden_radius (settings setup) * 0.9) then
    ret (mkLocals (l_tmp l) 1 (l_full l))
  else
    cursor_draw ;; ret (mkLocals (l_tmp l) (l_start l) 1).

(** One iteration of the frame loop of [run_phase]. *)
Definition phase_frame (perturbation : Q) (phase_name : string)
    (go_phase : bool) (frame_n : Z) (l : Locals) : M Locals :=
  xy <- joy_sample lab ;;
  t <- clock_getTime lab ;;
  let l := mkLocals (record_sample (l_tmp l) (fst xy) (snd xy) t)
                    (l_start l) (l_full l) in
  let x := (fst xy * scaling (settings setup))%Q in
  let y := (snd xy * scaling (settings setup))%Q in
  let theta := fst (cart2pol lab x y) in
  let radius := snd (cart2pol lab x y) in
  let theta := (theta + perturbation)%Q in
  set_cursor_pos (pol2cart lab theta radius) ;;
  l <- (if go_phase then go_branch radius l else ret l) ;;
  (if String.eqb phase_name "ready" then cursor_draw else target_draw) ;;
  win_flip ;;
  ret l.

Definition run_phase (duration perturbation : Q) (phase_name : string)
    (go_phase : bool) : M PhaseResult :=
  onset <- clock_getTime lab ;;
  l <- for_each (Py.arange (Py.int (framerate_r setup * duration)))
                (phase_frame perturbation phase_name go_phase)
                (mkLocals empty_trace 0 0) ;;
  ret (mkPhaseResult onset (l_tmp l) (l_start l) (l_full l)).

(** "don't start any trial unless joy pos is central": the loop polls
    until the joystick is released; [patience] bounds the polls. *)
Fixpoint centering_gate (patience : nat) : M unit :=
  match patience with
  | O => raise StillWaiting
  | S patience' =>
      xy <- joy_sample lab ;;
      let x := (fst xy * scaling (settings setup))%Q in
      let y := (snd xy * scaling (settings setup))%Q in
      let radius := snd (cart2pol lab x y) in
      if Qle_bool (starting_radius (settings setup)) radius then
        text_draw "Release the joysitic" ;;
        win_flip ;;
        centering_gate patience'
      else ret tt
  end.

(** The movement flags of [execute_trial] when the trial starts. *)
Definition reset_movement : Z * Z := (0, 0)%Z.

(** [start_mov += tmp_start; full_mov += tmp_full] *)
Definition add_movement (mov : Z * Z) (go : PhaseResult) : Z * Z :=
  (fst mov + tmp_start go, snd mov + tmp_full go)%Z.

(** [execute_trial], as far as it runs: [run_phase] returns six values
    and the call for the fixation phase unpacks them into four names,
    which raises [ValueError]; the statements after it, among them the GO
    phase and [add_movement], are not reached. *)
Definition execute_trial (patience : nat) (trial : Z) (perturbation : Q)
    : M unit :=
  target_draw ;;
  win_flip ;;
  centering_gate patience ;;
  set_target (with_fillColor None) ;;
  set_target (with_pos (target_origin (settings setup))) ;;
  res <- run_phase (fixation_time (settings setup)) perturbation
                   "fixation" false ;;
  raise ValueError.

(** The trial loop of [run], with the quit check.  The perturbation is
    chosen from the phase of the trial before the trial is executed. *)
Fixpoint run_loop (patience : nat) (trials : list Z) : M unit :=
  match trials with
  | [] => ret tt
  | trial :: rest =>
      quit <- event_getKeys lab ;;
      if quit then ret tt
      else
        let current_phase := determine_experiment_phase trial in
        let perturbation := perturbation_of current_phase in
        execute_trial patience trial perturbation ;;
        run_loop patience rest
  end.

(** [run], from the instruction screen to the end of the trial loop. *)
Definition run (patience : nat) : M unit :=
  text_draw "Press space bar to start" ;;
  win_flip ;;
  blank_draw ;;
  win_flip ;;
  exp_start <- clock_getTime lab ;;
  run_loop patience (Py.arange (n_trial (settings setup))).
End Runner.

End Adaptation.

(** ** The stop-signal pilot ([stop-signal_pilot.py]) *)

Module StopSignal.

(** The "exp settings" block of the script, with the subject, the session
    and the rounded frame rate.  [ssd_start] is the value [ssd] is
    initialised with; [ssd_step] is the amount the script writes at both
    sites of the staircase.  Both are doubles in the script. *)
Record Settings : Set := mkSettings {
  subj_ID : string;
  session_no : Z;
  framerate_r : Q;
  Ntrial : Z;
  stop_trial : Z;
  target_angle : Q;
  hidden_radius : Q;
  target_origin : Q * Q;
  starting_radius : Q;
  scaling : Q;
  fix_time : Q;
  ready_time : Q;
  go_time : Q;
  ssd_start : Q;
  ssd_step : Q;
  post_go_time : Q;
  ITI_bounds : Q * Q }.

(** The values the script ships with: [.2] and [.05] stand for the doubles
    nearest to them, the other literals are doubles as they are written. *)
Definition shipped (subj : string) (session : Z) (framerate : Q) : Settings :=
  {| subj_ID := subj;
     session_no := session;
     framerate_r := inject_Z (Py.round framerate);
     Ntrial := 310;
     stop_trial := 100;
     target_angle := 45;
     hidden_radius := 10;
     target_origin := (0, 0);
     starting_radius := 1;
     scaling := 12;
     fix_time := 0.750;
     ready_time := 1.5;
     go_time := 0.750;
     ssd_start := Py.float 0.2;
     ssd_step := Py.float 0.05;
     post_go_time := 1.25;
     ITI_bounds := (0.5, 0.75) |}.

(** The variables that live across trials. *)
Record Vars : Set := mkVars {
  ssd : Q;
  data_dict : list Row }.

(** The variables of one trial. *)
Record TrialVars : Set := mkTrialVars {
  trial_trace : Trace;
  start_mov : Z;
  full_mov : Z }.

Section Script.
Variable lab : Collaborators.
Variable cfg : Settings.

(** The lists before [rnd.shuffle]. *)
Definition angle_list_unshuffled : list Q :=
  Py.list_mul
    (map (fun i => radians lab (target_angle cfg * inject_Z i)) (Py.arange 5))
    (Py.int (inject_Z (Ntrial cfg) / 5)).

Definition go_list_unshuffled : list Z :=
  Py.list_mul [1%Z] (Ntrial cfg - stop_trial cfg)
  ++ Py.list_mul [0%Z] (stop_trial cfg).

(** "don't start any trial unless joy pos is central": the loop polls
    until the joystick is released; [patience] bounds the polls. *)
Fixpoint centering_gate (patience : nat) : M unit :=
  match patience with
  | O => raise StillWaiting
  | S patience' =>
      xy <- joy_sample lab ;;
      let x := (fst xy * scaling cfg)%Q in
      let y := (snd xy * scaling cfg)%Q in
      let radius := snd (cart2pol lab x y) in
      if Qle_bool (starting_radius cfg) radius then
        text_draw "Release the joysitic" ;;
        win_flip ;;
        centering_gate patience'
      else ret tt
  end.

(** A frame of the fixation, ready and post-GO loops; [stim_draw] is the
    one draw call in which the three loops differ. *)
Definition rest_frame (stim_draw : M unit) (frameN : Z) (tr : Trace)
    : M Trace :=
  xy <- joy_sample lab ;;
  t <- clock_getTime lab ;;
  let tr := record_sample tr (fst xy) (snd xy) t in
  let x := (fst xy * scaling cfg)%Q in
  let y := (snd xy * scaling cfg)%Q in
  let theta := fst (cart2pol lab x y) in
  let radius := snd (cart2pol lab x y) in
  set_cursor_pos (pol2cart lab theta radius) ;;
  stim_draw ;;
  win_flip ;;
  ret tr.

(** A frame of the GO loop. *)
Definition go_frame (go_list : list Z) (trial : Z) (ssd : Q)
    (frameN : Z) (tv : TrialVars) : M TrialVars :=
  xy <- joy_sample lab ;;
  t <- clock_getTime lab ;;
  let tv := mkTrialVars (record_sample (trial_trace tv) (fst xy) (snd xy) t)
                        (start_mov tv) (full_mov tv) in
  let x := (fst xy * scaling cfg)%Q in
  let y := (snd xy * scaling cfg)%Q in
  let theta := fst (cart2pol lab x y) in
  let radius := snd (cart2pol lab x y) in
  set_cursor_pos (pol2cart lab theta radius) ;;
  (if (frameN =? Py.int (framerate_r cfg * ssd))%Z then
     go <- lookup go_list trial ;;
     if negb (Py.truthy go) then
       set_target (with_fillColor (Some red)) ;;
       set_target (with_lineColor red)
     else ret tt
   else ret tt) ;;
  target_draw ;;
  tv <- (if Py.Qlt_bool radius (starting_radius cfg) then
           cursor_draw ;; ret tv
         else if Py.Qlt_bool radius (hidden_radius cfg * 0.9) then
           ret (mkTrialVars (trial_trace tv) 1 (full_mov tv))
         else
           cursor_draw ;; ret (mkTrialVars (trial_trace tv) (start_mov tv) 1)) ;;
  win_flip ;;
  ret tv.

Definition go_loop (go_list : list Z) (trial : Z) (ssd : Q)
    (tv : TrialVars) : M TrialVars :=
  for_each (Py.arange (Py.int (framerate_r cfg * go_time cfg)))
           (go_frame go_list trial ssd) tv.

(** "increase or reduce ssd": [ssd -= .05] and [ssd += .05] on floats. *)
Definition staircase (go full_mov : Z) (ssd : Q) : Q :=
  if negb (Py.truthy go) then
    if Py.truthy full_mov then Py.float (ssd - ssd_step cfg)
    else Py.float (ssd + ssd_step cfg)
  else ssd.

(** The body of the trial loop, after the quit check. *)
Definition trial_body (patience : nat) (angle_list : list Q)
    (go_list : list Z) (trial : Z) (v : Vars) : M Vars :=
  target_draw ;;
  win_flip ;;
  centering_gate patience ;;
  (* fixation - rest *)
  set_target (with_fillColor None) ;;
  set_target (with_pos (target_origin cfg)) ;;
  exp_fix_onset <- clock_getTime lab ;;
  tr <- for_each (Py.arange (Py.int (framerate_r cfg * fix_time cfg)))
                 (rest_frame target_draw) empty_trace ;;
  (* ready cue *)
  exp_ready_onset <- clock_getTime lab ;;
  tr <- for_each (Py.arange (Py.int (framerate_r cfg * ready_time cfg)))
                 (rest_frame cursor_draw) tr ;;
  (* GO cue *)
  set_target (with_fillColor (Some green)) ;;
  set_target (with_lineColor green) ;;
  angle <- lookup angle_list trial ;;
  set_target (with_pos (pol2cart lab angle (hidden_radius cfg))) ;;
  exp_go_onset <- clock_getTime lab ;;
  tv <- go_loop go_list trial (ssd v) (mkTrialVars tr 0 0) ;;
  (* post-GO cue *)
  set_target (with_fillColor None) ;;
  set_target (with_lineColor white) ;;
  set_target (with_pos (target_origin cfg)) ;;
  exp_post_go_onset <- clock_getTime lab ;;
  tr <- for_each (Py.arange (Py.int (framerate_r cfg * post_go_time cfg)))
                 (rest_frame target_draw) (trial_trace tv) ;;
  (* ITI *)
  exp_iti_onset <- clock_getTime lab ;;
  ITI_time <- random_uniform lab (fst (ITI_bounds cfg)) (snd (ITI_bounds cfg)) ;;
  target_draw ;;
  win_flip ;;
  (* operations during ITI *)
  angle <- lookup angle_list trial ;;
  go <- lookup go_list trial ;;
  let row :=
    {| col_ID := subj_ID cfg;
       col_trial := trial;
       col_fix_dur := Py.float (exp_ready_onset - exp_fix_onset);
       col_ready_dur := Py.float (exp_go_onset - exp_ready_onset);
       col_go_dur := Py.float (exp_post_go_onset - exp_go_onset);
       col_post_go_dur := Py.float (exp_iti_onset - exp_post_go_onset);
       col_ITI_dur := ITI_time;
       col_SSD := ssd v;
       col_target_angle := angle;
       col_GO_Stop := go;
       col_start_mov := start_mov tv;
       col_full_mov := full_mov tv |} in
  let data_dict := (data_dict v ++ [row])%list in
  write (to_csv data_dict) ;;
  write (np_save trial tr) ;;
  go <- lookup go_list trial ;;
  ret (mkVars (staircase go (full_mov tv) (ssd v)) data_dict).

(** [for trial in np.arange(Ntrial)], with the quit check. *)
Fixpoint trial_loop (patience : nat) (angle_list : list Q)
    (go_list : list Z) (trials : list Z) (v : Vars) : M Vars :=
  match trials with
  | [] => ret v
  | trial :: rest =>
      quit <- event_getKeys lab ;;
      if quit then ret v
      else
        v' <- trial_body patience angle_list go_list trial v ;;
        trial_loop patience angle_list go_list rest v'
  end.

(** The script from the instruction screen on; [angle_list] and
    [go_list] are the shuffled lists. *)
Definition session (patience : nat) (angle_list : list Q)
    (go_list : list Z) : M Vars :=
  text_draw "Press space bar to start" ;;
  win_flip ;;
  blank_draw ;;
  win_flip ;;
  exp_start <- clock_getTime lab ;;
  trial_loop patience angle_list go_list (Py.arange (Ntrial cfg))
             (mkVars (ssd_start cfg) []).
End Script.

End StopSignal.

(** ** What the frame loops read and show, frame by frame *)

(** The two zones of the movement test that set a flag, as the code reaches
    them: not below the start radius and below 0.9 of the hidden radius, or
    below neither.  Below the start radius no flag is set. *)
Definition in_transit (starting hidden radius : Q) : bool :=
  negb (Py.Qlt_bool radius starting) && Py.Qlt_bool radius (hidden * 0.9).
Definition arrived (starting hidden radius : Q) : bool :=
  negb (Py.Qlt_bool radius starting) && negb (Py.Qlt_bool radius (hidden * 0.9)).

(** The target once the stop cue is on. *)
Definition stop_cue (t : Circle) : Circle :=
  with_lineColor red (with_fillColor (Some red) t).

(** The target a GO loop that started with target [t0] holds once [n]
    frames are done, the cue being due at frame [k] of a trial labelled
    [go]. *)
Definition target_after (go k : Z) (t0 : Circle) (n : nat) : Circle :=
  if negb (Py.truthy go) && ((0 <=? k)%Z && (k <? Z.of_nat n)%Z)
  then stop_cue t0 else t0.

Section Views.
Variable lab : Collaborators.
Variable scaling starting hidden : Q.
(** The loop starts at the [r]-th sampling of the joystick and the
    [c]-th reading of the clock. *)
Variable r c : nat.

(** The sample taken at frame [j]. *)
Definition sample_x (j : nat) : Q := getX lab (r + j).
Definition sample_y (j : nat) : Q := (- getY lab (r + j))%Q.
Definition sample_t (j : nat) : Q := getTime lab (c + j).
Definition sample_theta (j : nat) : Q :=
  fst (cart2pol lab (sample_x j * scaling) (sample_y j * scaling)).
Definition sample_radius (j : nat) : Q :=
  snd (cart2pol lab (sample_x j * scaling) (sample_y j * scaling)).

(** Whether one of the first [n] frames fell in zone [f]. *)
Definition moved (f : Q -> Q -> Q -> bool) (n : nat) : bool :=
  existsb (fun j => f starting hidden (sample_radius j)) (seq 0 n).

(** The samples of the first [n] frames, after those of [tr]. *)
Definition sampled (tr : Trace) (n : nat) : Trace :=
  mkTrace (xs tr ++ map sample_x (seq 0 n))
          (ys tr ++ map sample_y (seq 0 n))
          (ts tr ++ map sample_t (seq 0 n)).

(** Where the cursor is put at frame [j], its angle shifted by [shift]. *)
Definition cursor_at (shift : Q) (j : nat) : Q * Q :=
  pol2cart lab (sample_theta j + shift) (sample_radius j).

(** Where the stop-signal script, which shifts nothing, puts it. *)
Definition cursor_plain (j : nat) : Q * Q :=
  pol2cart lab (sample_theta j) (sample_radius j).

(** The frame the GO loop of the stop-signal script presents at [j]. *)
Definition go_screen (go k : Z) (t0 : Circle) (j : nat) : list Draw :=
  drawn_target (target_after go k t0 (S j))
  :: (if in_transit starting hidden (sample_radius j)
      then [] else [drawn_cursor (cursor_plain j)]).

(** The frame its other loops present at [j]. *)
Definition rest_screen (show_cursor : bool) (t0 : Circle) (j : nat)
    : list Draw :=
  [if show_cursor then drawn_cursor (cursor_plain j) else drawn_target t0].

(** The frame [run_phase] presents at [j]. *)
Definition phase_screen (perturbation : Q) (phase_name : string)
    (go_phase : bool) (t0 : Circle) (j : nat) : list Draw :=
  (if go_phase && negb (in_transit starting hidden (sample_radius j))
   then [drawn_cursor (cursor_at perturbation j)] else [])
  ++ [if String.eqb phase_name "ready"
      then drawn_cursor (cursor_at perturbation j)
      else drawn_target t0].
End Views.

(** ** The staircase over a sequence of trials *)

(** The outcome of a trial, as the staircase reads it: the GO/Stop label and
    [full_mov]. *)
Definition outcome_of (row : Row) : Z * Z := (col_GO_Stop row, col_full_mov row).

(** A stop trial on which the movement was withheld. *)
Definition is_withheld (o : Z * Z) : bool :=
  negb (Py.truthy (fst o)) && negb (Py.truthy (snd o)).

(** A stop trial on which the movement was completed all the same. *)
Definition is_not_withheld (o : Z * Z) : bool :=
  negb (Py.truthy (fst o)) && Py.truthy (snd o).

Definition count_of (f : Z * Z -> bool) (outcomes : list (Z * Z)) : Z :=
  Z.of_nat (length (filter f outcomes)).

(** The stop-signal delay after the trials of [outcomes], from [s0]. *)
Definition staircase_run (cfg : StopSignal.Settings) (outcomes : list (Z * Z))
    (s0 : Q) : Q :=
  fold_left (fun s o => StopSignal.staircase cfg (fst o) (snd o) s) outcomes s0.

(** [P] holds of the exact sum or difference of every update the staircase
    makes over [outcomes] from [s0], before that update is rounded. *)
Fixpoint at_updates (P : Q -> Prop) (cfg : StopSignal.Settings)
    (outcomes : list (Z * Z)) (s0 : Q) : Prop :=
  match outcomes with
  | [] => True
  | o :: rest =>
      (is_withheld o = true -> P (s0 + StopSignal.ssd_step cfg)%Q)
      /\ (is_not_withheld o = true -> P (s0 - StopSignal.ssd_step cfg)%Q)
      /\ at_updates P cfg rest (StopSignal.staircase cfg (fst o) (snd o) s0)
  end.

(** A stop trial, as the staircase tests it. *)
Definition is_stop (o : Z * Z) : bool := negb (Py.truthy (fst o)).

(** Each row logs the delay the staircase had reached before its trial. *)
Fixpoint chained (cfg : StopSignal.Settings) (s : Q) (rows : list Row) : Prop :=
  match rows with
  | [] => True
  | row :: rest =>
      col_SSD row = s /\
      chained cfg (StopSignal.staircase cfg (col_GO_Stop row) (col_full_mov row) s)
              rest
  end.

(** No step of [c] writes to the session directory. *)
Definition quiet {A} (c : M A) : Prop :=
  forall w a w', c w = Ok a w' -> disk w' = disk w.

(** The [j]-th frame presented between world [w] and the later world [w']. *)
Definition frame_no (w w' : World) (j : nat) : option (list Draw) :=
  nth_error (rev (presented w')) (length (presented w) + j).

Definition shows_cursor (frame : list Draw) : bool :=
  existsb (fun d => match d with drawn_cursor _ => true | _ => false end) frame.

Definition shows_stop_cue (frame : list Draw) : bool :=
  existsb (fun d => match d with
                    | drawn_target t =>
                        match fillColor t, lineColor t with
                        | Some red, _ | _, red => true
                        | _, _ => false
                        end
                    | _ => false
                    end) frame.

(** What a frame loop leaves of the world it started in. *)
Definition advanced (w w' : World) (n : nat) : Prop :=
  joy_reads w' = (joy_reads w + n)%nat
  /\ clock_reads w' = (clock_reads w + n)%nat
  /\ key_polls w' = key_polls w
  /\ rng_draws w' = rng_draws w
  /\ disk w' = disk w
  /\ length (presented w') = (length (presented w) + n)%nat.

(** ** A bench for worked examples *)

(** The joystick is pushed along the positive x axis through [readings]
    (holding the last one), where the polar radius is the x coordinate and
    the angle is 0; the clock ticks 60 times a second; nobody presses q.
    [pol2cart] is exact at angle 0 and [radians] takes 355/113 for pi. *)
Definition bench (readings : list Q) : Collaborators :=
  {| getX := fun k => nth k readings (last readings 0);
     getY := fun _ => 0;
     getTime := fun k => inject_Z (Z.of_nat k) / 60;
     getKeys := fun _ => false;
     uniform := fun low high _ => low;
     cart2pol := fun x y => (0, x);
     pol2cart := fun theta radius => (radius, radius * theta);
     radians := fun deg => deg * (355 # 113) / 180 |}.

(** The world when the script starts: nothing sampled, shown or written. *)
Definition fresh_world : World :=
  mkWorld 0 0 0 0 (mkCircle None white (0, 0)) (0, 0) [] [] [].

(** A runner for a display that refreshes [rate] times a second, with the
    thresholds of the scenarios: start radius 1, hidden radius 10. *)
Definition bench_setup (rate : Q) : Adaptation.Setup :=
  {| Adaptation.settings :=
       {| Adaptation.n_trial := 10;
          Adaptation.target_angle := 45;
          Adaptation.scaling := 1;
          Adaptation.starting_radius := 1;
          Adaptation.hidden_radius := 10;
          Adaptation.fixation_time := 0.75;
          Adaptation.ready_time := 1.5;
          Adaptation.go_time := 0.75;
          Adaptation.post_go_time := 1.25;
          Adaptation.ITI := (0.5, 0.75);
          Adaptation.target_origin := (0, 0) |};
     Adaptation.framerate_r := Adaptation.get_framerate rate |}.

(** A short stop-signal session: 4 frames a second, 5 trials of which the
    last 2 are stop trials, unit scaling, the shipped thresholds. *)
Definition bench_cfg : StopSignal.Settings :=
  {| StopSignal.subj_ID := "0001";
     StopSignal.session_no := 1;
     StopSignal.framerate_r := 4;
     StopSignal.Ntrial := 5;
     StopSignal.stop_trial := 2;
     StopSignal.target_angle := 45;
     StopSignal.hidden_radius := 10;
     StopSignal.target_origin := (0, 0);
     StopSignal.starting_radius := 1;
     StopSignal.scaling := 1;
     StopSignal.fix_time := 0.5;
     StopSignal.ready_time := 0.5;
     StopSignal.go_time := 1;
     StopSignal.ssd_start := 0.5;
     StopSignal.ssd_step := Py.float 0.05;
     StopSignal.post_go_time := 0.5;
     StopSignal.ITI_bounds := (0.5, 0.75) |}.

(** ** The centring gate and the shape of a trial *)

(** Whether the joystick is off centre at the [j]-th sampling from the
    [r]-th on: the test [radius >= starting_radius] of the gate. *)
Definition off_centre (lab : Collaborators) (scaling starting : Q) (r j : nat)
    : bool :=
  Qle_bool starting (sample_radius lab scaling r j).

(** The frame the gate presents while it waits. *)
Definition release_frame : list Draw := [drawn_text "Release the joysitic"].

(** The joystick is released at the [p]-th sampling from the [r]-th on, and
    not before. *)
Definition released_at (lab : Collaborators) (scaling starting : Q)
    (r p : nat) : Prop :=
  (forall j, (j < p)%nat -> off_centre lab scaling starting r j = true)
  /\ off_centre lab scaling starting r p = false.

Section TrialShape.
Variable lab : Collaborators.
Variable cfg : StopSignal.Settings.

(** The frames of a phase of the stop-signal script. *)
Definition frames_in (duration : Q) : nat :=
  Z.to_nat (Py.int (StopSignal.framerate_r cfg * duration)).

Definition fix_frames : nat := frames_in (StopSignal.fix_time cfg).
Definition ready_frames : nat := frames_in (StopSignal.ready_time cfg).
Definition go_frames : nat := frames_in (StopSignal.go_time cfg).
Definition post_go_frames : nat := frames_in (StopSignal.post_go_time cfg).

Definition trial_frames : nat :=
  (fix_frames + ready_frames + go_frames + post_go_frames)%nat.

(** The readings of the clock at which the phases of a trial begin, when
    the fixation onset is its [c]-th reading: every frame reads the clock
    once, and so does every onset. *)
Definition ready_tick (c : nat) : nat := (c + 1 + fix_frames)%nat.
Definition go_tick (c : nat) : nat := (ready_tick c + 1 + ready_frames)%nat.
Definition post_go_tick (c : nat) : nat := (go_tick c + 1 + go_frames)%nat.
Definition iti_tick (c : nat) : nat := (post_go_tick c + 1 + post_go_frames)%nat.

(** The trace of a trial whose fixation starts at the [r]-th sampling of the
    joystick and the [c]-th reading of the clock. *)
Definition trace_from (r c : nat) : Trace :=
  mkTrace (map (getX lab) (seq r trial_frames))
          (map (fun k => (- getY lab k)%Q) (seq r trial_frames))
          (map (getTime lab)
               (seq (S c) fix_frames ++ seq (S (ready_tick c)) ready_frames
                ++ seq (S (go_tick c)) go_frames
                ++ seq (S (post_go_tick c)) post_go_frames)).

(** The row of that trial, [n] being the draw of the random generator the
    ITI takes. *)
Definition row_from (trial : Z) (angle : Q) (go : Z) (ssd : Q) (r c n : nat)
    : Row :=
  let moved_in zone :=
    moved lab (StopSignal.scaling cfg) (StopSignal.starting_radius cfg)
          (StopSignal.hidden_radius cfg) (r + fix_frames + ready_frames)
          zone go_frames in
  {| col_ID := StopSignal.subj_ID cfg;
     col_trial := trial;
     col_fix_dur := Py.float (getTime lab (ready_tick c) - getTime lab c);
     col_ready_dur :=
       Py.float (getTime lab (go_tick c) - getTime lab (ready_tick c));
     col_go_dur :=
       Py.float (getTime lab (post_go_tick c) - getTime lab (go_tick c));
     col_post_go_dur :=
       Py.float (getTime lab (iti_tick c) - getTime lab (post_go_tick c));
     col_ITI_dur := uniform lab (fst (StopSignal.ITI_bounds cfg))
                            (snd (StopSignal.ITI_bounds cfg)) n;
     col_SSD := ssd;
     col_target_angle := angle;
     col_GO_Stop := go;
     col_start_mov := if moved_in in_transit then 1%Z else 0%Z;
     col_full_mov := if moved_in arrived then 1%Z else 0%Z |}.

(** The frames of that trial, oldest first: the target as the trial finds
    it (after [b0], what the back buffer held), the [p] release prompts of
    the gate, the frames of the four phases, and the frame of the ITI.
    [t0] is the target the trial starts with, [r] the sampling at which the
    fixation begins. *)
Definition trial_screens (b0 : list Draw) (t0 : Circle) (angle : Q) (go : Z)
    (ssd : Q) (p r : nat) : list (list Draw) :=
  let sc := StopSignal.scaling cfg in
  let st := StopSignal.starting_radius cfg in
  let hd := StopSignal.hidden_radius cfg in
  let k := Py.int (StopSignal.framerate_r cfg * ssd) in
  let fix_target := mkCircle None (lineColor t0) (StopSignal.target_origin cfg) in
  let go_target := mkCircle (Some green) green (pol2cart lab angle hd) in
  let rest_target := mkCircle None white (StopSignal.target_origin cfg) in
  ((b0 ++ [drawn_target t0]) :: repeat release_frame p)
  ++ map (rest_screen lab sc r false fix_target) (seq 0 fix_frames)
  ++ map (rest_screen lab sc (r + fix_frames) true fix_target)
         (seq 0 ready_frames)
  ++ map (go_screen lab sc st hd (r + fix_frames + ready_frames) go k go_target)
         (seq 0 go_frames)
  ++ map (rest_screen lab sc (r + fix_frames + ready_frames + go_frames) false
                      rest_target)
         (seq 0 post_go_frames)
  ++ [[drawn_target rest_target]].
End TrialShape.

(** ** What a session leaves on disk *)

(** The writes of a run of trials, oldest first: after each trial the data
    frame with all the rows so far, then the trace of that trial. *)
Fixpoint trial_writes (done : list Row) (todo : list (Row * Trace))
    : list FileWrite :=
  match todo with
  | [] => []
  | (row, joy) :: rest =>
      to_csv (done ++ [row]) :: np_save (col_trial row) joy
      :: trial_writes (done ++ [row]) rest
  end.

(** What every row of a session takes from the settings and the two lists. *)
Definition row_follows (cfg : StopSignal.Settings) (angle_list : list Q)
    (go_list : list Z) (row : Row) : Prop :=
  col_ID row = StopSignal.subj_ID cfg
  /\ Py.getitem angle_list (col_trial row) = Some (col_target_angle row)
  /\ Py.getitem go_list (col_trial row) = Some (col_GO_Stop row).

(** ** A session with the joystick at rest *)

(** The joystick rests at the centre: every sampling is inside the start
    radius. *)
Definition at_rest (lab : Collaborators) (scaling starting : Q) : Prop :=
  forall k, off_centre lab scaling starting 0 k = false.

(** The number of stop trials among the first [n] labels of [go_list]. *)
Definition stop_trials_among (go_list : list Z) (n : nat) : Z :=
  Z.of_nat (length (filter (fun go => negb (Py.truthy go)) (firstn n go_list))).

(** ** The names of the files of a session *)

(** [str(n)] on an integer. *)
Definition str (n : Z) : string := NilZero.string_of_int (Z.to_int n).

(** [s.zfill(width)]: zeros on the left up to [width], after a leading
    sign if there is one. *)
Definition zfill (s : string) (width : nat) : string :=
  let zeros :=
    string_of_list_ascii (repeat "0"%char (width - String.length s)) in
  match s with
  | String c rest =>
      if (Ascii.eqb c "-" || Ascii.eqb c "+")%bool
      then String c (zeros ++ rest)
      else zeros ++ s
  | EmptyString => zeros
  end.

(** [subj_ID = str(subject).zfill(4)] *)
Definition subj_id (subject : Z) : string := zfill (str subject) 4.

(** [data_filename = "ses{}_{}.csv".format(session, subj_ID)] *)
Definition data_filename (session : Z) (subj_ID : string) : string :=
  "ses" ++ str session ++ "_" ++ subj_ID ++ ".csv".

(** The last component of [joy_dir]: [data_filename[:-4]]. *)
Definition joy_dir (session : Z) (subj_ID : string) : string :=
  let name := data_filename session subj_ID in
  substring 0 (String.length name - 4) name.

(** [joy_filename = "ses{}_{}_trial{}.npy".format(session, subj_ID,
    str(trial).zfill(4))] *)
Definition joy_filename (session : Z) (subj_ID : string) (trial : Z) : string :=
  "ses" ++ str session ++ "_" ++ subj_ID ++ "_trial" ++ zfill (str trial) 4
  ++ ".npy".

(** [int(s)] on a string of decimal digits. *)
Definition int_of_digits (s : string) : option Z :=
  option_map Z.of_uint (NilEmpty.uint_of_string s).

(** [k] zeros in front of the digits [d]. *)
Fixpoint zeros_then (k : nat) (d : Decimal.uint) : Decimal.uint :=
  match k with
  | O => d
  | S k' => Decimal.D0 (zeros_then k' d)
  end.

(** * Proofs *)

(** ** Facts about the primitives *)

Lemma Qlt_bool_iff (a b : Q) : Py.Qlt_bool a b = true <-> (a < b)%Q.
Proof. unfold Py.Qlt_bool, Qlt. apply Z.ltb_lt. Qed.

Lemma Qlt_bool_false_iff (a b : Q) : Py.Qlt_bool a b = false <-> (b <= a)%Q.
Proof. unfold Py.Qlt_bool, Qle. apply Z.ltb_ge. Qed.

Lemma length_arange (n : Z) : length (Py.arange n) = Z.to_nat n.
Proof. unfold Py.arange. now rewrite length_map, length_seq. Qed.

Lemma arange_S (n : nat) :
  map Z.of_nat (seq 0 (S n)) = map Z.of_nat (seq 0 n) ++ [Z.of_nat n].
Proof. now rewrite seq_S, map_app. Qed.

Lemma In_arange (n i : Z) : In i (Py.arange n) <-> (0 <= i < n)%Z.
Proof.
  unfold Py.arange. rewrite in_map_iff. split.
  - intros (k & <- & Hk). apply in_seq in Hk. lia.
  - intros H. exists (Z.to_nat i). split; [lia|]. apply in_seq. lia.
Qed.

Lemma int_fifth (n : Z) : Py.int (inject_Z n / 5) = Z.quot n 5.
Proof. unfold Py.int. simpl. now rewrite Z.mul_1_r. Qed.

Lemma length_list_mul {A} (l : list A) (k : Z) :
  length (Py.list_mul l k) = (length l * Z.to_nat k)%nat.
Proof.
  unfold Py.list_mul. induction (Z.to_nat k) as [|m IH]; simpl.
  - lia.
  - rewrite length_app, IH. lia.
Qed.

Lemma getitem_nonneg {A} (l : list A) (i : Z) :
  (0 <= i)%Z -> Py.getitem l i = nth_error l (Z.to_nat i).
Proof. intros H. unfold Py.getitem. destruct (Z.ltb_spec i 0); [lia|reflexivity]. Qed.

Lemma bind_Ok {A B} (c : M A) (k : A -> M B) w b w' :
  bind c k w = Ok b w' <-> exists a w1, c w = Ok a w1 /\ k a w1 = Ok b w'.
Proof.
  unfold bind. split.
  - destruct (c w) as [a w1|e w1]; [eauto | discriminate].
  - intros (a & w1 & -> & H). exact H.
Qed.

Lemma for_each_app {I A} (l1 l2 : list I) (body : I -> A -> M A) acc w :
  for_each (l1 ++ l2) body acc w =
  match for_each l1 body acc w with
  | Ok a w1 => for_each l2 body a w1
  | Raise e w1 => Raise e w1
  end.
Proof.
  revert acc w. induction l1 as [|i l1 IH]; intros acc w; simpl.
  - reflexivity.
  - unfold bind. destruct (body i acc w) as [a w1|e w1]; [apply IH | reflexivity].
Qed.

(** ** Rounding to the nearest double *)

Lemma round_cases (x : Q) :
  Py.round x = Qfloor x \/ Py.round x = (Qfloor x + 1)%Z.
Proof.
  unfold Py.round. destruct (x - inject_Z (Qfloor x) ?= 1 # 2)%Q; auto.
  destruct (Z.even (Qfloor x)); auto.
Qed.

Lemma round_error (x : Q) : (Qabs (inject_Z (Py.round x) - x) <= 1 # 2)%Q.
Proof.
  pose proof (Qfloor_le x) as Hlo. pose proof (Qlt_floor x) as Hhi.
  rewrite inject_Z_plus in Hhi. change (inject_Z 1) with 1%Q in Hhi.
  apply Qabs_Qle_condition. unfold Py.round.
  destruct (x - inject_Z (Qfloor x) ?= 1 # 2)%Q eqn:E.
  - apply Qeq_alt in E. destruct (Z.even (Qfloor x));
      rewrite ?inject_Z_plus; change (inject_Z 1) with 1%Q; split; lra.
  - apply Qlt_alt in E. split; lra.
  - apply Qgt_alt in E. rewrite inject_Z_plus. change (inject_Z 1) with 1%Q.
    split; lra.
Qed.

Lemma round_nonneg (x : Q) : (0 <= x)%Q -> (0 <= Py.round x)%Z.
Proof.
  intros Hx. assert (0 <= Qfloor x)%Z.
  { change 0%Z with (Qfloor 0). apply Qfloor_resp_le. exact Hx. }
  destruct (round_cases x) as [-> | ->]; lia.
Qed.

Lemma ulp_pos (x : Q) : (0 < Py.ulp x)%Q.
Proof. unfold Py.ulp. apply Qpower_0_lt. reflexivity. Qed.

Lemma float_eq (x : Q) :
  ~ (x == 0)%Q ->
  (Py.float x == inject_Z (Py.round (x / Py.ulp x)) * Py.ulp x)%Q.
Proof.
  intros Hx. unfold Py.float. destruct (Qeq_bool x 0) eqn:E.
  - apply Qeq_bool_iff in E. contradiction.
  - apply Qred_correct.
Qed.

Lemma float_0 (x : Q) : (x == 0)%Q -> Py.float x = 0%Q.
Proof.
  intros Hx. unfold Py.float. apply Qeq_bool_iff in Hx. now rewrite Hx.
Qed.

Lemma float_nonneg (x : Q) : (0 <= x)%Q -> (0 <= Py.float x)%Q.
Proof.
  intros Hx. destruct (Qeq_dec x 0) as [E|E].
  - rewrite (float_0 x E). apply Qle_refl.
  - rewrite (float_eq x E). pose proof (ulp_pos x) as Hu.
    apply Qmult_le_0_compat; [|apply Qlt_le_weak; exact Hu].
    change 0%Q with (inject_Z 0). rewrite <- Zle_Qle. apply round_nonneg.
    apply Qle_shift_div_l; [exact Hu|]. rewrite Qmult_0_l. exact Hx.
Qed.

(** The error of rounding is at most half a unit in the last place. *)
Lemma float_error (x : Q) : (Qabs (Py.float x - x) <= Py.ulp x * (1 # 2))%Q.
Proof.
  pose proof (ulp_pos x) as Hu. destruct (Qeq_dec x 0) as [E|E].
  - rewrite (float_0 x E).
    assert (Hz : (Qabs (0 - x) == 0)%Q) by (rewrite E; reflexivity).
    rewrite Hz.
    apply Qmult_le_0_compat; [apply Qlt_le_weak; exact Hu | discriminate].
  - rewrite (float_eq x E).
    assert (Hsplit : (inject_Z (Py.round (x / Py.ulp x)) * Py.ulp x - x
                      == (inject_Z (Py.round (x / Py.ulp x)) - x / Py.ulp x)
                         * Py.ulp x)%Q).
    { field. intros H0. rewrite H0 in Hu. discriminate Hu. }
    rewrite Hsplit, Qabs_Qmult, (Qabs_pos (Py.ulp x)) by (apply Qlt_le_weak; exact Hu).
    rewrite (Qmult_comm (Py.ulp x)).
    apply Qmult_le_compat_r; [apply round_error | apply Qlt_le_weak; exact Hu].
Qed.

Lemma Qpower2_inject (k : Z) : (0 <= k)%Z -> (inject_Z (2 ^ k) == 2 ^ k)%Q.
Proof. intros Hk. rewrite Zpower_Qpower by exact Hk. reflexivity. Qed.

(** [ilog2] is the floor of the binary logarithm. *)
Lemma ilog2_le (x : Q) : (0 < x)%Q -> (2 ^ Py.ilog2 x <= x)%Q.
Proof.
  intros Hx. unfold Py.ilog2.
  destruct (Qle_bool (2 ^ (Z.log2 (Qnum x) - Z.log2 (Z.pos (Qden x)))) x) eqn:E.
  - apply Qle_bool_iff. exact E.
  - clear E. destruct x as [n d]. cbn [Qnum Qden].
    assert (Hn : (0 < n)%Z) by (unfold Qlt in Hx; cbn in Hx; lia).
    pose proof (Z.log2_spec n Hn) as [Ha _].
    pose proof (Z.log2_spec (Z.pos d) ltac:(lia)) as [_ Hb].
    pose proof (Z.log2_nonneg n) as Ha0.
    pose proof (Z.log2_nonneg (Z.pos d)) as Hb0.
    set (a := Z.log2 n) in *. set (b := Z.log2 (Z.pos d)) in *.
    replace (a - b - 1)%Z with (a + - Z.succ b)%Z by lia.
    rewrite Qpower_plus by discriminate. rewrite Qpower_opp.
    rewrite <- (Qpower2_inject a), <- (Qpower2_inject (Z.succ b)) by lia.
    assert (Hp : (0 < 2 ^ Z.succ b)%Z) by (apply Z.pow_pos_nonneg; lia).
    apply Qle_shift_div_r; [rewrite <- (Zlt_Qlt 0); exact Hp|].
    unfold Qle. cbn [Qnum Qden inject_Z Qmult]. nia.
Qed.

Lemma ilog2_lt (x : Q) : (0 < x)%Q -> (x < 2 ^ (Py.ilog2 x + 1))%Q.
Proof.
  intros Hx. unfold Py.ilog2.
  destruct (Qle_bool (2 ^ (Z.log2 (Qnum x) - Z.log2 (Z.pos (Qden x)))) x) eqn:E.
  - clear E. destruct x as [n d]. cbn [Qnum Qden].
    assert (Hn : (0 < n)%Z) by (unfold Qlt in Hx; cbn in Hx; lia).
    pose proof (Z.log2_spec n Hn) as [_ Ha].
    pose proof (Z.log2_spec (Z.pos d) ltac:(lia)) as [Hb _].
    pose proof (Z.log2_nonneg n) as Ha0.
    pose proof (Z.log2_nonneg (Z.pos d)) as Hb0.
    set (a := Z.log2 n) in *. set (b := Z.log2 (Z.pos d)) in *.
    replace (a - b + 1)%Z with (Z.succ a + - b)%Z by lia.
    rewrite Qpower_plus by discriminate. rewrite Qpower_opp.
    rewrite <- (Qpower2_inject (Z.succ a)), <- (Qpower2_inject b) by lia.
    assert (Hp : (0 < 2 ^ b)%Z) by (apply Z.pow_pos_nonneg; lia).
    apply Qlt_shift_div_l; [rewrite <- (Zlt_Qlt 0); exact Hp|].
    unfold Qlt. cbn [Qnum Qden inject_Z Qmult]. nia.
  - replace (Z.log2 (Qnum x) - Z.log2 (Z.pos (Qden x)) - 1 + 1)%Z
      with (Z.log2 (Qnum x) - Z.log2 (Z.pos (Qden x)))%Z by lia.
    apply Qnot_le_lt. intros H. apply Qle_bool_iff in H. congruence.
Qed.

Lemma ulp_below_one (x : Q) : (Qabs x < 1)%Q -> (Py.ulp x <= 1 # 2 ^ 53)%Q.
Proof.
  intros Hx. unfold Py.ulp.
  assert (He : (Z.max (Py.ilog2 (Qabs x)) (-1022) - 52 <= -53)%Z).
  { destruct (Z_lt_le_dec (Py.ilog2 (Qabs x)) 0) as [Hneg|Hpos]; [lia|].
    exfalso. destruct (Qeq_dec (Qabs x) 0) as [E0|E0].
    - unfold Py.ilog2 in Hpos. 
      assert (Qabs x = 0 # Qden (Qabs x))%Q.
      { destruct (Qabs x) as [n d]. unfold Qeq in E0. cbn in E0 |- *. f_equal. lia. }
      rewrite H in Hpos. cbn [Qnum Qden] in Hpos.
      change (Z.log2 0) with 0%Z in Hpos.
      destruct (Qle_bool _ _) eqn:Eb.
      + apply Qle_bool_iff in Eb.
        assert (Hp : (0 < 2 ^ (0 - Z.log2 (Z.pos (Qden (Qabs x)))))%Q)
          by (apply Qpower_0_lt; reflexivity).
        apply (Qlt_le_trans _ _ _ Hp) in Eb. discriminate Eb.
      + pose proof (Z.log2_nonneg (Z.pos (Qden (Qabs x)))). lia.
    - assert (Hpos' : (0 < Qabs x)%Q).
      { pose proof (Qabs_nonneg x). apply Qle_lteq in H. destruct H; [assumption|].
        exfalso. apply E0. symmetry. exact H. }
      pose proof (ilog2_le (Qabs x) Hpos') as Hle.
      assert (Hone : (1 <= 2 ^ Py.ilog2 (Qabs x))%Q)
        by (apply Qpower_1_le; [discriminate | lia]).
      apply (Qle_trans _ _ _ Hone) in Hle.
      apply (Qle_lt_trans _ _ _ Hle) in Hx. discriminate Hx. }
  apply (Qle_trans _ (2 ^ (-53))).
  - apply Qpower_le_compat_l; [exact He | discriminate].
  - vm_compute. discriminate.
Qed.

(** Below one in size, rounding moves a number by at most [2^-54]. *)
Lemma float_error_below_one (x : Q) :
  (Qabs x < 1)%Q -> (Qabs (Py.float x - x) <= 1 # 2 ^ 54)%Q.
Proof.
  intros Hx. apply (Qle_trans _ _ _ (float_error x)).
  pose proof (ulp_below_one x Hx) as Hu.
  setoid_replace (1 # 2 ^ 54)%Q with ((1 # 2 ^ 53) * (1 # 2))%Q by reflexivity.
  apply Qmult_le_compat_r; [exact Hu | discriminate].
Qed.

(** ** The frame loops in closed form *)

Lemma sampled_S lab r c tr n :
  record_sample (sampled lab r c tr n) (getX lab (r + n)) (- getY lab (r + n))
                (getTime lab (c + n)) = sampled lab r c tr (S n).
Proof.
  unfold record_sample, sampled. simpl xs. simpl ys. simpl ts.
  rewrite seq_S, !map_app, <- !app_assoc. reflexivity.
Qed.

Lemma sampled_0 lab r c tr : sampled lab r c tr 0 = tr.
Proof. destruct tr. unfold sampled. simpl. now rewrite !app_nil_r. Qed.

Lemma moved_S lab s st h r f n :
  moved lab s st h r f (S n) =
  moved lab s st h r f n || f st h (sample_radius lab s r n).
Proof.
  unfold moved. rewrite seq_S, existsb_app. simpl. now rewrite orb_false_r.
Qed.

Lemma target_after_S go k t0 n :
  (if (Z.of_nat n =? k)%Z && negb (Py.truthy go)
   then stop_cue (target_after go k t0 n) else target_after go k t0 n)
  = target_after go k t0 (S n).
Proof.
  unfold target_after.
  destruct (Z.eqb_spec (Z.of_nat n) k), (Z.leb_spec 0 k),
    (Z.ltb_spec k (Z.of_nat n)), (Z.ltb_spec k (Z.of_nat (S n)));
    try lia; destruct (negb (Py.truthy go)); reflexivity.
Qed.

Lemma target_after_0 go k t0 : target_after go k t0 0 = t0.
Proof.
  unfold target_after.
  destruct (Z.leb_spec 0 k), (Z.ltb_spec k (Z.of_nat 0));
    try lia; destruct (negb (Py.truthy go)); reflexivity.
Qed.

Ltac name_samples lab sc :=
  repeat match goal with
  | |- context [getX lab (?r + ?n)] =>
      change (getX lab (r + n)) with (sample_x lab r n)
  | |- context [Qopp (getY lab (?r + ?n))] =>
      change (Qopp (getY lab (r + n))) with (sample_y lab r n)
  | |- context [snd (cart2pol lab (sample_x lab ?r ?n * ?s) (sample_y lab ?r ?n * ?s))] =>
      change (snd (cart2pol lab (sample_x lab r n * s) (sample_y lab r n * s)))
        with (sample_radius lab s r n)
  | |- context [fst (cart2pol lab (sample_x lab ?r ?n * ?s) (sample_y lab ?r ?n * ?s))] =>
      change (fst (cart2pol lab (sample_x lab r n * s) (sample_y lab r n * s)))
        with (sample_theta lab s r n)
  end.

Section GoLoop.
Variable lab : Collaborators.
Variable cfg : StopSignal.Settings.
Variable go_list : list Z.
Variable trial : Z.
Variable ssd : Q.
Variable go : Z.
Hypothesis Hgo : Py.getitem go_list trial = Some go.

Let k := Py.int (StopSignal.framerate_r cfg * ssd).
Let st := StopSignal.starting_radius cfg.
Let hd := StopSignal.hidden_radius cfg.
Let sc := StopSignal.scaling cfg.

Lemma go_frame_eq (n : nat) (tv : StopSignal.TrialVars) (w : World) :
  let x := getX lab (joy_reads w) in
  let y := (- getY lab (joy_reads w))%Q in
  let pol := cart2pol lab (x * sc) (y * sc) in
  let cp := pol2cart lab (fst pol) (snd pol) in
  let tgt := if (Z.of_nat n =? k)%Z && negb (Py.truthy go)
             then stop_cue (target w) else target w in
  StopSignal.go_frame lab cfg go_list trial ssd (Z.of_nat n) tv w =
  Ok (StopSignal.mkTrialVars
        (record_sample (StopSignal.trial_trace tv) x y (getTime lab (clock_reads w)))
        (if in_transit st hd (snd pol) then 1%Z else StopSignal.start_mov tv)
        (if arrived st hd (snd pol) then 1%Z else StopSignal.full_mov tv))
     (mkWorld (S (joy_reads w)) (S (clock_reads w)) (key_polls w) (rng_draws w)
              tgt cp []
              ((back_buffer w ++ drawn_target tgt ::
                  (if in_transit st hd (snd pol) then [] else [drawn_cursor cp]))
               :: presented w)
              (disk w)).
Proof.
  intros x y pol cp tgt. subst tgt k st hd sc.
  unfold StopSignal.go_frame, in_transit, arrived, lookup. rewrite Hgo.
  unfold bind, joy_sample, clock_getTime, set_cursor_pos, target_draw,
    cursor_draw, draw, win_flip, set_target, ret. simpl.
  fold x y. fold pol. fold cp.
  destruct (Z.of_nat n =? Py.int (StopSignal.framerate_r cfg * ssd))%Z; simpl;
    destruct (negb (Py.truthy go)); simpl;
    destruct (Py.Qlt_bool (snd pol) (StopSignal.starting_radius cfg)); simpl;
    try destruct (Py.Qlt_bool (snd pol) (StopSignal.hidden_radius cfg * 0.9)); simpl;
    rewrite <- ?app_assoc; reflexivity.
Qed.

Lemma go_frames_run (tv : StopSignal.TrialVars) (w : World) (n : nat) :
  exists w',
    for_each (map Z.of_nat (seq 0 n)) (StopSignal.go_frame lab cfg go_list trial ssd) tv w
    = Ok (StopSignal.mkTrialVars
            (sampled lab (joy_reads w) (clock_reads w) (StopSignal.trial_trace tv) n)
            (if moved lab sc st hd (joy_reads w) in_transit n
             then 1%Z else StopSignal.start_mov tv)
            (if moved lab sc st hd (joy_reads w) arrived n
             then 1%Z else StopSignal.full_mov tv)) w'
    /\ advanced w w' n
    /\ target w' = target_after go k (target w) n
    /\ (back_buffer w = [] ->
        back_buffer w' = [] /\
        presented w' =
          rev (map (go_screen lab sc st hd (joy_reads w) go k (target w)) (seq 0 n))
          ++ presented w).
Proof.
  unfold advanced. induction n as [|n IH].
  - exists w. simpl. rewrite sampled_0, target_after_0. unfold ret. destruct tv.
    simpl. repeat split; auto.
  - destruct IH as (w1 & Hrun & (Hj & Hc & Hk & Hr & Hd & Hl) & Ht & Hb).
    rewrite arange_S, for_each_app, Hrun. cbn [for_each].
    unfold bind. rewrite (go_frame_eq n _ w1). cbn zeta. unfold ret.
    cbn [StopSignal.trial_trace StopSignal.start_mov StopSignal.full_mov].
    rewrite Hj, Hc, Ht. fold k. rewrite sampled_S.
    name_samples lab sc.
    rewrite target_after_S, !moved_S.
    eexists. split.
    + f_equal. f_equal.
      * destruct (moved lab sc st hd (joy_reads w) in_transit n),
          (in_transit st hd (sample_radius lab sc (joy_reads w) n)); reflexivity.
      * destruct (moved lab sc st hd (joy_reads w) arrived n),
          (arrived st hd (sample_radius lab sc (joy_reads w) n)); reflexivity.
    + cbn [joy_reads clock_reads key_polls rng_draws disk target back_buffer
             presented length].
      repeat split; try lia; auto.
      destruct (Hb H) as [Hb1 Hb2]. rewrite Hb1, Hb2.
      rewrite seq_S, map_app, rev_app_distr. reflexivity.
Qed.
End GoLoop.

Section RestLoop.
Variable lab : Collaborators.
Variable cfg : StopSignal.Settings.
Variable show_cursor : bool.

Let sc := StopSignal.scaling cfg.
Let stim_draw : M unit := if show_cursor then cursor_draw else target_draw.

Lemma rest_frame_eq (i : Z) (tr : Trace) (w : World) :
  let x := getX lab (joy_reads w) in
  let y := (- getY lab (joy_reads w))%Q in
  let pol := cart2pol lab (x * sc) (y * sc) in
  let cp := pol2cart lab (fst pol) (snd pol) in
  StopSignal.rest_frame lab cfg stim_draw i tr w =
  Ok (record_sample tr x y (getTime lab (clock_reads w)))
     (mkWorld (S (joy_reads w)) (S (clock_reads w)) (key_polls w) (rng_draws w)
              (target w) cp []
              ((back_buffer w ++
                  [if show_cursor then drawn_cursor cp else drawn_target (target w)])
               :: presented w)
              (disk w)).
Proof.
  subst stim_draw sc. unfold StopSignal.rest_frame.
  destruct show_cursor; reflexivity.
Qed.

Lemma rest_frames_run (tr : Trace) (w : World) (n : nat) :
  exists w',
    for_each (map Z.of_nat (seq 0 n)) (StopSignal.rest_frame lab cfg stim_draw) tr w
    = Ok (sampled lab (joy_reads w) (clock_reads w) tr n) w'
    /\ advanced w w' n
    /\ target w' = target w
    /\ (back_buffer w = [] ->
        back_buffer w' = [] /\
        presented w' =
          rev (map (rest_screen lab sc (joy_reads w) show_cursor (target w)) (seq 0 n))
          ++ presented w).
Proof.
  unfold advanced. induction n as [|n IH].
  - exists w. simpl. rewrite sampled_0. unfold ret. repeat split; auto.
  - destruct IH as (w1 & Hrun & (Hj & Hc & Hk & Hr & Hd & Hl) & Ht & Hb).
    rewrite arange_S, for_each_app, Hrun. cbn [for_each].
    unfold bind. rewrite rest_frame_eq. cbn zeta. unfold ret.
    rewrite Hj, Hc, Ht, sampled_S. name_samples lab sc.
    eexists. split; [reflexivity|].
    cbn [joy_reads clock_reads key_polls rng_draws disk target back_buffer
           presented length].
    repeat split; try lia; auto.
    destruct (Hb H) as [Hb1 Hb2]. rewrite Hb1, Hb2.
    rewrite seq_S, map_app, rev_app_distr. reflexivity.
Qed.
End RestLoop.

Section PhaseLoop.
Variable lab : Collaborators.
Variable setup : Adaptation.Setup.
Variable perturbation : Q.
Variable phase_name : string.
Variable go_phase : bool.

Let st := Adaptation.starting_radius (Adaptation.settings setup).
Let hd := Adaptation.hidden_radius (Adaptation.settings setup).
Let sc := Adaptation.scaling (Adaptation.settings setup).

Lemma phase_frame_eq (i : Z) (l : Adaptation.Locals) (w : World) :
  let x := getX lab (joy_reads w) in
  let y := (- getY lab (joy_reads w))%Q in
  let pol := cart2pol lab (x * sc) (y * sc) in
  let cp := pol2cart lab (fst pol + perturbation) (snd pol) in
  Adaptation.phase_frame lab setup perturbation phase_name go_phase i l w =
  Ok (Adaptation.mkLocals
        (record_sample (Adaptation.l_tmp l) x y (getTime lab (clock_reads w)))
        (if go_phase && in_transit st hd (snd pol) then 1%Z else Adaptation.l_start l)
        (if go_phase && arrived st hd (snd pol) then 1%Z else Adaptation.l_full l))
     (mkWorld (S (joy_reads w)) (S (clock_reads w)) (key_polls w) (rng_draws w)
              (target w) cp []
              ((back_buffer w ++
                  (if go_phase && negb (in_transit st hd (snd pol))
                   then [drawn_cursor cp] else [])
                  ++ [if String.eqb phase_name "ready"
                      then drawn_cursor cp else drawn_target (target w)])
               :: presented w)
              (disk w)).
Proof.
  intros x y pol cp. subst st hd sc.
  unfold Adaptation.phase_frame, Adaptation.go_branch, in_transit, arrived.
  unfold bind, joy_sample, clock_getTime, set_cursor_pos, target_draw,
    cursor_draw, draw, win_flip, set_target, ret. simpl.
  fold x y. fold pol. fold cp.
  destruct go_phase; simpl;
    try destruct (Py.Qlt_bool (snd pol)
                   (Adaptation.starting_radius (Adaptation.settings setup)));
    simpl;
    try destruct (Py.Qlt_bool (snd pol)
                   (Adaptation.hidden_radius (Adaptation.settings setup) * 0.9));
    simpl;
    destruct (String.eqb phase_name "ready"); simpl;
    rewrite <- ?app_assoc; destruct l; reflexivity.
Qed.

Lemma phase_frames_run (l : Adaptation.Locals) (w : World) (n : nat) :
  exists w',
    for_each (map Z.of_nat (seq 0 n))
             (Adaptation.phase_frame lab setup perturbation phase_name go_phase) l w
    = Ok (Adaptation.mkLocals
            (sampled lab (joy_reads w) (clock_reads w) (Adaptation.l_tmp l) n)
            (if go_phase && moved lab sc st hd (joy_reads w) in_transit n
             then 1%Z else Adaptation.l_start l)
            (if go_phase && moved lab sc st hd (joy_reads w) arrived n
             then 1%Z else Adaptation.l_full l)) w'
    /\ advanced w w' n
    /\ target w' = target w
    /\ (back_buffer w = [] ->
        back_buffer w' = [] /\
        presented w' =
          rev (map (phase_screen lab sc st hd (joy_reads w) perturbation
                                 phase_name go_phase (target w)) (seq 0 n))
          ++ presented w).
Proof.
  unfold advanced. induction n as [|n IH].
  - exists w. simpl. rewrite sampled_0, !andb_false_r. unfold ret. destruct l.
    simpl. repeat split; auto.
  - destruct IH as (w1 & Hrun & (Hj & Hc & Hk & Hr & Hd & Hl) & Ht & Hb).
    rewrite arange_S, for_each_app, Hrun. cbn [for_each].
    unfold bind. rewrite phase_frame_eq. cbn zeta. unfold ret.
    cbn [Adaptation.l_tmp Adaptation.l_start Adaptation.l_full].
    rewrite Hj, Hc, Ht, sampled_S. name_samples lab sc.
    rewrite !moved_S.
    eexists. split.
    + f_equal. f_equal.
      * destruct go_phase, (moved lab sc st hd (joy_reads w) in_transit n),
          (in_transit st hd (sample_radius lab sc (joy_reads w) n)); reflexivity.
      * destruct go_phase, (moved lab sc st hd (joy_reads w) arrived n),
          (arrived st hd (sample_radius lab sc (joy_reads w) n)); reflexivity.
    + cbn [joy_reads clock_reads key_polls rng_draws disk target back_buffer
             presented length].
      repeat split; try lia; auto.
      destruct (Hb H) as [Hb1 Hb2]. rewrite Hb1, Hb2.
      rewrite seq_S, map_app, rev_app_distr. reflexivity.
Qed.
End PhaseLoop.

(** ** Only the logging writes to disk *)

Create HintDb quiet.

Lemma quiet_ret {A} (a : A) : quiet (ret a).
Proof. intros w a' w' H. now inversion H. Qed.

Lemma quiet_raise {A} (e : exn) : quiet (@raise A e).
Proof. intros w a' w' H. discriminate H. Qed.

Lemma quiet_bind {A B} (c : M A) (k : A -> M B) :
  quiet c -> (forall a, quiet (k a)) -> quiet (bind c k).
Proof.
  intros Hc Hk w b w' H. apply bind_Ok in H. destruct H as (a & w1 & H1 & H2).
  rewrite (Hk _ _ _ _ H2). exact (Hc _ _ _ H1).
Qed.

Lemma quiet_if {A} (b : bool) (c1 c2 : M A) :
  quiet c1 -> quiet c2 -> quiet (if b then c1 else c2).
Proof. now destruct b. Qed.

Lemma quiet_for_each {I A} (l : list I) (body : I -> A -> M A) :
  (forall i a, quiet (body i a)) -> forall acc, quiet (for_each l body acc).
Proof.
  intros Hb. induction l as [|i l IH]; intros acc; simpl.
  - apply quiet_ret.
  - apply quiet_bind; auto.
Qed.

Lemma quiet_lookup {A} (l : list A) (i : Z) : quiet (lookup l i).
Proof. unfold lookup. destruct (Py.getitem l i); [apply quiet_ret|apply quiet_raise]. Qed.

Lemma quiet_joy_sample lab : quiet (joy_sample lab).
Proof. intros w a w' H. now inversion H. Qed.
Lemma quiet_clock_getTime lab : quiet (clock_getTime lab).
Proof. intros w a w' H. now inversion H. Qed.
Lemma quiet_event_getKeys lab : quiet (event_getKeys lab).
Proof. intros w a w' H. now inversion H. Qed.
Lemma quiet_random_uniform lab lo hi : quiet (random_uniform lab lo hi).
Proof. intros w a w' H. now inversion H. Qed.
Lemma quiet_set_target f : quiet (set_target f).
Proof. intros w a w' H. now inversion H. Qed.
Lemma quiet_set_cursor_pos p : quiet (set_cursor_pos p).
Proof. intros w a w' H. now inversion H. Qed.
Lemma quiet_draw d : quiet (draw d).
Proof. intros w a w' H. now inversion H. Qed.
Lemma quiet_win_flip : quiet win_flip.
Proof. intros w a w' H. now inversion H. Qed.

Lemma quiet_target_draw : quiet target_draw.
Proof. apply quiet_draw. Qed.
Lemma quiet_cursor_draw : quiet cursor_draw.
Proof. apply quiet_draw. Qed.
Lemma quiet_text_draw s : quiet (text_draw s).
Proof. apply quiet_draw. Qed.
Lemma quiet_blank_draw : quiet blank_draw.
Proof. apply quiet_draw. Qed.

#[export] Hint Resolve quiet_ret quiet_raise quiet_lookup quiet_joy_sample
  quiet_clock_getTime quiet_event_getKeys quiet_random_uniform quiet_set_target
  quiet_set_cursor_pos quiet_draw quiet_win_flip quiet_target_draw
  quiet_cursor_draw quiet_text_draw quiet_blank_draw : quiet.

Ltac quiet_steps :=
  repeat (intros; cbv zeta;
          match goal with
          | |- quiet (bind _ _) => apply quiet_bind
          | |- quiet (if _ then _ else _) => apply quiet_if
          | |- quiet (for_each _ _ _) => apply quiet_for_each
          | |- quiet _ => solve [auto with quiet]
          end).

Lemma quiet_rest_frame lab cfg stim i tr :
  quiet stim -> quiet (StopSignal.rest_frame lab cfg stim i tr).
Proof. intros Hs. unfold StopSignal.rest_frame. quiet_steps. Qed.

Lemma quiet_go_frame lab cfg gl trial ssd i tv :
  quiet (StopSignal.go_frame lab cfg gl trial ssd i tv).
Proof. unfold StopSignal.go_frame. quiet_steps. Qed.

Lemma quiet_go_loop lab cfg gl trial ssd tv :
  quiet (StopSignal.go_loop lab cfg gl trial ssd tv).
Proof. unfold StopSignal.go_loop. apply quiet_for_each. intros. apply quiet_go_frame. Qed.

Lemma quiet_centering_gate lab cfg patience :
  quiet (StopSignal.centering_gate lab cfg patience).
Proof.
  induction patience as [|p IH]; simpl.
  - apply quiet_raise.
  - quiet_steps.
Qed.

#[export] Hint Resolve quiet_rest_frame quiet_go_loop quiet_centering_gate : quiet.

Lemma lookup_Ok {A} (l : list A) (i : Z) w a w' :
  lookup l i w = Ok a w' -> Py.getitem l i = Some a /\ w' = w.
Proof.
  unfold lookup. destruct (Py.getitem l i); intros H; inversion H. auto.
Qed.

Lemma write_Ok f w a w' : write f w = Ok a w' -> disk w' = f :: disk w.
Proof. intros H. now inversion H. Qed.

(** Peel the first statement off a script that ran to its end. *)
Ltac peel H Hs :=
  cbv beta zeta in H; apply bind_Ok in H;
  let a := fresh "a" in let w := fresh "w" in
  destruct H as (a & w & Hs & H).

Lemma quiet_apply {A} (c : M A) w a w' :
  quiet c -> c w = Ok a w' -> disk w' = disk w.
Proof. intros Hq. apply Hq. Qed.

Ltac hush Hs :=
  match type of Hs with
  | ?c ?w = Ok ?a ?w' =>
      let Hd := fresh "Hdisk" in
      assert (Hd : disk w' = disk w)
        by (apply (quiet_apply c w a w'); [quiet_steps | exact Hs])
  end.

Section Trial.
Variable lab : Collaborators.
Variable cfg : StopSignal.Settings.
Variable patience : nat.
Variable angle_list : list Q.
Variable go_list : list Z.

Lemma trial_body_Ok trial v w v' w' :
  StopSignal.trial_body lab cfg patience angle_list go_list trial v w = Ok v' w' ->
  exists row tr0 tv wg wg' joy,
    StopSignal.go_loop lab cfg go_list trial (col_SSD row)
      (StopSignal.mkTrialVars tr0 0 0) wg
      = Ok tv wg'
    /\ col_SSD row = StopSignal.ssd v
    /\ col_trial row = trial
    /\ col_start_mov row = StopSignal.start_mov tv
    /\ col_full_mov row = StopSignal.full_mov tv
    /\ Py.getitem go_list trial = Some (col_GO_Stop row)
    /\ Py.getitem angle_list trial = Some (col_target_angle row)
    /\ StopSignal.data_dict v' = StopSignal.data_dict v ++ [row]
    /\ StopSignal.ssd v' =
       StopSignal.staircase cfg (col_GO_Stop row) (col_full_mov row)
         (StopSignal.ssd v)
    /\ disk w' = np_save trial joy :: to_csv (StopSignal.data_dict v') :: disk w.
Proof.
  intros H. unfold StopSignal.trial_body in H.
  peel H H1. hush H1. peel H H2. hush H2. peel H H3. hush H3.
  peel H H4. hush H4. peel H H5. hush H5. peel H H6. hush H6.
  peel H H7. hush H7. peel H H8. hush H8. peel H H9. hush H9.
  peel H H10. hush H10. peel H H11. hush H11.
  peel H H12. hush H12. apply lookup_Ok in H12. destruct H12 as [Hang _].
  peel H H13. hush H13. peel H H14. hush H14.
  peel H Hgo. pose proof Hgo as Hgo'. hush Hgo'.
  peel H H16. hush H16. peel H H17. hush H17. peel H H18. hush H18.
  peel H H19. hush H19. peel H H20. hush H20. peel H H21. hush H21.
  peel H H22. hush H22. peel H H23. hush H23. peel H H24. hush H24.
  peel H H25. apply lookup_Ok in H25. destruct H25 as [Hang' ->].
  peel H H26. apply lookup_Ok in H26. destruct H26 as [Hlab ->].
  peel H H27. apply write_Ok in H27.
  peel H H28. apply write_Ok in H28.
  peel H H29. apply lookup_Ok in H29. destruct H29 as [Hlab' ->].
  cbv beta zeta in H. unfold ret in H. inversion H; subst; clear H.
  rewrite Hlab in Hlab'. inversion Hlab'; subst.
  eexists (mkRow _ _ _ _ _ _ _ _ _ _ _ _), _, _, _, _, _.
  cbn [col_SSD col_trial col_start_mov col_full_mov col_GO_Stop
       col_target_angle StopSignal.data_dict StopSignal.ssd].
  split; [exact Hgo|].
  repeat split; try reflexivity; try assumption.
  rewrite H28, H27. replace (disk w23) with (disk w) by congruence. reflexivity.
Qed.
End Trial.

(** [execute_trial] of the adaptation task never runs to its end. *)
Remark execute_trial_raises lab setup patience trial perturbation w u w' :
  Adaptation.execute_trial lab setup patience trial perturbation w <> Ok u w'.
Proof.
  intros H. unfold Adaptation.execute_trial in H.
  peel H H1. peel H H2. peel H H3. peel H H4. peel H H5. peel H H6.
  discriminate H.
Qed.

(** ** The trial loop and the staircase *)

Section Loop.
Variable lab : Collaborators.
Variable cfg : StopSignal.Settings.
Variable patience : nat.
Variable angle_list : list Q.
Variable go_list : list Z.

Lemma trial_loop_Ok trials : forall v w v' w',
  StopSignal.trial_loop lab cfg patience angle_list go_list trials v w = Ok v' w' ->
  exists rows,
    StopSignal.data_dict v' = StopSignal.data_dict v ++ rows
    /\ chained cfg (StopSignal.ssd v) rows
    /\ StopSignal.ssd v' = staircase_run cfg (map outcome_of rows) (StopSignal.ssd v).
Proof.
  induction trials as [|trial rest IH]; intros v w v' w' H; simpl in H.
  - inversion H; subst. exists []. rewrite app_nil_r. simpl. auto.
  - peel H Hk. destruct a.
    + inversion H; subst. exists []. rewrite app_nil_r. simpl. auto.
    + peel H Hb. apply trial_body_Ok in Hb.
      destruct Hb as (row & tr0 & tv & wg & wg' & joy & _ & Hs & _ & _ & _ & _ & _
                      & Hd & Hn & _).
      apply IH in H. destruct H as (rows & Hd' & Hc & Hf).
      exists (row :: rows). rewrite Hd', Hd, <- app_assoc. simpl.
      rewrite Hn in Hc, Hf. repeat split; auto.
Qed.

Lemma session_Ok w v w' :
  StopSignal.session lab cfg patience angle_list go_list w = Ok v w' ->
  chained cfg (StopSignal.ssd_start cfg) (StopSignal.data_dict v)
  /\ StopSignal.ssd v =
     staircase_run cfg (map outcome_of (StopSignal.data_dict v))
       (StopSignal.ssd_start cfg).
Proof.
  intros H. unfold StopSignal.session in H.
  peel H H1. peel H H2. peel H H3. peel H H4. peel H H5.
  apply trial_loop_Ok in H. destruct H as (rows & Hd & Hc & Hf).
  simpl in Hd, Hc, Hf. rewrite Hd. auto.
Qed.
End Loop.

(** The staircase over a sequence of trials, one trial at a time. *)
Lemma count_of_cons (f : Z * Z -> bool) (o : Z * Z) (os : list (Z * Z)) :
  count_of f (o :: os) = ((if f o then 1 else 0) + count_of f os)%Z.
Proof.
  unfold count_of. cbn [filter]. destruct (f o); cbn [length]; lia.
Qed.

(** GO trials do not move the delay. *)
Lemma staircase_run_stops cfg outcomes : forall s0,
  staircase_run cfg outcomes s0 = staircase_run cfg (filter is_stop outcomes) s0.
Proof.
  unfold staircase_run.
  induction outcomes as [|[go full] os IH]; intros s0; cbn [filter].
  - reflexivity.
  - unfold is_stop at 1. cbn [fst].
    destruct (negb (Py.truthy go)) eqn:E; cbn [fold_left fst snd].
    + apply IH.
    + unfold StopSignal.staircase at 2. rewrite E. apply IH.
Qed.

(** What one trial does to the delay, against what the closed form adds. *)
Lemma staircase_step cfg (o : Z * Z) (s0 : Q) :
  let step := StopSignal.ssd_step cfg in
  (is_withheld o = true /\ is_not_withheld o = false
   /\ StopSignal.staircase cfg (fst o) (snd o) s0 = Py.float (s0 + step))
  \/ (is_withheld o = false /\ is_not_withheld o = true
      /\ StopSignal.staircase cfg (fst o) (snd o) s0 = Py.float (s0 - step))
  \/ (is_withheld o = false /\ is_not_withheld o = false
      /\ StopSignal.staircase cfg (fst o) (snd o) s0 = s0).
Proof.
  destruct o as [go full]. unfold is_withheld, is_not_withheld, StopSignal.staircase.
  cbn [fst snd]. destruct (Py.truthy go), (Py.truthy full); cbn [negb andb]; auto.
Qed.

(** The closed form, when no update is rounded. *)
Lemma staircase_run_exact cfg outcomes : forall s0,
  at_updates (fun x => Py.float x == x)%Q cfg outcomes s0 ->
  (staircase_run cfg outcomes s0 ==
   s0 + StopSignal.ssd_step cfg
        * inject_Z (count_of is_withheld outcomes - count_of is_not_withheld outcomes))%Q.
Proof.
  induction outcomes as [|o os IH]; intros s0 H.
  - cbn. ring.
  - destruct H as (Hw & Hnw & Hrest).
    change (staircase_run cfg (o :: os) s0)
      with (staircase_run cfg os (StopSignal.staircase cfg (fst o) (snd o) s0)).
    rewrite (IH _ Hrest), !count_of_cons.
    set (a := count_of is_withheld os). set (b := count_of is_not_withheld os).
    destruct (staircase_step cfg o s0) as [(Ew & En & ->)|[(Ew & En & ->)|(Ew & En & ->)]];
      rewrite Ew, En.
    + rewrite (Hw Ew).
      replace (1 + a - (0 + b))%Z with (1 + (a - b))%Z by lia.
      rewrite inject_Z_plus. change (inject_Z 1) with 1%Q. ring.
    + rewrite (Hnw En).
      replace (0 + a - (1 + b))%Z with (-1 + (a - b))%Z by lia.
      rewrite inject_Z_plus. change (inject_Z (-1)) with (-1 # 1)%Q. ring.
    + replace (0 + a - (0 + b))%Z with (a - b)%Z by lia. reflexivity.
Qed.

(** The closed form up to rounding, while the delay stays below one second
    in size: each stop trial moves it off by at most [2^-54]. *)
Lemma staircase_run_near cfg outcomes : forall s0,
  at_updates (fun x => Qabs x < 1)%Q cfg outcomes s0 ->
  (Qabs (staircase_run cfg outcomes s0
         - (s0 + StopSignal.ssd_step cfg
                 * inject_Z (count_of is_withheld outcomes
                             - count_of is_not_withheld outcomes)))
   <= inject_Z (count_of is_withheld outcomes + count_of is_not_withheld outcomes)
      * (1 # 2 ^ 54))%Q.
Proof.
  induction outcomes as [|o os IH]; intros s0 H.
  - unfold staircase_run, count_of.
    cbn [fold_left filter length Z.of_nat Z.sub Z.add Z.opp].
    change (inject_Z 0) with 0%Q.
    setoid_replace (s0 - (s0 + StopSignal.ssd_step cfg * 0))%Q with 0%Q by ring.
    rewrite Qmult_0_l. apply Qle_refl.
  - destruct H as (Hw & Hnw & Hrest).
    change (staircase_run cfg (o :: os) s0)
      with (staircase_run cfg os (StopSignal.staircase cfg (fst o) (snd o) s0)).
    specialize (IH _ Hrest). rewrite !count_of_cons.
    set (a := count_of is_withheld os) in *.
    set (b := count_of is_not_withheld os) in *.
    set (step := StopSignal.ssd_step cfg) in *.
    apply Qabs_Qle_condition in IH. apply Qabs_Qle_condition.
    destruct (staircase_step cfg o s0) as [(Ew & En & E)|[(Ew & En & E)|(Ew & En & E)]];
      rewrite Ew, En; rewrite E in IH |- *; fold step in IH |- *.
    + pose proof (float_error_below_one _ (Hw Ew)) as Herr.
      apply Qabs_Qle_condition in Herr. fold step in Herr.
      replace (1 + a - (0 + b))%Z with (1 + (a - b))%Z by lia.
      replace (1 + a + (0 + b))%Z with (1 + (a + b))%Z by lia.
      rewrite (inject_Z_plus 1 (a - b)), (inject_Z_plus 1 (a + b)).
      change (inject_Z 1) with 1%Q.
      set (f := Py.float (s0 + step)) in *.
      set (r := staircase_run cfg os f) in *.
      set (d := inject_Z (a - b)) in *. set (k := inject_Z (a + b)) in *.
      split; lra.
    + pose proof (float_error_below_one _ (Hnw En)) as Herr.
      apply Qabs_Qle_condition in Herr. fold step in Herr.
      replace (0 + a - (1 + b))%Z with (-1 + (a - b))%Z by lia.
      replace (0 + a + (1 + b))%Z with (1 + (a + b))%Z by lia.
      rewrite (inject_Z_plus (-1) (a - b)), (inject_Z_plus 1 (a + b)).
      change (inject_Z 1) with 1%Q. change (inject_Z (-1)) with (-1 # 1)%Q.
      set (f := Py.float (s0 - step)) in *.
      set (r := staircase_run cfg os f) in *.
      set (d := inject_Z (a - b)) in *. set (k := inject_Z (a + b)) in *.
      split; lra.
    + replace (0 + a - (0 + b))%Z with (a - b)%Z by lia.
      replace (0 + a + (0 + b))%Z with (a + b)%Z by lia. exact IH.
Qed.

(** ** Frames, zones and [run_phase] *)

Lemma frame_no_spec (f : nat -> list Draw) (w w' : World) (n j : nat) :
  presented w' = rev (map f (seq 0 n)) ++ presented w ->
  (j < n)%nat -> frame_no w w' j = Some (f j).
Proof.
  intros Hp Hj. unfold frame_no. rewrite Hp, rev_app_distr, rev_involutive.
  rewrite nth_error_app2 by (rewrite length_rev; lia).
  rewrite length_rev. replace (length (presented w) + j - length (presented w))%nat
    with j by lia.
  rewrite nth_error_map, nth_error_seq.
  destruct (Nat.ltb_spec j n); [reflexivity | lia].
Qed.

Lemma moved_true lab s st h r f n :
  moved lab s st h r f n = true <->
  exists j, (j < n)%nat /\ f st h (sample_radius lab s r j) = true.
Proof.
  unfold moved. rewrite existsb_exists. split.
  - intros (j & Hin & Hf). apply in_seq in Hin. exists j. split; [lia | exact Hf].
  - intros (j & Hj & Hf). exists j. split; [apply in_seq; lia | exact Hf].
Qed.

Lemma moved_mono lab s st h r f n m :
  (n <= m)%nat -> moved lab s st h r f n = true -> moved lab s st h r f m = true.
Proof.
  intros Hnm H. apply moved_true in H. destruct H as (j & Hj & Hf).
  apply moved_true. exists j. split; [lia | exact Hf].
Qed.

Lemma in_transit_iff st h r :
  in_transit st h r = true <-> (st <= r)%Q /\ (r < h * 0.9)%Q.
Proof.
  unfold in_transit. rewrite andb_true_iff, negb_true_iff.
  now rewrite Qlt_bool_false_iff, Qlt_bool_iff.
Qed.

Lemma arrived_iff st h r :
  arrived st h r = true <-> (st <= r)%Q /\ (h * 0.9 <= r)%Q.
Proof.
  unfold arrived. rewrite andb_true_iff, !negb_true_iff.
  now rewrite !Qlt_bool_false_iff.
Qed.

Lemma zones_apart st h r :
  ((r < st)%Q -> in_transit st h r = false /\ arrived st h r = false)
  /\ (in_transit st h r = true -> arrived st h r = false)
  /\ (arrived st h r = true -> in_transit st h r = false).
Proof.
  unfold in_transit, arrived. repeat split.
  - apply Qlt_bool_iff in H. now rewrite H.
  - apply Qlt_bool_iff in H. now rewrite H.
  - destruct (Py.Qlt_bool r st), (Py.Qlt_bool r (h * 0.9)); simpl; congruence.
  - destruct (Py.Qlt_bool r st), (Py.Qlt_bool r (h * 0.9)); simpl; congruence.
Qed.

Section RunPhase.
Variable lab : Collaborators.
Variable setup : Adaptation.Setup.
Variable duration perturbation : Q.
Variable phase_name : string.
Variable go_phase : bool.

Let st := Adaptation.starting_radius (Adaptation.settings setup).
Let hd := Adaptation.hidden_radius (Adaptation.settings setup).
Let sc := Adaptation.scaling (Adaptation.settings setup).
Let N := Z.to_nat (Py.int (Adaptation.framerate_r setup * duration)).

Lemma run_phase_eq (w : World) :
  exists w',
    Adaptation.run_phase lab setup duration perturbation phase_name go_phase w
    = Ok (Adaptation.mkPhaseResult
            (getTime lab (clock_reads w))
            (sampled lab (joy_reads w) (S (clock_reads w)) empty_trace N)
            (if go_phase && moved lab sc st hd (joy_reads w) in_transit N
             then 1%Z else 0%Z)
            (if go_phase && moved lab sc st hd (joy_reads w) arrived N
             then 1%Z else 0%Z)) w'
    /\ joy_reads w' = (joy_reads w + N)%nat
    /\ clock_reads w' = (S (clock_reads w) + N)%nat
    /\ disk w' = disk w
    /\ target w' = target w
    /\ length (presented w') = (length (presented w) + N)%nat
    /\ (back_buffer w = [] ->
        presented w' =
          rev (map (phase_screen lab sc st hd (joy_reads w) perturbation
                                 phase_name go_phase (target w)) (seq 0 N))
          ++ presented w).
Proof.
  unfold Adaptation.run_phase, bind, clock_getTime, Py.arange. fold N.
  match goal with
  | |- context [for_each _ _ _ ?w1] =>
      destruct (phase_frames_run lab setup perturbation phase_name go_phase
                  (Adaptation.mkLocals empty_trace 0 0) w1 N)
        as (w' & Hrun & (Hj & Hc & _ & _ & Hd & Hl) & Ht & Hb)
  end.
  rewrite Hrun. exists w'. cbn in Hj, Hc, Hd, Hl, Ht, Hb. unfold ret.
  cbn [Adaptation.l_tmp Adaptation.l_start Adaptation.l_full joy_reads clock_reads].
  repeat split; auto. intros H. apply Hb. exact H.
Qed.
End RunPhase.

(** ** A trial runs to its end *)

Lemma lookup_Some {A} (l : list A) (i : Z) (a : A) w :
  Py.getitem l i = Some a -> lookup l i w = Ok a w.
Proof. intros H. unfold lookup. now rewrite H. Qed.


(** ** The experiment phase scheduler *)

(** C1.  Every trial index is classified by the piecewise rule: below
    [NO_PERTURBATION_TRIAL] it is the no-perturbation phase with perturbation
    0, from [ADAPTATION_PHASE_START] to [ADAPTATION_PHASE_END] inclusive it is
    the adaptation phase with perturbation [PERTURBATION_ANGLE], anything else
    is the after-effect phase with perturbation 0.  The boundaries are 80, 80
    and 230, so that 79 is no-perturbation, 80 and 230 are adaptation and 231
    is after-effect. *)
Theorem phase_schedule (lab : Collaborators) (t : Z) :
  (Adaptation.NO_PERTURBATION_TRIAL = 80 /\ Adaptation.ADAPTATION_PHASE_START = 80
   /\ Adaptation.ADAPTATION_PHASE_END = 230)%Z
  /\ ((t < Adaptation.NO_PERTURBATION_TRIAL)%Z ->
      Adaptation.determine_experiment_phase t = Adaptation.NO_PERTURBATION
      /\ Adaptation.trial_perturbation lab t = 0%Q)
  /\ ((Adaptation.ADAPTATION_PHASE_START <= t <= Adaptation.ADAPTATION_PHASE_END)%Z ->
      Adaptation.determine_experiment_phase t = Adaptation.ADAPTATION
      /\ Adaptation.trial_perturbation lab t = Adaptation.PERTURBATION_ANGLE lab)
  /\ (~ (t < Adaptation.NO_PERTURBATION_TRIAL)%Z ->
      ~ (Adaptation.ADAPTATION_PHASE_START <= t <= Adaptation.ADAPTATION_PHASE_END)%Z ->
      Adaptation.determine_experiment_phase t = Adaptation.AFTER_EFFECT
      /\ Adaptation.trial_perturbation lab t = 0%Q)
  /\ Adaptation.determine_experiment_phase 79 = Adaptation.NO_PERTURBATION
  /\ Adaptation.determine_experiment_phase 80 = Adaptation.ADAPTATION
  /\ Adaptation.determine_experiment_phase 230 = Adaptation.ADAPTATION
  /\ Adaptation.determine_experiment_phase 231 = Adaptation.AFTER_EFFECT.
Proof.
  unfold Adaptation.trial_perturbation, Adaptation.determine_experiment_phase,
    Adaptation.NO_PERTURBATION_TRIAL, Adaptation.ADAPTATION_PHASE_START,
    Adaptation.ADAPTATION_PHASE_END.
  split; [repeat split; reflexivity|].
  split; [|split; [|split; [|repeat split; reflexivity]]].
  - intros H. destruct (Z.ltb_spec t 80); try lia. split; reflexivity.
  - intros H. destruct (Z.ltb_spec t 80); [lia|].
    destruct (Z.leb_spec 80 t), (Z.leb_spec t 230); try lia. split; reflexivity.
  - intros H1 H2. destruct (Z.ltb_spec t 80); [lia|].
    destruct (Z.leb_spec 80 t), (Z.leb_spec t 230); try lia; split; reflexivity.
Qed.

Lemma phase_schedule_witness :
  Adaptation.determine_experiment_phase 12 = Adaptation.NO_PERTURBATION
  /\ Adaptation.trial_perturbation (bench []) 150
     = Adaptation.PERTURBATION_ANGLE (bench [])
  /\ Adaptation.determine_experiment_phase 300 = Adaptation.AFTER_EFFECT.
Proof.
  split; [|split].
  - destruct (phase_schedule (bench []) 12) as (_ & H & _).
    apply H. reflexivity.
  - destruct (phase_schedule (bench []) 150) as (_ & _ & H & _).
    apply H.
    unfold Adaptation.ADAPTATION_PHASE_START, Adaptation.ADAPTATION_PHASE_END. lia.
  - destruct (phase_schedule (bench []) 300) as (_ & _ & _ & H & _).
    apply H.
    + unfold Adaptation.NO_PERTURBATION_TRIAL. lia.
    + unfold Adaptation.ADAPTATION_PHASE_START, Adaptation.ADAPTATION_PHASE_END. lia.
Defined.

(** ** The list of target angles *)

Lemma length_angles (f : Z -> Q) (n : Z) :
  (0 <= n)%Z ->
  length (Py.list_mul (map f (Py.arange 5)) (Py.int (inject_Z n / 5)))
  = Z.to_nat (5 * (n / 5)).
Proof.
  intros Hn. rewrite length_list_mul, length_map, length_arange, int_fifth.
  rewrite Z.quot_div_nonneg by lia.
  assert (0 <= n / 5)%Z by (apply Z.div_pos; lia). lia.
Qed.

Lemma angle_lookups (angles : list Q) (n : Z) :
  (0 <= n)%Z ->
  length angles = Z.to_nat (5 * (n / 5)) ->
  ((forall trial, In trial (Py.arange n) -> Py.getitem angles trial <> None)
   <-> (n mod 5 = 0)%Z)
  /\ (forall trial w, (5 * (n / 5) <= trial < n)%Z ->
        Py.getitem angles trial = None
        /\ lookup angles trial w = Raise IndexError w)
  /\ (forall trial w, (0 <= trial < 5 * (n / 5))%Z ->
        exists angle, Py.getitem angles trial = Some angle
                      /\ lookup angles trial w = Ok angle w).
Proof.
  intros Hn Hlen.
  assert (Hq : (0 <= n / 5)%Z) by (apply Z.div_pos; lia).
  pose proof (Z.div_mod n 5 ltac:(lia)) as Hdm.
  pose proof (Z.mod_pos_bound n 5 ltac:(lia)) as Hmb.
  assert (Hout : forall trial, (5 * (n / 5) <= trial)%Z ->
                               Py.getitem angles trial = None).
  { intros trial Ht. rewrite getitem_nonneg by lia.
    apply nth_error_None. lia. }
  assert (Hin : forall trial, (0 <= trial < 5 * (n / 5))%Z ->
                              exists angle, Py.getitem angles trial = Some angle).
  { intros trial Ht. rewrite getitem_nonneg by lia.
    destruct (nth_error angles (Z.to_nat trial)) as [a|] eqn:E; [eauto|].
    apply nth_error_None in E. lia. }
  split; [split|split].
  - intros Hall. destruct (Z.eq_dec (n mod 5) 0) as [|Hne]; [assumption|].
    exfalso. apply (Hall (n - 1)%Z).
    + apply In_arange. lia.
    + apply Hout. lia.
  - intros Hmod trial Ht. apply In_arange in Ht.
    destruct (Hin trial) as [a Ha]; [lia|]. congruence.
  - intros trial w Ht. unfold lookup. rewrite Hout by lia. auto.
  - intros trial w Ht. destruct (Hin trial Ht) as [a Ha]. exists a.
    unfold lookup. rewrite Ha. auto.
Qed.

(** C9.  For a trial count [n >= 0] the generated list of target angles,
    shuffled or not, has [5 * floor(n / 5)] entries.  Hence looking up the
    angle of every trial below [n] stays in bounds exactly when 5 divides
    [n]; otherwise the trials from [5 * floor(n / 5)] on index past the end
    of the list ([IndexError]), while those below are found. *)
Theorem angle_list_bounds (lab : Collaborators) (setup : Adaptation.Setup)
    (cfg : StopSignal.Settings) (angles : list Q) (n : Z) :
  (0 <= n)%Z ->
  (Adaptation.n_trial (Adaptation.settings setup) = n
   /\ Permutation (Adaptation.generate_angle_list lab setup) angles)
  \/ (StopSignal.Ntrial cfg = n
      /\ Permutation (StopSignal.angle_list_unshuffled lab cfg) angles) ->
  length angles = Z.to_nat (5 * (n / 5))
  /\ ((forall trial, In trial (Py.arange n) -> Py.getitem angles trial <> None)
      <-> (n mod 5 = 0)%Z)
  /\ (forall trial w, (5 * (n / 5) <= trial < n)%Z ->
        Py.getitem angles trial = None
        /\ lookup angles trial w = Raise IndexError w)
  /\ (forall trial w, (0 <= trial < 5 * (n / 5))%Z ->
        exists angle, Py.getitem angles trial = Some angle
                      /\ lookup angles trial w = Ok angle w).
Proof.
  intros Hn Hgen.
  assert (Hlen : length angles = Z.to_nat (5 * (n / 5))).
  { destruct Hgen as [[Hs Hp]|[Hs Hp]];
      rewrite <- (Permutation_length Hp); subst n; apply length_angles; exact Hn. }
  split; [exact Hlen|]. apply angle_lookups; assumption.
Qed.

Lemma angle_list_bounds_witness :
  length (StopSignal.angle_list_unshuffled (bench []) bench_cfg) = 5%nat
  /\ length (Adaptation.generate_angle_list (bench []) (bench_setup 60)) = 10%nat.
Proof.
  split.
  - apply (angle_list_bounds (bench []) (bench_setup 60) bench_cfg
             (StopSignal.angle_list_unshuffled (bench []) bench_cfg) 5).
    + lia.
    + right. split; [reflexivity | apply Permutation_refl].
  - apply (angle_list_bounds (bench []) (bench_setup 60) bench_cfg
             (Adaptation.generate_angle_list (bench []) (bench_setup 60)) 10).
    + lia.
    + left. split; [reflexivity | apply Permutation_refl].
Defined.

(** ** The staircase *)

(** C3, as the code has it.  A stop trial on which the movement was
    completed replaces the stop-signal delay by the double nearest to the
    delay less the step, a stop trial on which it was withheld by the double
    nearest to the delay plus the step, and a go trial leaves it as it is,
    whatever the delay is (nothing is clamped).  After a sequence of trials
    the delay is what these updates make of the initial delay on the stop
    trials in their order.  It is [s0 + step * (withheld - not withheld)]
    when no update is rounded; while the delay stays below one second in size
    it is off that value by at most [2^-54] for each stop trial.  The delay a
    session ends with is the one its rows give in this way. *)
Theorem staircase_closed_form (lab : Collaborators) (cfg : StopSignal.Settings) :
  (forall go full_mov ssd,
      (Py.truthy go = false -> Py.truthy full_mov = true ->
       StopSignal.staircase cfg go full_mov ssd
       = Py.float (ssd - StopSignal.ssd_step cfg))
      /\ (Py.truthy go = false -> Py.truthy full_mov = false ->
          StopSignal.staircase cfg go full_mov ssd
          = Py.float (ssd + StopSignal.ssd_step cfg))
      /\ (Py.truthy go = true -> StopSignal.staircase cfg go full_mov ssd = ssd))
  /\ (forall outcomes s0,
        staircase_run cfg outcomes s0
        = staircase_run cfg (filter is_stop outcomes) s0)
  /\ (forall outcomes s0,
        at_updates (fun x => Py.float x == x)%Q cfg outcomes s0 ->
        (staircase_run cfg outcomes s0 ==
         s0 + StopSignal.ssd_step cfg
              * inject_Z (count_of is_withheld outcomes
                          - count_of is_not_withheld outcomes))%Q)
  /\ (forall outcomes s0,
        at_updates (fun x => Qabs x < 1)%Q cfg outcomes s0 ->
        (Qabs (staircase_run cfg outcomes s0
               - (s0 + StopSignal.ssd_step cfg
                       * inject_Z (count_of is_withheld outcomes
                                   - count_of is_not_withheld outcomes)))
         <= inject_Z (count_of is_withheld outcomes
                      + count_of is_not_withheld outcomes)
            * (1 # 2 ^ 54))%Q)
  /\ (forall patience angle_list go_list w v w',
        StopSignal.session lab cfg patience angle_list go_list w = Ok v w' ->
        StopSignal.ssd v
        = staircase_run cfg (map outcome_of (StopSignal.data_dict v))
            (StopSignal.ssd_start cfg)).
Proof.
  split; [|split; [|split; [|split]]].
  - intros go full_mov ssd. unfold StopSignal.staircase.
    repeat split; intros H; try intros H'; rewrite H; try rewrite H'; reflexivity.
  - intros outcomes s0. apply staircase_run_stops.
  - intros outcomes s0. apply staircase_run_exact.
  - intros outcomes s0. apply staircase_run_near.
  - intros patience angle_list go_list w v w' H.
    apply session_Ok in H. apply H.
Qed.

Lemma staircase_closed_form_witness :
  (let cfg := StopSignal.shipped "0001" 1 60 in
   let s := staircase_run cfg (repeat (0, 0)%Z 4) (StopSignal.ssd_start cfg) in
   Qabs (s - (StopSignal.ssd_start cfg + StopSignal.ssd_step cfg * 4))
   <= 4 # 2 ^ 54)%Q
  /\ (staircase_run bench_cfg [(0, 0); (1, 0); (0, 1)]%Z
        (StopSignal.ssd_step bench_cfg)
      == StopSignal.ssd_step bench_cfg)%Q
  /\ StopSignal.staircase bench_cfg 0 1 0 = Py.float (0 - Py.float 0.05).
Proof.
  destruct (staircase_closed_form (bench []) (StopSignal.shipped "0001" 1 60))
    as (_ & _ & _ & Hnear & _).
  destruct (staircase_closed_form (bench []) bench_cfg) as (Hstep & _ & Hexact & _).
  split; [|split].
  - apply (Hnear (repeat (0, 0)%Z 4)).
    cbn [repeat at_updates]. repeat split; intros H; try discriminate H;
      vm_compute; reflexivity.
  - rewrite (Hexact [(0, 0); (1, 0); (0, 1)]%Z).
    + vm_compute. reflexivity.
    + cbn [at_updates]. repeat split; intros H; try discriminate H;
        vm_compute; reflexivity.
  - apply Hstep; reflexivity.
Defined.

(** From the shipped delay [.2] with the shipped step [.05], four stop
    trials on which the movement is withheld leave a delay of
    0.39999999999999997: it is not the initial delay plus four steps, whether
    these are taken as the doubles of the script or as the decimals it
    writes, and it is not the double nearest to 0.4 either. *)
Lemma staircase_rounds :
  let cfg := StopSignal.shipped "0001" 1 60 in
  let s := staircase_run cfg (repeat (0, 0)%Z 4) (StopSignal.ssd_start cfg) in
  s = (7205759403792793 # 18014398509481984)%Q
  /\ count_of is_withheld (repeat (0, 0)%Z 4) = 4%Z
  /\ count_of is_not_withheld (repeat (0, 0)%Z 4) = 0%Z
  /\ ~ (s == StopSignal.ssd_start cfg + StopSignal.ssd_step cfg * inject_Z (4 - 0))%Q
  /\ ~ (s == 0.2 + 0.05 * inject_Z (4 - 0))%Q
  /\ ~ (s == Py.float 0.4)%Q.
Proof.
  vm_compute. repeat split; intros H; discriminate H.
Qed.


(** ** The number of frames of a phase *)




(** ** The trace and the perturbation *)

(** C7.  The trace a phase returns holds, frame by frame, the joystick's x,
    the negated joystick's y and the clock reading, none of them scaled, and
    it is the same whatever the perturbation; so are the onset time and the
    movement flags.  The perturbation only enters the angle at which the
    cursor is put: [pol2cart(theta + perturbation, radius)], with
    [(theta, radius)] the polar form of the scaled sample. *)
Theorem trace_ignores_perturbation (lab : Collaborators)
    (setup : Adaptation.Setup) (duration : Q) (phase_name : string)
    (go_phase : bool) (w : World) :
  let N := Z.to_nat (Py.int (Adaptation.framerate_r setup * duration)) in
  let sc := Adaptation.scaling (Adaptation.settings setup) in
  (forall p1 p2, exists r1 w1 r2 w2,
      Adaptation.run_phase lab setup duration p1 phase_name go_phase w = Ok r1 w1
      /\ Adaptation.run_phase lab setup duration p2 phase_name go_phase w = Ok r2 w2
      /\ r1 = r2
      /\ xs (Adaptation.tmp r1) = map (fun j => getX lab (joy_reads w + j)) (seq 0 N)
      /\ ys (Adaptation.tmp r1)
         = map (fun j => (- getY lab (joy_reads w + j))%Q) (seq 0 N)
      /\ ts (Adaptation.tmp r1)
         = map (fun j => getTime lab (S (clock_reads w) + j)) (seq 0 N))
  /\ (forall p i l, exists l' w',
        Adaptation.phase_frame lab setup p phase_name go_phase i l w = Ok l' w'
        /\ cursor_pos w' =
           pol2cart lab
             (fst (cart2pol lab (getX lab (joy_reads w) * sc)
                                (- getY lab (joy_reads w) * sc)) + p)
             (snd (cart2pol lab (getX lab (joy_reads w) * sc)
                                (- getY lab (joy_reads w) * sc))))
  /\ (forall p, back_buffer w = [] -> exists r w',
        Adaptation.run_phase lab setup duration p phase_name go_phase w = Ok r w'
        /\ forall j, (j < N)%nat ->
             frame_no w w' j =
             Some (phase_screen lab sc
                     (Adaptation.starting_radius (Adaptation.settings setup))
                     (Adaptation.hidden_radius (Adaptation.settings setup))
                     (joy_reads w) p phase_name go_phase (target w) j)).
Proof.
  intros N sc. split; [|split].
  - intros p1 p2.
    destruct (run_phase_eq lab setup duration p1 phase_name go_phase w)
      as (w1 & Hrun1 & _).
    destruct (run_phase_eq lab setup duration p2 phase_name go_phase w)
      as (w2 & Hrun2 & _).
    eexists. exists w1. eexists. exists w2.
    split; [exact Hrun1|]. split; [exact Hrun2|]. repeat split.
  - intros p i l. rewrite phase_frame_eq. cbn zeta. eexists. eexists.
    split; [reflexivity|]. reflexivity.
  - intros p Hb.
    destruct (run_phase_eq lab setup duration p phase_name go_phase w)
      as (w' & Hrun & _ & _ & _ & _ & _ & Hp).
    eexists. exists w'. split; [exact Hrun|]. intros j Hj.
    apply frame_no_spec with (n := N); [apply Hp; exact Hb | exact Hj].
Qed.

Lemma trace_ignores_perturbation_witness :
  exists r w',
    Adaptation.run_phase (bench [0.5; 2; 5; 9.5]) (bench_setup 4) 1 (1 # 2) "go"
      true fresh_world = Ok r w'
    /\ frame_no fresh_world w' 3 =
       Some [drawn_cursor (9.5 * 1, 9.5 * 1 * (0 + (1 # 2)))%Q;
             drawn_target (mkCircle None white (0, 0))].
Proof.
  destruct (trace_ignores_perturbation (bench [0.5; 2; 5; 9.5]) (bench_setup 4)
              1 "go" true fresh_world) as (_ & _ & H).
  destruct (H (1 # 2) eq_refl) as (r & w' & Hrun & Hf).
  exists r, w'. split; [exact Hrun|]. apply (Hf 3%nat). vm_compute. lia.
Defined.


(** ** The stop cue *)




(** What the movement test does to a flag pair and to the feedback, zone
    by zone; [start'], [full'] and [fed] are what the frame leaves. *)
Lemma zone_table (st hd r : Q) (start full start' full' : Z) (fed : bool) :
  start' = (if in_transit st hd r then 1%Z else start) ->
  full' = (if arrived st hd r then 1%Z else full) ->
  fed = negb (in_transit st hd r) ->
  ((r < st)%Q -> fed = true /\ start' = start /\ full' = full)
  /\ ((st <= r)%Q -> (r < hd * 0.9)%Q ->
      fed = false /\ start' = 1%Z /\ full' = full)
  /\ ((st <= r)%Q -> (hd * 0.9 <= r)%Q ->
      fed = true /\ full' = 1%Z /\ start' = start)
  /\ ((st <= hd * 0.9)%Q -> (hd * 0.9 <= r)%Q ->
      fed = true /\ full' = 1%Z /\ start' = start).
Proof.
  intros -> -> ->.
  assert (H3 : (st <= r)%Q -> (hd * 0.9 <= r)%Q ->
               negb (in_transit st hd r) = true
               /\ (if arrived st hd r then 1%Z else full) = 1%Z
               /\ (if in_transit st hd r then 1%Z else start) = start).
  { intros H1 H2. assert (Ha : arrived st hd r = true) by (apply arrived_iff; auto).
    rewrite Ha. rewrite (proj2 (proj2 (zones_apart st hd r)) Ha). auto. }
  split; [|split; [|split]].
  - intros H. destruct (proj1 (zones_apart st hd r) H) as [-> ->]. auto.
  - intros H1 H2.
    assert (Ht : in_transit st hd r = true) by (apply in_transit_iff; auto).
    rewrite Ht. rewrite (proj1 (proj2 (zones_apart st hd r)) Ht). auto.
  - exact H3.
  - intros H1 H2. apply H3; [|exact H2]. eapply Qle_trans; eassumption.
Qed.

Lemma shows_cursor_go_frame (pre : list Draw) (b : bool) (cp : Q * Q) (t : Circle) :
  shows_cursor pre = false ->
  shows_cursor (pre ++ (if b then [drawn_cursor cp] else []) ++ [drawn_target t]) = b
  /\ shows_cursor (pre ++ drawn_target t :: (if negb b then [] else [drawn_cursor cp]))
     = b.
Proof.
  intros Hpre. unfold shows_cursor in *. rewrite !existsb_app, Hpre.
  destruct b; simpl; auto.
Qed.

(** One flag over a whole GO phase that starts with the flag down. *)
Lemma flag_of_phase lab sc st hd r0 f N (flag : Z) :
  flag = (if moved lab sc st hd r0 f N then 1%Z else 0%Z) ->
  (flag = 1%Z <->
   exists j, (j < N)%nat /\ f st hd (sample_radius lab sc r0 j) = true)
  /\ (flag = 0%Z \/ flag = 1%Z).
Proof.
  intros ->. rewrite <- moved_true.
  destruct (moved lab sc st hd r0 f N); split; auto; split; congruence.
Qed.

(** ** The movement test *)

(** C2.  On every frame of the GO phase the radius of the scaled sample is
    tested as the spec has it: below [starting_radius] the cursor is drawn
    and neither flag changes; otherwise, below [0.9 * hidden_radius] the
    start flag is set and the cursor is not drawn; otherwise the cursor is
    drawn and the full flag is set.  With the thresholds in their order,
    [starting_radius <= 0.9 * hidden_radius], every radius of at least
    [0.9 * hidden_radius] draws the cursor and sets the full flag, so the
    three cases are the three zones of the claim.  Over a GO phase that starts
    with both flags down, a flag ends up set exactly when some frame fell in
    its zone; both stay down if every frame was below [starting_radius]. *)
Theorem movement_zones (lab : Collaborators) :
  (forall setup p i l w,
      back_buffer w = [] ->
      let st := Adaptation.starting_radius (Adaptation.settings setup) in
      let hd := Adaptation.hidden_radius (Adaptation.settings setup) in
      let sc := Adaptation.scaling (Adaptation.settings setup) in
      let r := snd (cart2pol lab (getX lab (joy_reads w) * sc)
                                 (- getY lab (joy_reads w) * sc)) in
      exists l' w' frame,
        Adaptation.phase_frame lab setup p "go" true i l w = Ok l' w'
        /\ presented w' = frame :: presented w
        /\ ((r < st)%Q ->
            shows_cursor frame = true
            /\ Adaptation.l_start l' = Adaptation.l_start l
            /\ Adaptation.l_full l' = Adaptation.l_full l)
        /\ ((st <= r)%Q -> (r < hd * 0.9)%Q ->
            shows_cursor frame = false
            /\ Adaptation.l_start l' = 1%Z
            /\ Adaptation.l_full l' = Adaptation.l_full l)
        /\ ((st <= r)%Q -> (hd * 0.9 <= r)%Q ->
            shows_cursor frame = true
            /\ Adaptation.l_full l' = 1%Z
            /\ Adaptation.l_start l' = Adaptation.l_start l)
        /\ ((st <= hd * 0.9)%Q -> (hd * 0.9 <= r)%Q ->
            shows_cursor frame = true
            /\ Adaptation.l_full l' = 1%Z
            /\ Adaptation.l_start l' = Adaptation.l_start l))
  /\ (forall cfg go_list trial ssd go (n : nat) tv w,
        Py.getitem go_list trial = Some go ->
        back_buffer w = [] ->
        let st := StopSignal.starting_radius cfg in
        let hd := StopSignal.hidden_radius cfg in
        let sc := StopSignal.scaling cfg in
        let r := snd (cart2pol lab (getX lab (joy_reads w) * sc)
                                   (- getY lab (joy_reads w) * sc)) in
        exists tv' w' frame,
          StopSignal.go_frame lab cfg go_list trial ssd (Z.of_nat n) tv w = Ok tv' w'
          /\ presented w' = frame :: presented w
          /\ ((r < st)%Q ->
              shows_cursor frame = true
              /\ StopSignal.start_mov tv' = StopSignal.start_mov tv
              /\ StopSignal.full_mov tv' = StopSignal.full_mov tv)
          /\ ((st <= r)%Q -> (r < hd * 0.9)%Q ->
              shows_cursor frame = false
              /\ StopSignal.start_mov tv' = 1%Z
              /\ StopSignal.full_mov tv' = StopSignal.full_mov tv)
          /\ ((st <= r)%Q -> (hd * 0.9 <= r)%Q ->
              shows_cursor frame = true
              /\ StopSignal.full_mov tv' = 1%Z
              /\ StopSignal.start_mov tv' = StopSignal.start_mov tv)
          /\ ((st <= hd * 0.9)%Q -> (hd * 0.9 <= r)%Q ->
              shows_cursor frame = true
              /\ StopSignal.full_mov tv' = 1%Z
              /\ StopSignal.start_mov tv' = StopSignal.start_mov tv))
  /\ (forall setup duration p w,
        let st := Adaptation.starting_radius (Adaptation.settings setup) in
        let hd := Adaptation.hidden_radius (Adaptation.settings setup) in
        let sc := Adaptation.scaling (Adaptation.settings setup) in
        let N := Z.to_nat (Py.int (Adaptation.framerate_r setup * duration)) in
        let radius := sample_radius lab sc (joy_reads w) in
        exists res w',
          Adaptation.run_phase lab setup duration p "go" true w = Ok res w'
          /\ (Adaptation.tmp_start res = 1%Z <->
              exists j, (j < N)%nat /\ (st <= radius j)%Q /\ (radius j < hd * 0.9)%Q)
          /\ (Adaptation.tmp_full res = 1%Z <->
              exists j, (j < N)%nat /\ (st <= radius j)%Q /\ (hd * 0.9 <= radius j)%Q)
          /\ ((forall j, (j < N)%nat -> (radius j < st)%Q) ->
              Adaptation.tmp_start res = 0%Z /\ Adaptation.tmp_full res = 0%Z))
  /\ (forall cfg go_list trial ssd go tr w,
        Py.getitem go_list trial = Some go ->
        let st := StopSignal.starting_radius cfg in
        let hd := StopSignal.hidden_radius cfg in
        let sc := StopSignal.scaling cfg in
        let N := Z.to_nat (Py.int (StopSignal.framerate_r cfg
                                   * StopSignal.go_time cfg)) in
        let radius := sample_radius lab sc (joy_reads w) in
        exists tv' w',
          StopSignal.go_loop lab cfg go_list trial ssd
            (StopSignal.mkTrialVars tr 0 0) w = Ok tv' w'
          /\ (StopSignal.start_mov tv' = 1%Z <->
              exists j, (j < N)%nat /\ (st <= radius j)%Q /\ (radius j < hd * 0.9)%Q)
          /\ (StopSignal.full_mov tv' = 1%Z <->
              exists j, (j < N)%nat /\ (st <= radius j)%Q /\ (hd * 0.9 <= radius j)%Q)
          /\ ((forall j, (j < N)%nat -> (radius j < st)%Q) ->
              StopSignal.start_mov tv' = 0%Z /\ StopSignal.full_mov tv' = 0%Z)).
Proof.
  split; [|split; [|split]].
  - intros setup p i l w Hb st hd sc r.
    rewrite phase_frame_eq. cbn zeta. fold st hd sc. fold r.
    eexists. eexists. eexists. split; [reflexivity|].
    cbn [presented Adaptation.l_start Adaptation.l_full]. split; [reflexivity|].
    rewrite Hb. cbn [app String.eqb Ascii.eqb Bool.eqb andb].
    apply zone_table; try reflexivity.
    apply (shows_cursor_go_frame [] (negb (in_transit st hd r))). reflexivity.
  - intros cfg go_list trial ssd go n tv w Hgo Hb st hd sc r.
    rewrite (go_frame_eq lab cfg go_list trial ssd go Hgo). cbn zeta.
    fold st hd sc. fold r.
    eexists. eexists. eexists. split; [reflexivity|].
    cbn [presented StopSignal.start_mov StopSignal.full_mov]. split; [reflexivity|].
    rewrite Hb.
    apply zone_table; try reflexivity.
    rewrite <- (negb_involutive (in_transit st hd r)) at 1.
    apply (shows_cursor_go_frame [] (negb (in_transit st hd r))). reflexivity.
  - intros setup duration p w st hd sc N radius.
    destruct (run_phase_eq lab setup duration p "go" true w) as (w' & Hrun & _).
    eexists. exists w'. split; [exact Hrun|].
    cbn [Adaptation.tmp_start Adaptation.tmp_full andb]. fold st hd sc N.
    destruct (flag_of_phase lab sc st hd (joy_reads w) in_transit N _ eq_refl)
      as [Hs Hs01].
    destruct (flag_of_phase lab sc st hd (joy_reads w) arrived N _ eq_refl)
      as [Hf Hf01].
    split; [|split].
    + rewrite Hs. split; intros (j & Hj & H); exists j; (split; [exact Hj|]);
        apply in_transit_iff; exact H.
    + rewrite Hf. split; intros (j & Hj & H); exists j; (split; [exact Hj|]);
        apply arrived_iff; exact H.
    + intros Hnear. split.
      * destruct Hs01 as [H0|H1]; [exact H0|]. apply Hs in H1.
        destruct H1 as (j & Hj & H). apply in_transit_iff in H.
        specialize (Hnear j Hj). fold (radius j) in H. destruct H as [H _].
        exfalso. apply (Qlt_not_le _ _ Hnear H).
      * destruct Hf01 as [H0|H1]; [exact H0|]. apply Hf in H1.
        destruct H1 as (j & Hj & H). apply arrived_iff in H.
        specialize (Hnear j Hj). fold (radius j) in H. destruct H as [H _].
        exfalso. apply (Qlt_not_le _ _ Hnear H).
  - intros cfg go_list trial ssd go tr w Hgo st hd sc N radius.
    unfold StopSignal.go_loop, Py.arange. fold N.
    destruct (go_frames_run lab cfg go_list trial ssd go Hgo
                (StopSignal.mkTrialVars tr 0 0) w N) as (w' & Hrun & _).
    eexists. exists w'. split; [exact Hrun|].
    cbn [StopSignal.start_mov StopSignal.full_mov]. fold st hd sc.
    destruct (flag_of_phase lab sc st hd (joy_reads w) in_transit N _ eq_refl)
      as [Hs Hs01].
    destruct (flag_of_phase lab sc st hd (joy_reads w) arrived N _ eq_refl)
      as [Hf Hf01].
    split; [|split].
    + rewrite Hs. split; intros (j & Hj & H); exists j; (split; [exact Hj|]);
        apply in_transit_iff; exact H.
    + rewrite Hf. split; intros (j & Hj & H); exists j; (split; [exact Hj|]);
        apply arrived_iff; exact H.
    + intros Hnear. split.
      * destruct Hs01 as [H0|H1]; [exact H0|]. apply Hs in H1.
        destruct H1 as (j & Hj & H). apply in_transit_iff in H.
        specialize (Hnear j Hj). fold (radius j) in H. destruct H as [H _].
        exfalso. apply (Qlt_not_le _ _ Hnear H).
      * destruct Hf01 as [H0|H1]; [exact H0|]. apply Hf in H1.
        destruct H1 as (j & Hj & H). apply arrived_iff in H.
        specialize (Hnear j Hj). fold (radius j) in H. destruct H as [H _].
        exfalso. apply (Qlt_not_le _ _ Hnear H).
Qed.

Lemma movement_zones_witness :
  (exists res w',
      Adaptation.run_phase (bench [0.5]) (bench_setup 4) 1 0 "go" true fresh_world
      = Ok res w'
      /\ Adaptation.tmp_start res = 0%Z /\ Adaptation.tmp_full res = 0%Z)
  /\ (exists res w',
        Adaptation.run_phase (bench [0.5; 2; 5; 9.5]) (bench_setup 4) 1 0 "go" true
          fresh_world = Ok res w'
        /\ Adaptation.tmp_start res = 1%Z /\ Adaptation.tmp_full res = 1%Z)
  /\ (exists tv' w',
        StopSignal.go_loop (bench [0.5; 2; 5; 9.5]) bench_cfg [0%Z] 0 0.5
          (StopSignal.mkTrialVars empty_trace 0 0) fresh_world = Ok tv' w'
        /\ StopSignal.start_mov tv' = 1%Z /\ StopSignal.full_mov tv' = 1%Z).
Proof.
  split; [|split].
  - destruct (movement_zones (bench [0.5])) as (_ & _ & H & _).
    destruct (H (bench_setup 4) 1%Q 0%Q fresh_world)
      as (res & w' & Hrun & _ & _ & Hnear).
    exists res, w'. split; [exact Hrun|]. apply Hnear.
    intros j _. destruct j as [|[|j]]; reflexivity.
  - destruct (movement_zones (bench [0.5; 2; 5; 9.5])) as (_ & _ & H & _).
    destruct (H (bench_setup 4) 1%Q 0%Q fresh_world)
      as (res & w' & Hrun & Hs & Hf & _).
    exists res, w'. split; [exact Hrun|]. split.
    + apply Hs. exists 1%nat. split; [vm_compute; lia|].
      split; [intros H0; discriminate H0 | reflexivity].
    + apply Hf. exists 3%nat. split; [vm_compute; lia|].
      split; intros H0; discriminate H0.
  - destruct (movement_zones (bench [0.5; 2; 5; 9.5])) as (_ & _ & _ & H).
    destruct (H bench_cfg [0%Z] 0%Z 0.5%Q 0%Z empty_trace fresh_world eq_refl)
      as (tv' & w' & Hrun & Hs & Hf & _).
    exists tv', w'. split; [exact Hrun|]. split.
    + apply Hs. exists 1%nat. split; [vm_compute; lia|].
      split; [intros H0; discriminate H0 | reflexivity].
    + apply Hf. exists 3%nat. split; [vm_compute; lia|].
      split; intros H0; discriminate H0.
Defined.

(** ** The movement flags over a trial *)

Lemma flag_kept (b1 b2 : bool) (flag : Z) :
  (b1 = true -> b2 = true) ->
  Py.truthy (if b1 then 1%Z else flag) = true ->
  Py.truthy (if b2 then 1%Z else flag) = true.
Proof.
  intros Hb. destruct b1.
  - rewrite (Hb eq_refl). auto.
  - destruct b2; auto.
Qed.

(** C4.  The movement flags are put to 0 when a trial starts
    ([execute_trial] resets them and [run_phase] starts from 0; the
    stop-signal script resets them before the fixation loop and logs what the
    GO loop, started from 0, leaves).  Over the frames of the GO phase they
    only go up: a flag that is set after [n] frames is set after any [m >= n]
    frames. *)
Theorem movement_flags_monotonic (lab : Collaborators) :
  (Adaptation.reset_movement = (0, 0)%Z
   /\ forall go, Adaptation.add_movement Adaptation.reset_movement go
                 = (Adaptation.tmp_start go, Adaptation.tmp_full go))
  /\ (forall setup duration p phase_name go_phase w, exists res l w1 w',
        Adaptation.run_phase lab setup duration p phase_name go_phase w = Ok res w'
        /\ for_each (Py.arange (Py.int (Adaptation.framerate_r setup * duration)))
             (Adaptation.phase_frame lab setup p phase_name go_phase)
             (Adaptation.mkLocals empty_trace 0 0) w1 = Ok l w'
        /\ Adaptation.tmp_start res = Adaptation.l_start l
        /\ Adaptation.tmp_full res = Adaptation.l_full l)
  /\ (forall setup p phase_name go_phase l w (n m : nat),
        (n <= m)%nat ->
        exists ln wn lm wm,
          for_each (Py.arange (Z.of_nat n))
            (Adaptation.phase_frame lab setup p phase_name go_phase) l w = Ok ln wn
          /\ for_each (Py.arange (Z.of_nat m))
               (Adaptation.phase_frame lab setup p phase_name go_phase) l w
             = Ok lm wm
          /\ (Py.truthy (Adaptation.l_start ln) = true ->
              Py.truthy (Adaptation.l_start lm) = true)
          /\ (Py.truthy (Adaptation.l_full ln) = true ->
              Py.truthy (Adaptation.l_full lm) = true))
  /\ (forall cfg go_list trial ssd go tv w (n m : nat),
        Py.getitem go_list trial = Some go ->
        (n <= m)%nat ->
        exists tvn wn tvm wm,
          for_each (Py.arange (Z.of_nat n))
            (StopSignal.go_frame lab cfg go_list trial ssd) tv w = Ok tvn wn
          /\ for_each (Py.arange (Z.of_nat m))
               (StopSignal.go_frame lab cfg go_list trial ssd) tv w = Ok tvm wm
          /\ (Py.truthy (StopSignal.start_mov tvn) = true ->
              Py.truthy (StopSignal.start_mov tvm) = true)
          /\ (Py.truthy (StopSignal.full_mov tvn) = true ->
              Py.truthy (StopSignal.full_mov tvm) = true))
  /\ (forall cfg patience angle_list go_list trial v w v' w',
        StopSignal.trial_body lab cfg patience angle_list go_list trial v w
        = Ok v' w' ->
        exists row tr0 tv wg wg',
          StopSignal.data_dict v' = StopSignal.data_dict v ++ [row]
          /\ StopSignal.go_loop lab cfg go_list trial (StopSignal.ssd v)
               (StopSignal.mkTrialVars tr0 0 0) wg = Ok tv wg'
          /\ col_start_mov row = StopSignal.start_mov tv
          /\ col_full_mov row = StopSignal.full_mov tv).
Proof.
  split; [|split; [|split; [|split]]].
  - split; reflexivity.
  - intros setup duration p phase_name go_phase w.
    unfold Adaptation.run_phase, bind, clock_getTime.
    match goal with
    | |- context [for_each ?fr ?body ?l0 ?w1] =>
        destruct (for_each fr body l0 w1) as [l w'|e w'] eqn:E
    end.
    + eexists. exists l. eexists. exists w'. unfold ret.
      split; [reflexivity|]. split; [exact E|]. split; reflexivity.
    + exfalso. unfold Py.arange in E.
      match type of E with
      | for_each _ _ ?l0 ?w1 = _ =>
          destruct (phase_frames_run lab setup p phase_name go_phase l0 w1
                      (Z.to_nat (Py.int (Adaptation.framerate_r setup * duration))))
            as (w2 & Hrun & _)
      end.
      rewrite Hrun in E. discriminate E.
  - intros setup p phase_name go_phase l w n m Hnm.
    unfold Py.arange. rewrite !Nat2Z.id.
    destruct (phase_frames_run lab setup p phase_name go_phase l w n)
      as (wn & Hn & _).
    destruct (phase_frames_run lab setup p phase_name go_phase l w m)
      as (wm & Hm & _).
    eexists. exists wn. eexists. exists wm.
    split; [exact Hn|]. split; [exact Hm|].
    cbn [Adaptation.l_start Adaptation.l_full].
    split; apply flag_kept; destruct go_phase; cbn [andb]; try discriminate;
      apply moved_mono; exact Hnm.
  - intros cfg go_list trial ssd go tv w n m Hgo Hnm.
    unfold Py.arange. rewrite !Nat2Z.id.
    destruct (go_frames_run lab cfg go_list trial ssd go Hgo tv w n)
      as (wn & Hn & _).
    destruct (go_frames_run lab cfg go_list trial ssd go Hgo tv w m)
      as (wm & Hm & _).
    eexists. exists wn. eexists. exists wm.
    split; [exact Hn|]. split; [exact Hm|].
    cbn [StopSignal.start_mov StopSignal.full_mov].
    split; apply flag_kept; apply moved_mono; exact Hnm.
  - intros cfg patience angle_list go_list trial v w v' w' H.
    apply trial_body_Ok in H.
    destruct H as (row & tr0 & tv & wg & wg' & joy & Hgo & Hs & _ & Hsm & Hfm
                   & _ & _ & Hd & _).
    exists row, tr0, tv, wg, wg'. rewrite <- Hs. repeat split; assumption.
Qed.

Lemma movement_flags_monotonic_witness :
  exists tv1 w1 tv3 w3,
    for_each (Py.arange 2)
      (StopSignal.go_frame (bench [0.5; 2; 0.5; 0.5]) bench_cfg [0%Z] 0 0.5)
      (StopSignal.mkTrialVars empty_trace 0 0) fresh_world = Ok tv1 w1
    /\ for_each (Py.arange 4)
         (StopSignal.go_frame (bench [0.5; 2; 0.5; 0.5]) bench_cfg [0%Z] 0 0.5)
         (StopSignal.mkTrialVars empty_trace 0 0) fresh_world = Ok tv3 w3
    /\ Py.truthy (StopSignal.start_mov tv3) = true.
Proof.
  destruct (movement_flags_monotonic (bench [0.5; 2; 0.5; 0.5]))
    as (_ & _ & _ & H & _).
  destruct (H bench_cfg [0%Z] 0%Z 0.5%Q 0%Z
              (StopSignal.mkTrialVars empty_trace 0 0) fresh_world 2%nat 4%nat
              eq_refl ltac:(lia))
    as (tv1 & w1 & tv3 & w3 & H1 & H3 & Hs & _).
  exists tv1, w1, tv3, w3. split; [exact H1|]. split; [exact H3|].
  apply Hs. vm_compute in H1. inversion H1; subst. reflexivity.
Defined.

(** ** The centring gate *)

Lemma off_centre_shift lab sc st r j :
  off_centre lab sc st (S r) j = off_centre lab sc st r (S j).
Proof.
  unfold off_centre, sample_radius, sample_x, sample_y.
  now rewrite Nat.add_succ_r.
Qed.

Lemma released_at_shift lab sc st r p :
  released_at lab sc st r (S p) -> released_at lab sc st (S r) p.
Proof.
  intros [Hoff Hin]. split.
  - intros j Hj. rewrite off_centre_shift. apply Hoff. lia.
  - now rewrite off_centre_shift.
Qed.

Lemma gate_step lab cfg n w :
  StopSignal.centering_gate lab cfg (S n) w =
  if off_centre lab (StopSignal.scaling cfg) (StopSignal.starting_radius cfg)
                (joy_reads w) 0
  then StopSignal.centering_gate lab cfg n
         (mkWorld (S (joy_reads w)) (clock_reads w) (key_polls w) (rng_draws w)
                  (target w) (cursor_pos w) []
                  ((back_buffer w ++ release_frame) :: presented w) (disk w))
  else Ok tt (mkWorld (S (joy_reads w)) (clock_reads w) (key_polls w)
                      (rng_draws w) (target w) (cursor_pos w) (back_buffer w)
                      (presented w) (disk w)).
Proof.
  unfold off_centre, sample_radius, sample_x, sample_y. rewrite Nat.add_0_r.
  cbn [StopSignal.centering_gate]. unfold bind at 1. cbn [joy_sample fst snd].
  destruct (Qle_bool _ _); reflexivity.
Qed.

Lemma gate_released lab cfg patience : forall p w,
  (p < patience)%nat ->
  released_at lab (StopSignal.scaling cfg) (StopSignal.starting_radius cfg)
              (joy_reads w) p ->
  back_buffer w = [] ->
  StopSignal.centering_gate lab cfg patience w =
  Ok tt (mkWorld (joy_reads w + S p) (clock_reads w) (key_polls w) (rng_draws w)
                 (target w) (cursor_pos w) []
                 (repeat release_frame p ++ presented w) (disk w)).
Proof.
  induction patience as [|n IH]; intros p w Hp Hrel Hb; [lia|].
  rewrite gate_step. destruct p as [|p].
  - destruct Hrel as [_ ->]. rewrite Hb, Nat.add_1_r. reflexivity.
  - pose proof Hrel as [Hoff _]. rewrite (Hoff 0%nat) by lia.
    rewrite IH with (p := p); cbn [joy_reads back_buffer]; try lia; try reflexivity.
    + cbn [clock_reads key_polls rng_draws target cursor_pos presented disk].
      rewrite Hb. cbn [app].
      replace (joy_reads w + S (S p))%nat with (S (joy_reads w) + S p)%nat by lia.
      replace (repeat release_frame p ++ release_frame :: presented w)
        with (repeat release_frame (S p) ++ presented w); [reflexivity|].
      change (release_frame :: presented w) with ([release_frame] ++ presented w).
      rewrite app_assoc, <- repeat_cons. reflexivity.
    + apply released_at_shift. exact Hrel.
Qed.


Lemma gate_Ok_released lab cfg patience : forall w u w',
  StopSignal.centering_gate lab cfg patience w = Ok u w' ->
  exists p, (p < patience)%nat
            /\ released_at lab (StopSignal.scaling cfg)
                 (StopSignal.starting_radius cfg) (joy_reads w) p.
Proof.
  induction patience as [|n IH]; intros w u w' H; [discriminate H|].
  rewrite gate_step in H.
  destruct (off_centre lab (StopSignal.scaling cfg) (StopSignal.starting_radius cfg)
              (joy_reads w) 0) eqn:E.
  - apply IH in H. destruct H as (p & Hp & Hoff & Hin). cbn [joy_reads] in *.
    exists (S p). split; [lia|]. split.
    + intros j Hj. destruct j as [|j]; [exact E|].
      rewrite <- off_centre_shift. apply Hoff. lia.
    + rewrite <- off_centre_shift. exact Hin.
  - exists 0%nat. split; [lia|]. split; [intros j Hj; lia | exact E].
Qed.

(** ** A trial of the stop-signal script, step by step *)

Lemma map_from (f : nat -> Q) (g : nat -> Q) r n :
  (forall j, f j = g (r + j)%nat) -> map f (seq 0 n) = map g (seq r n).
Proof.
  intros Hfg. revert r f Hfg. induction n as [|n IH]; intros r f Hfg; cbn.
  - reflexivity.
  - rewrite Hfg, Nat.add_0_r. f_equal. rewrite <- seq_shift, map_map.
    apply IH. intros j. rewrite Hfg. f_equal. lia.
Qed.

Lemma sampled_seq lab r c tr n :
  sampled lab r c tr n =
  mkTrace (xs tr ++ map (getX lab) (seq r n))
          (ys tr ++ map (fun k => (- getY lab k)%Q) (seq r n))
          (ts tr ++ map (getTime lab) (seq c n)).
Proof.
  unfold sampled. f_equal; f_equal; apply map_from; intros j; reflexivity.
Qed.

Lemma trace_join lab cfg r c r1 c1 r2 c2 r3 c3 :
  r1 = (r + fix_frames cfg)%nat -> c1 = S (ready_tick cfg c) ->
  r2 = (r1 + ready_frames cfg)%nat -> c2 = S (go_tick cfg c) ->
  r3 = (r2 + go_frames cfg)%nat -> c3 = S (post_go_tick cfg c) ->
  sampled lab r3 c3
    (sampled lab r2 c2
       (sampled lab r1 c1 (sampled lab r (S c) empty_trace (fix_frames cfg))
          (ready_frames cfg)) (go_frames cfg)) (post_go_frames cfg)
  = trace_from lab cfg r c.
Proof.
  intros -> -> -> -> -> ->. rewrite !sampled_seq. unfold trace_from, trial_frames.
  cbn [xs ys ts empty_trace app].
  rewrite !seq_app, !map_app, <- !app_assoc, !Nat.add_assoc. reflexivity.
Qed.

Ltac tidy_world :=
  cbn [joy_reads clock_reads key_polls rng_draws target cursor_pos back_buffer
       presented disk].

Section Forward.
Variable lab : Collaborators.
Variable cfg : StopSignal.Settings.
Variable patience : nat.
Variable angle_list : list Q.
Variable go_list : list Z.
Variable trial : Z.
Variable angle : Q.
Variable go : Z.
Hypothesis Hangle : Py.getitem angle_list trial = Some angle.
Hypothesis Hgo : Py.getitem go_list trial = Some go.

Lemma trial_body_eq (v : StopSignal.Vars) (w : World) (p : nat) :
  (p < patience)%nat ->
  released_at lab (StopSignal.scaling cfg) (StopSignal.starting_radius cfg)
              (joy_reads w) p ->
  let r0 := (joy_reads w + S p)%nat in
  let c0 := clock_reads w in
  let row := row_from lab cfg trial angle go (StopSignal.ssd v) r0 c0 (rng_draws w) in
  exists w',
    StopSignal.trial_body lab cfg patience angle_list go_list trial v w
    = Ok (StopSignal.mkVars
            (StopSignal.staircase cfg go (col_full_mov row) (StopSignal.ssd v))
            (StopSignal.data_dict v ++ [row])) w'
    /\ joy_reads w' = (r0 + trial_frames cfg)%nat
    /\ clock_reads w' = S (iti_tick cfg c0)
    /\ key_polls w' = key_polls w
    /\ rng_draws w' = S (rng_draws w)
    /\ target w' = mkCircle None white (StopSignal.target_origin cfg)
    /\ back_buffer w' = []
    /\ length (presented w') = (length (presented w) + (2 + p + trial_frames cfg))%nat
    /\ disk w' = np_save trial (trace_from lab cfg r0 c0)
                 :: to_csv (StopSignal.data_dict v ++ [row]) :: disk w
    /\ rev (presented w')
       = rev (presented w)
         ++ trial_screens lab cfg (back_buffer w) (target w) angle go
              (StopSignal.ssd v) p r0.
Proof.
  intros Hp Hrel r0 c0 row. unfold StopSignal.trial_body.
  unfold bind at 1. unfold target_draw at 1. cbn [draw].
  unfold bind at 1. cbn [win_flip].
  unfold bind at 1. rewrite (gate_released lab cfg patience p) by (cbn; auto).
  cbn [joy_reads clock_reads key_polls rng_draws target cursor_pos presented disk].
  fold r0 c0.
  unfold bind at 1. cbn [set_target]. unfold bind at 1. cbn [set_target].
  unfold bind at 1. cbn [clock_getTime].
  cbn [joy_reads clock_reads key_polls rng_draws target cursor_pos back_buffer
       presented disk].
  unfold Py.arange.
  fold (frames_in cfg (StopSignal.fix_time cfg)). fold (fix_frames cfg).
  fold (frames_in cfg (StopSignal.ready_time cfg)). fold (ready_frames cfg).
  fold (frames_in cfg (StopSignal.post_go_time cfg)). fold (post_go_frames cfg).
  (* fixation *)
  tidy_world.
  match goal with
  | |- context [bind (for_each (map Z.of_nat (seq 0 ?n)) _ ?tr) _ ?w0] =>
      destruct (rest_frames_run lab cfg false tr w0 n)
        as (w2 & Hfix & (Hj2 & Hc2 & Hk2 & Hr2 & Hd2 & Hl2) & Ht2 & Hb2)
  end.
  cbn [joy_reads clock_reads key_polls rng_draws target cursor_pos back_buffer
       presented disk] in Hfix, Hj2, Hc2, Hk2, Hr2, Hd2, Hl2, Ht2, Hb2.
  destruct (Hb2 eq_refl) as [Hbb2 Hp2]. clear Hb2.
  unfold bind at 1. cbv zeta in Hfix. rewrite Hfix.
  unfold bind at 1. cbn [clock_getTime].
  (* ready *)
  tidy_world.
  match goal with
  | |- context [bind (for_each (map Z.of_nat (seq 0 ?n)) _ ?tr) _ ?w0] =>
      destruct (rest_frames_run lab cfg true tr w0 n)
        as (w3 & Hready & (Hj3 & Hc3 & Hk3 & Hr3 & Hd3 & Hl3) & Ht3 & Hb3)
  end.
  cbn [joy_reads clock_reads key_polls rng_draws target cursor_pos back_buffer
       presented disk] in Hready, Hj3, Hc3, Hk3, Hr3, Hd3, Hl3, Ht3, Hb3.
  destruct (Hb3 Hbb2) as [Hbb3 Hp3]. clear Hb3.
  unfold bind at 1. cbv zeta in Hready. rewrite Hready.
  unfold bind at 1. cbn [set_target]. unfold bind at 1. cbn [set_target].
  unfold bind at 1. rewrite (lookup_Some _ _ _ _ Hangle).
  unfold bind at 1. cbn [set_target]. unfold bind at 1. cbn [clock_getTime].
  (* GO *)
  unfold StopSignal.go_loop, Py.arange.
  fold (frames_in cfg (StopSignal.go_time cfg)). fold (go_frames cfg).
  tidy_world.
  match goal with
  | |- context [bind (for_each (map Z.of_nat (seq 0 ?n)) _ ?tv) _ ?w0] =>
      destruct (go_frames_run lab cfg go_list trial (StopSignal.ssd v) go Hgo tv w0 n)
        as (w4 & Hgoloop & (Hj4 & Hc4 & Hk4 & Hr4 & Hd4 & Hl4) & Ht4 & Hb4)
  end.
  cbn [joy_reads clock_reads key_polls rng_draws target cursor_pos back_buffer
       presented disk StopSignal.trial_trace StopSignal.start_mov
       StopSignal.full_mov] in Hgoloop, Hj4, Hc4, Hk4, Hr4, Hd4, Hl4, Ht4, Hb4.
  destruct (Hb4 Hbb3) as [Hbb4 Hp4]. clear Hb4.
  unfold bind at 1. rewrite Hgoloop.
  unfold bind at 1. cbn [set_target]. unfold bind at 1. cbn [set_target].
  unfold bind at 1. cbn [set_target]. unfold bind at 1. cbn [clock_getTime].
  (* post-GO *)
  cbn [StopSignal.trial_trace StopSignal.start_mov StopSignal.full_mov].
  tidy_world.
  match goal with
  | |- context [bind (for_each (map Z.of_nat (seq 0 ?n)) _ ?tr) _ ?w0] =>
      destruct (rest_frames_run lab cfg false tr w0 n)
        as (w5 & Hpost & (Hj5 & Hc5 & Hk5 & Hr5 & Hd5 & Hl5) & Ht5 & Hb5)
  end.
  cbn [joy_reads clock_reads key_polls rng_draws target cursor_pos back_buffer
       presented disk] in Hpost, Hj5, Hc5, Hk5, Hr5, Hd5, Hl5, Ht5, Hb5.
  destruct (Hb5 Hbb4) as [Hbb5 Hp5]. clear Hb5.
  unfold bind at 1. cbv zeta in Hpost. rewrite Hpost.
  (* ITI and logging *)
  unfold bind at 1. cbn [clock_getTime]. unfold bind at 1. cbn [random_uniform].
  unfold bind at 1. unfold target_draw at 1. cbn [draw].
  unfold bind at 1. cbn [win_flip].
  unfold bind at 1. rewrite (lookup_Some _ _ _ _ Hangle).
  unfold bind at 1. rewrite (lookup_Some _ _ _ _ Hgo).
  cbv zeta. unfold bind at 1. cbn [write]. unfold bind at 1. cbn [write].
  unfold bind at 1. rewrite (lookup_Some _ _ _ _ Hgo).
  unfold ret.
  cbn [joy_reads clock_reads key_polls rng_draws target cursor_pos back_buffer
       presented disk].
  (* the counters, phase by phase *)
  assert (Ej2 : joy_reads w2 = (r0 + fix_frames cfg)%nat) by lia.
  assert (Ec2 : clock_reads w2 = ready_tick cfg c0) by (unfold ready_tick; lia).
  assert (Ej3 : joy_reads w3 = (r0 + fix_frames cfg + ready_frames cfg)%nat) by lia.
  assert (Ec3 : clock_reads w3 = go_tick cfg c0)
    by (unfold go_tick, ready_tick; lia).
  assert (Ej4 : joy_reads w4
                = (r0 + fix_frames cfg + ready_frames cfg + go_frames cfg)%nat) by lia.
  assert (Ec4 : clock_reads w4 = post_go_tick cfg c0)
    by (unfold post_go_tick, go_tick, ready_tick; lia).
  assert (Ec5 : clock_reads w5 = iti_tick cfg c0)
    by (unfold iti_tick, post_go_tick, go_tick, ready_tick; lia).
  rewrite Ec2, Ec3, Ec4, Ec5, Ej2, Ej3, Ej4, Hr5, Hr4, Hr3, Hr2.
  rewrite (trace_join lab cfg r0 c0 _ _ _ _ _ _ eq_refl eq_refl eq_refl eq_refl
             eq_refl eq_refl).
  eexists. split; [reflexivity|].
  cbn [joy_reads clock_reads key_polls rng_draws target cursor_pos back_buffer
       presented disk length].
  unfold trial_frames.
  repeat split; try reflexivity; try lia; try congruence.
  - rewrite Ht5. reflexivity.
  - rewrite Hl5, Hl4, Hl3, Hl2, length_app, repeat_length. cbn [length]. lia.
  - rewrite Hd5, Hd4, Hd3, Hd2. reflexivity.
  - rewrite Hbb5, Hp5, Hp4, Hp3, Hp2, Ht5, Ht4, Ht3, Ht2, Ej4, Ej3, Ej2.
    unfold trial_screens. cbn [app rev].
    rewrite !rev_app_distr, !rev_involutive, rev_repeat. cbn [rev app].
    rewrite <- !app_assoc. cbn [app with_pos with_fillColor with_lineColor
      fillColor lineColor pos].
    reflexivity.
Qed.
End Forward.

(** What a trial that ran to its end did. *)
Lemma trial_body_inv lab cfg patience angle_list go_list trial v w v' w' :
  StopSignal.trial_body lab cfg patience angle_list go_list trial v w = Ok v' w' ->
  exists p angle go,
    (p < patience)%nat
    /\ released_at lab (StopSignal.scaling cfg) (StopSignal.starting_radius cfg)
         (joy_reads w) p
    /\ Py.getitem angle_list trial = Some angle
    /\ Py.getitem go_list trial = Some go
    /\ let r0 := (joy_reads w + S p)%nat in
       let c0 := clock_reads w in
       let row := row_from lab cfg trial angle go (StopSignal.ssd v) r0 c0
                    (rng_draws w) in
       v' = StopSignal.mkVars
              (StopSignal.staircase cfg go (col_full_mov row) (StopSignal.ssd v))
              (StopSignal.data_dict v ++ [row])
       /\ joy_reads w' = (r0 + trial_frames cfg)%nat
       /\ clock_reads w' = S (iti_tick cfg c0)
       /\ key_polls w' = key_polls w
       /\ rng_draws w' = S (rng_draws w)
       /\ target w' = mkCircle None white (StopSignal.target_origin cfg)
       /\ back_buffer w' = []
       /\ length (presented w')
          = (length (presented w) + (2 + p + trial_frames cfg))%nat
       /\ disk w' = np_save trial (trace_from lab cfg r0 c0)
                    :: to_csv (StopSignal.data_dict v ++ [row]) :: disk w
       /\ rev (presented w')
          = rev (presented w)
            ++ trial_screens lab cfg (back_buffer w) (target w) angle go
                 (StopSignal.ssd v) p r0.
Proof.
  intros H.
  destruct (trial_body_Ok lab cfg patience angle_list go_list trial v w v' w' H)
    as (row0 & _ & _ & _ & _ & _ & _ & _ & _ & _ & _ & Hgo & Hangle & _).
  pose proof H as Hgate. unfold StopSignal.trial_body in Hgate.
  peel Hgate H1. peel Hgate H2. peel Hgate H3. clear Hgate.
  inversion H1; subst; clear H1. inversion H2; subst; clear H2.
  apply gate_Ok_released in H3. destruct H3 as (p & Hp & Hrel).
  cbn [joy_reads] in Hrel.
  exists p, (col_target_angle row0), (col_GO_Stop row0).
  destruct (trial_body_eq lab cfg patience angle_list go_list trial _ _ Hangle Hgo
              v w p Hp Hrel) as (w'' & Hrun & Hfacts).
  rewrite Hrun in H. inversion H; subst; clear H.
  repeat (split; [assumption|]). split; [reflexivity|]. exact Hfacts.
Qed.

Lemma length_trace_from lab cfg r c :
  length (xs (trace_from lab cfg r c)) = trial_frames cfg
  /\ length (ys (trace_from lab cfg r c)) = trial_frames cfg
  /\ length (ts (trace_from lab cfg r c)) = trial_frames cfg.
Proof.
  unfold trace_from, trial_frames. cbn [xs ys ts].
  rewrite !length_map, !length_app, !length_seq. lia.
Qed.

(** ** What a trial logs *)





(** ** What a completed trial leaves behind *)

(** X1.  The last thing a completed trial of the stop-signal script writes
    is its joystick trace, after the data frame.  The trace has three rows of
    the same length, the number of frames of the four phases together: the
    joystick's x and negated y at the samplings that follow the one at which
    the gate saw the joystick released, in order and without a gap, and the
    clock readings of those frames, which skip the one reading each phase
    onset takes. *)
Theorem saved_trace_of_a_trial (lab : Collaborators) (cfg : StopSignal.Settings)
    (patience : nat) (angle_list : list Q) (go_list : list Z) (trial : Z)
    (v v' : StopSignal.Vars) (w w' : World) :
  StopSignal.trial_body lab cfg patience angle_list go_list trial v w = Ok v' w' ->
  exists p joy,
    (p < patience)%nat
    /\ released_at lab (StopSignal.scaling cfg) (StopSignal.starting_radius cfg)
         (joy_reads w) p
    /\ disk w' = np_save trial joy :: to_csv (StopSignal.data_dict v') :: disk w
    /\ xs joy = map (getX lab) (seq (joy_reads w + S p) (trial_frames cfg))
    /\ ys joy = map (fun k => (- getY lab k)%Q)
                    (seq (joy_reads w + S p) (trial_frames cfg))
    /\ ts joy = map (getTime lab)
                    (seq (S (clock_reads w)) (fix_frames cfg)
                     ++ seq (S (ready_tick cfg (clock_reads w))) (ready_frames cfg)
                     ++ seq (S (go_tick cfg (clock_reads w))) (go_frames cfg)
                     ++ seq (S (post_go_tick cfg (clock_reads w)))
                            (post_go_frames cfg))
    /\ length (xs joy) = trial_frames cfg
    /\ length (ys joy) = trial_frames cfg
    /\ length (ts joy) = trial_frames cfg.
Proof.
  intros H. apply trial_body_inv in H.
  destruct H as (p & angle & go & Hp & Hrel & _ & _ & Hv & _ & _ & _ & _ & _ & _
                 & _ & Hd & _).
  exists p, (trace_from lab cfg (joy_reads w + S p) (clock_reads w)).
  destruct (length_trace_from lab cfg (joy_reads w + S p) (clock_reads w))
    as (Lx & Ly & Lt).
  rewrite Hv. cbn [StopSignal.data_dict].
  split; [exact Hp|]. split; [exact Hrel|]. split; [exact Hd|].
  repeat split; assumption.
Qed.

Lemma saved_trace_of_a_trial_witness :
  match StopSignal.trial_body (bench [0.5; 2; 5; 9.5]) bench_cfg 1
          (StopSignal.angle_list_unshuffled (bench []) bench_cfg)
          (StopSignal.go_list_unshuffled bench_cfg) 3 (StopSignal.mkVars 0.5 [])
          fresh_world with
  | Ok _ w' =>
      exists joy rest,
        disk w' = np_save 3 joy :: rest
        /\ xs joy = [2; 5; 9.5; 9.5; 9.5; 9.5; 9.5; 9.5; 9.5; 9.5]%Q
        /\ length (ts joy) = 10%nat
  | Raise _ _ => False
  end.
Proof.
  destruct (StopSignal.trial_body (bench [0.5; 2; 5; 9.5]) bench_cfg 1
              (StopSignal.angle_list_unshuffled (bench []) bench_cfg)
              (StopSignal.go_list_unshuffled bench_cfg) 3 (StopSignal.mkVars 0.5 [])
              fresh_world) as [v' w'|e w'] eqn:E.
  - destruct (saved_trace_of_a_trial _ _ _ _ _ _ _ _ _ _ E)
      as (p & joy & Hp & _ & Hd & Hx & _ & _ & _ & _ & Ht).
    exists joy, [to_csv (StopSignal.data_dict v')]. split; [exact Hd|].
    assert (p = 0%nat) by lia. subst p. split; [rewrite Hx; reflexivity | exact Ht].
  - vm_compute in E. discriminate E.
Defined.

(** X2.  The row of a completed trial holds, as phase durations, the
    doubles nearest to the differences of consecutive onset readings of the
    clock, each onset being one reading after the last frame of the phase
    before it.  None is negative if the clock never runs backwards.  Each is
    rounded on its own, so the four add up to the time from the fixation
    onset to the ITI onset only up to that rounding: within half a unit in the
    last place of each difference.  The ITI duration is the one number the
    trial draws from the random generator. *)
Theorem phase_durations (lab : Collaborators) (cfg : StopSignal.Settings)
    (patience : nat) (angle_list : list Q) (go_list : list Z) (trial : Z)
    (v v' : StopSignal.Vars) (w w' : World) :
  StopSignal.trial_body lab cfg patience angle_list go_list trial v w = Ok v' w' ->
  let c := clock_reads w in
  let d_fix := (getTime lab (c + 1 + fix_frames cfg) - getTime lab c)%Q in
  let d_ready := (getTime lab (ready_tick cfg c + 1 + ready_frames cfg)
                  - getTime lab (ready_tick cfg c))%Q in
  let d_go := (getTime lab (go_tick cfg c + 1 + go_frames cfg)
               - getTime lab (go_tick cfg c))%Q in
  let d_post_go := (getTime lab (post_go_tick cfg c + 1 + post_go_frames cfg)
                    - getTime lab (post_go_tick cfg c))%Q in
  exists row,
    StopSignal.data_dict v' = StopSignal.data_dict v ++ [row]
    /\ col_fix_dur row = Py.float d_fix
    /\ col_ready_dur row = Py.float d_ready
    /\ col_go_dur row = Py.float d_go
    /\ col_post_go_dur row = Py.float d_post_go
    /\ ((forall a b, (a <= b)%nat -> (getTime lab a <= getTime lab b)%Q) ->
        (0 <= col_fix_dur row)%Q /\ (0 <= col_ready_dur row)%Q
        /\ (0 <= col_go_dur row)%Q /\ (0 <= col_post_go_dur row)%Q)
    /\ (Qabs (col_fix_dur row + col_ready_dur row + col_go_dur row
              + col_post_go_dur row
              - (getTime lab (c + 4 + trial_frames cfg) - getTime lab c))
        <= (Py.ulp d_fix + Py.ulp d_ready + Py.ulp d_go + Py.ulp d_post_go)
           * (1 # 2))%Q
    /\ col_ITI_dur row
       = uniform lab (fst (StopSignal.ITI_bounds cfg))
                 (snd (StopSignal.ITI_bounds cfg)) (rng_draws w)
    /\ rng_draws w' = S (rng_draws w).
Proof.
  intros H c d_fix d_ready d_go d_post_go. apply trial_body_inv in H.
  destruct H as (p & angle & go & _ & _ & _ & _ & Hv & _ & _ & _ & Hr & _).
  fold c in Hv. eexists. rewrite Hv. cbn [StopSignal.data_dict].
  split; [reflexivity|].
  cbn [row_from col_fix_dur col_ready_dur col_go_dur col_post_go_dur col_ITI_dur].
  assert (Ei : (c + 4 + trial_frames cfg)%nat = iti_tick cfg c)
    by (unfold iti_tick, post_go_tick, go_tick, ready_tick, trial_frames; lia).
  change (getTime lab (ready_tick cfg c) - getTime lab c)%Q with d_fix.
  change (getTime lab (go_tick cfg c) - getTime lab (ready_tick cfg c))%Q
    with d_ready.
  change (getTime lab (post_go_tick cfg c) - getTime lab (go_tick cfg c))%Q
    with d_go.
  change (getTime lab (iti_tick cfg c) - getTime lab (post_go_tick cfg c))%Q
    with d_post_go.
  repeat (split; [reflexivity|]).
  split; [|split; [|split; [reflexivity | exact Hr]]].
  - intros Hclock.
    assert (H1 : (0 <= d_fix)%Q).
    { subst d_fix. set (a := getTime lab c).
      set (b := getTime lab (c + 1 + fix_frames cfg)).
      assert (a <= b)%Q by (apply Hclock; lia). lra. }
    assert (H2 : (0 <= d_ready)%Q).
    { subst d_ready. set (a := getTime lab (ready_tick cfg c)).
      set (b := getTime lab (ready_tick cfg c + 1 + ready_frames cfg)).
      assert (a <= b)%Q by (apply Hclock; lia). lra. }
    assert (H3 : (0 <= d_go)%Q).
    { subst d_go. set (a := getTime lab (go_tick cfg c)).
      set (b := getTime lab (go_tick cfg c + 1 + go_frames cfg)).
      assert (a <= b)%Q by (apply Hclock; lia). lra. }
    assert (H4 : (0 <= d_post_go)%Q).
    { subst d_post_go. set (a := getTime lab (post_go_tick cfg c)).
      set (b := getTime lab (post_go_tick cfg c + 1 + post_go_frames cfg)).
      assert (a <= b)%Q by (apply Hclock; lia). lra. }
    repeat split; apply float_nonneg; assumption.
  - assert (Esum : (getTime lab (c + 4 + trial_frames cfg) - getTime lab c
                    == d_fix + d_ready + d_go + d_post_go)%Q).
    { rewrite Ei. subst d_fix d_ready d_go d_post_go.
      unfold iti_tick, post_go_tick, go_tick, ready_tick. ring. }
    rewrite Esum.
    pose proof (float_error d_fix) as E1. pose proof (float_error d_ready) as E2.
    pose proof (float_error d_go) as E3. pose proof (float_error d_post_go) as E4.
    apply Qabs_Qle_condition in E1, E2, E3, E4. apply Qabs_Qle_condition.
    set (u1 := Py.ulp d_fix) in *. set (u2 := Py.ulp d_ready) in *.
    set (u3 := Py.ulp d_go) in *. set (u4 := Py.ulp d_post_go) in *.
    set (f1 := Py.float d_fix) in *. set (f2 := Py.float d_ready) in *.
    set (f3 := Py.float d_go) in *. set (f4 := Py.float d_post_go) in *.
    clearbody u1 u2 u3 u4 f1 f2 f3 f4 d_fix d_ready d_go d_post_go.
    split; lra.
Qed.

Lemma bench_clock_runs_forward readings (a b : nat) :
  (a <= b)%nat -> (getTime (bench readings) a <= getTime (bench readings) b)%Q.
Proof.
  intros Hab. cbn [getTime bench]. unfold Qle. cbn. lia.
Qed.

Lemma phase_durations_witness :
  match StopSignal.trial_body (bench []) bench_cfg 1
          (StopSignal.angle_list_unshuffled (bench []) bench_cfg)
          (StopSignal.go_list_unshuffled bench_cfg) 3 (StopSignal.mkVars 0.5 [])
          fresh_world with
  | Ok v' _ =>
      exists row,
        StopSignal.data_dict v' = [row]
        /\ col_fix_dur row = Py.float 0.05
        /\ (0 <= col_go_dur row)%Q
  | Raise _ _ => False
  end.
Proof.
  destruct (StopSignal.trial_body (bench []) bench_cfg 1
              (StopSignal.angle_list_unshuffled (bench []) bench_cfg)
              (StopSignal.go_list_unshuffled bench_cfg) 3 (StopSignal.mkVars 0.5 [])
              fresh_world) as [v' w'|e w'] eqn:E.
  - destruct (phase_durations _ _ _ _ _ _ _ _ _ _ E)
      as (row & Hd & Hfix & _ & _ & _ & Hpos & _).
    exists row. split; [exact Hd|]. split.
    + rewrite Hfix. vm_compute. reflexivity.
    + apply Hpos. apply bench_clock_runs_forward.
  - vm_compute in E. discriminate E.
Defined.

(** X3.  A completed trial of the stop-signal script that found the
    joystick released at its [p]-th poll has sampled the joystick once for
    each poll of the gate and once for each frame of its four phases, read the
    clock once for each frame and five times for the onsets, drawn one random
    number, not polled the keyboard, and presented two frames (before the gate
    and in the ITI) besides the [p] release prompts and the frames of the
    phases.  It leaves the target as an unfilled white circle at the origin
    and nothing in the back buffer, whether or not the stop cue was shown. *)
Theorem trial_accounting (lab : Collaborators) (cfg : StopSignal.Settings)
    (patience : nat) (angle_list : list Q) (go_list : list Z) (trial : Z)
    (v v' : StopSignal.Vars) (w w' : World) :
  StopSignal.trial_body lab cfg patience angle_list go_list trial v w = Ok v' w' ->
  exists p,
    (p < patience)%nat
    /\ released_at lab (StopSignal.scaling cfg) (StopSignal.starting_radius cfg)
         (joy_reads w) p
    /\ joy_reads w' = (joy_reads w + S p + trial_frames cfg)%nat
    /\ clock_reads w' = (clock_reads w + 5 + trial_frames cfg)%nat
    /\ rng_draws w' = S (rng_draws w)
    /\ key_polls w' = key_polls w
    /\ length (presented w')
       = (length (presented w) + 2 + p + trial_frames cfg)%nat
    /\ target w' = mkCircle None white (StopSignal.target_origin cfg)
    /\ back_buffer w' = [].
Proof.
  intros H. apply trial_body_inv in H.
  destruct H as (p & angle & go & Hp & Hrel & _ & _ & _ & Hj & Hc & Hk & Hr & Ht
                 & Hb & Hl & _).
  exists p. split; [exact Hp|]. split; [exact Hrel|].
  repeat split; try assumption; try lia.
  rewrite Hc. unfold iti_tick, post_go_tick, go_tick, ready_tick, trial_frames. lia.
Qed.

Lemma trial_accounting_witness :
  match StopSignal.trial_body (bench []) bench_cfg 1
          (StopSignal.angle_list_unshuffled (bench []) bench_cfg)
          (StopSignal.go_list_unshuffled bench_cfg) 3 (StopSignal.mkVars 0.5 [])
          fresh_world with
  | Ok _ w' => joy_reads w' = 11%nat /\ clock_reads w' = 15%nat
               /\ length (presented w') = 12%nat
  | Raise _ _ => False
  end.
Proof.
  destruct (StopSignal.trial_body (bench []) bench_cfg 1
              (StopSignal.angle_list_unshuffled (bench []) bench_cfg)
              (StopSignal.go_list_unshuffled bench_cfg) 3 (StopSignal.mkVars 0.5 [])
              fresh_world) as [v' w'|e w'] eqn:E.
  - destruct (trial_accounting _ _ _ _ _ _ _ _ _ _ E)
      as (p & Hp & _ & Hj & Hc & _ & _ & Hl & _).
    assert (p = 0%nat) by lia. subst p. rewrite Hj, Hc, Hl. repeat split.
  - vm_compute in E. discriminate E.
Defined.

(** ** The gate of the stop-signal script *)

(** Within [patience] polls the joystick is either released at some poll or
    off centre at every one of them. *)
Lemma gate_cases lab sc st patience : forall r,
  (exists p, (p < patience)%nat /\ released_at lab sc st r p)
  \/ (forall j, (j < patience)%nat -> off_centre lab sc st r j = true).
Proof.
  induction patience as [|n IH]; intros r; [right; intros j Hj; lia|].
  destruct (off_centre lab sc st r 0) eqn:E0.
  - destruct (IH (S r)) as [(p & Hp & Hoff & Hin)|Hall].
    + left. exists (S p). split; [lia|]. split.
      * intros j Hj. destruct j as [|j]; [exact E0|].
        rewrite <- off_centre_shift. apply Hoff. lia.
      * rewrite <- off_centre_shift. exact Hin.
    + right. intros j Hj. destruct j as [|j]; [exact E0|].
      rewrite <- off_centre_shift. apply Hall. lia.
  - left. exists 0%nat. split; [lia|]. split; [intros j Hj; lia | exact E0].
Qed.

(** X4.  The gate before a trial of the stop-signal script ends at the
    first sampling at which the scaled joystick radius is below the start
    radius, a radius equal to it still counting as off centre.  If that is
    its [p]-th poll, it has sampled the joystick [p + 1] times and presented
    [p] frames, each holding the release prompt and nothing else; it has not
    read the clock, touched the target or written a file.  Conversely the gate
    ends only if there is such a sampling. *)
Theorem gate_exits_at_first_release (lab : Collaborators)
    (cfg : StopSignal.Settings) (patience : nat) (w : World) :
  (forall p,
      (p < patience)%nat ->
      released_at lab (StopSignal.scaling cfg) (StopSignal.starting_radius cfg)
                  (joy_reads w) p ->
      back_buffer w = [] ->
      StopSignal.centering_gate lab cfg patience w
      = Ok tt (mkWorld (joy_reads w + S p) (clock_reads w) (key_polls w)
                       (rng_draws w) (target w) (cursor_pos w) []
                       (repeat release_frame p ++ presented w) (disk w)))
  /\ (forall u w',
        StopSignal.centering_gate lab cfg patience w = Ok u w' ->
        exists p,
          (p < patience)%nat
          /\ released_at lab (StopSignal.scaling cfg)
               (StopSignal.starting_radius cfg) (joy_reads w) p)
  /\ (forall j,
        off_centre lab (StopSignal.scaling cfg) (StopSignal.starting_radius cfg)
                   (joy_reads w) j = true
        <-> (StopSignal.starting_radius cfg
             <= snd (cart2pol lab
                       (getX lab (joy_reads w + j) * StopSignal.scaling cfg)
                       (- getY lab (joy_reads w + j) * StopSignal.scaling cfg)))%Q).
Proof.
  split; [|split].
  - intros p Hp Hrel Hb. apply gate_released; assumption.
  - intros u w' H. exact (gate_Ok_released lab cfg patience w u w' H).
  - intros j. unfold off_centre, sample_radius, sample_x, sample_y.
    apply Qle_bool_iff.
Qed.

Lemma gate_exits_at_first_release_witness :
  exists w',
    StopSignal.centering_gate (bench [3; 2; 0.5]) bench_cfg 5 fresh_world
    = Ok tt w'
    /\ joy_reads w' = 3%nat
    /\ presented w' = [release_frame; release_frame].
Proof.
  destruct (gate_exits_at_first_release (bench [3; 2; 0.5]) bench_cfg 5
              fresh_world) as (Hrel & _ & _).
  eexists. split.
  - apply (Hrel 2%nat).
    + lia.
    + split; [|reflexivity].
      intros j Hj. destruct j as [|[|j]]; [reflexivity | reflexivity | lia].
    + reflexivity.
  - split; reflexivity.
Defined.



(** ** The adaptation runner: gate, trial and [run] *)

Section AdaptationGate.
Variable lab : Collaborators.
Variable setup : Adaptation.Setup.

Let sc := Adaptation.scaling (Adaptation.settings setup).
Let st := Adaptation.starting_radius (Adaptation.settings setup).

Lemma runner_gate_step n w :
  Adaptation.centering_gate lab setup (S n) w =
  if off_centre lab sc st (joy_reads w) 0
  then Adaptation.centering_gate lab setup n
         (mkWorld (S (joy_reads w)) (clock_reads w) (key_polls w) (rng_draws w)
                  (target w) (cursor_pos w) []
                  ((back_buffer w ++ release_frame) :: presented w) (disk w))
  else Ok tt (mkWorld (S (joy_reads w)) (clock_reads w) (key_polls w)
                      (rng_draws w) (target w) (cursor_pos w) (back_buffer w)
                      (presented w) (disk w)).
Proof.
  subst sc st. unfold off_centre, sample_radius, sample_x, sample_y.
  rewrite Nat.add_0_r.
  cbn [Adaptation.centering_gate]. unfold bind at 1. cbn [joy_sample fst snd].
  destruct (Qle_bool _ _); reflexivity.
Qed.

Lemma runner_gate_released patience : forall p w,
  (p < patience)%nat ->
  released_at lab sc st (joy_reads w) p ->
  back_buffer w = [] ->
  Adaptation.centering_gate lab setup patience w =
  Ok tt (mkWorld (joy_reads w + S p) (clock_reads w) (key_polls w) (rng_draws w)
                 (target w) (cursor_pos w) []
                 (repeat release_frame p ++ presented w) (disk w)).
Proof.
  induction patience as [|n IH]; intros p w Hp Hrel Hb; [lia|].
  rewrite runner_gate_step. destruct p as [|p].
  - destruct Hrel as [_ ->]. rewrite Hb, Nat.add_1_r. reflexivity.
  - pose proof Hrel as [Hoff _]. rewrite (Hoff 0%nat) by lia.
    rewrite IH with (p := p); cbn [joy_reads back_buffer]; try lia; try reflexivity.
    + tidy_world. rewrite Hb. cbn [app].
      replace (joy_reads w + S (S p))%nat with (S (joy_reads w) + S p)%nat by lia.
      replace (repeat release_frame p ++ release_frame :: presented w)
        with (repeat release_frame (S p) ++ presented w); [reflexivity|].
      change (release_frame :: presented w) with ([release_frame] ++ presented w).
      rewrite app_assoc, <- repeat_cons. reflexivity.
    + apply released_at_shift. exact Hrel.
Qed.

Lemma runner_gate_still_waiting patience : forall w,
  (forall j, (j < patience)%nat -> off_centre lab sc st (joy_reads w) j = true) ->
  exists w',
    Adaptation.centering_gate lab setup patience w = Raise StillWaiting w'
    /\ joy_reads w' = (joy_reads w + patience)%nat
    /\ length (presented w') = (length (presented w) + patience)%nat
    /\ disk w' = disk w /\ clock_reads w' = clock_reads w
    /\ key_polls w' = key_polls w.
Proof.
  induction patience as [|n IH]; intros w Hoff.
  - exists w. cbn. repeat split; lia.
  - rewrite runner_gate_step, (Hoff 0%nat) by lia.
    match goal with |- context [Adaptation.centering_gate _ _ _ ?w1] =>
      destruct (IH w1) as (w' & Hrun & Hj & Hl & Hd & Hc & Hk) end.
    + intros j Hj. cbn [joy_reads]. rewrite off_centre_shift. apply Hoff. lia.
    + exists w'. cbn in Hj, Hl, Hd, Hc, Hk. repeat split; try assumption; lia.
Qed.

Let N_fix :=
  Z.to_nat (Py.int (Adaptation.framerate_r setup
                    * Adaptation.fixation_time (Adaptation.settings setup))).

(** A trial whose gate sees the joystick released runs its fixation phase
    and stops at the unpacking of what [run_phase] returned. *)
Lemma execute_trial_released patience trial perturbation w p :
  (p < patience)%nat ->
  released_at lab sc st (joy_reads w) p ->
  exists w',
    Adaptation.execute_trial lab setup patience trial perturbation w
    = Raise ValueError w'
    /\ joy_reads w' = (joy_reads w + S p + N_fix)%nat
    /\ clock_reads w' = (clock_reads w + 1 + N_fix)%nat
    /\ key_polls w' = key_polls w
    /\ length (presented w') = (length (presented w) + 1 + p + N_fix)%nat
    /\ disk w' = disk w.
Proof.
  intros Hp Hrel. unfold Adaptation.execute_trial.
  unfold bind at 1. unfold target_draw at 1. cbn [draw].
  unfold bind at 1. cbn [win_flip].
  unfold bind at 1. rewrite (runner_gate_released patience p) by (cbn; auto).
  tidy_world.
  unfold bind at 1. cbn [set_target]. unfold bind at 1. cbn [set_target].
  tidy_world.
  unfold bind at 1. unfold Adaptation.run_phase.
  unfold bind at 1. cbn [clock_getTime]. tidy_world.
  unfold Py.arange. fold N_fix.
  match goal with
  | |- context [bind (for_each (map Z.of_nat (seq 0 N_fix)) _ ?l) _ ?w0] =>
      destruct (phase_frames_run lab setup perturbation "fixation" false l w0 N_fix)
        as (w' & Hrun & (Hj & Hc & Hk & _ & Hd & Hl) & _)
  end.
  unfold bind at 1. rewrite Hrun. cbn [ret raise]. exists w'.
  cbn [joy_reads clock_reads key_polls disk presented] in Hj, Hc, Hk, Hd, Hl.
  rewrite length_app, repeat_length in Hl. cbn [length] in Hl.
  repeat split; try assumption; try lia.
Qed.

(** A trial whose gate runs out of polls has done nothing but wait. *)
Lemma execute_trial_held patience trial perturbation w :
  (forall j, (j < patience)%nat -> off_centre lab sc st (joy_reads w) j = true) ->
  exists w',
    Adaptation.execute_trial lab setup patience trial perturbation w
    = Raise StillWaiting w'
    /\ joy_reads w' = (joy_reads w + patience)%nat
    /\ clock_reads w' = clock_reads w
    /\ key_polls w' = key_polls w
    /\ length (presented w') = (length (presented w) + 1 + patience)%nat
    /\ disk w' = disk w.
Proof.
  intros Hoff. unfold Adaptation.execute_trial.
  unfold bind at 1. unfold target_draw at 1. cbn [draw].
  unfold bind at 1. cbn [win_flip]. unfold bind at 1.
  match goal with |- context [Adaptation.centering_gate _ _ _ ?w1] =>
    destruct (runner_gate_still_waiting patience w1)
      as (w' & Hrun & Hj & Hl & Hd & Hc & Hk) end.
  - intros j Hj. apply Hoff. exact Hj.
  - rewrite Hrun. exists w'. cbn in Hj, Hl, Hd, Hc, Hk.
    repeat split; try assumption; try reflexivity. lia.
Qed.

Lemma execute_trial_fails patience trial perturbation w :
  exists e w',
    Adaptation.execute_trial lab setup patience trial perturbation w = Raise e w'
    /\ (e = ValueError \/ e = StillWaiting)
    /\ key_polls w' = key_polls w
    /\ disk w' = disk w.
Proof.
  destruct (gate_cases lab sc st patience (joy_reads w)) as [(p & Hp & Hrel)|Hall].
  - destruct (execute_trial_released patience trial perturbation w p Hp Hrel)
      as (w' & Hrun & _ & _ & Hk & _ & Hd).
    exists ValueError, w'. auto.
  - destruct (execute_trial_held patience trial perturbation w Hall)
      as (w' & Hrun & _ & _ & Hk & _ & Hd).
    exists StillWaiting, w'. auto.
Qed.
End AdaptationGate.

(** X6.  A trial of the adaptation task never reaches its GO phase.  If
    the gate sees the joystick released at its [p]-th poll, the trial runs the
    frames of the fixation phase and then raises [ValueError], where the six
    values [run_phase] returns are unpacked into four names; if the joystick
    is held off centre the trial is still waiting when the polls run out.
    Either way nothing has been written to the session directory. *)
Theorem execute_trial_stops_after_fixation (lab : Collaborators)
    (setup : Adaptation.Setup) (patience : nat) (trial : Z) (perturbation : Q)
    (w : World) :
  let sc := Adaptation.scaling (Adaptation.settings setup) in
  let st := Adaptation.starting_radius (Adaptation.settings setup) in
  let N_fix :=
    Z.to_nat (Py.int (Adaptation.framerate_r setup
                      * Adaptation.fixation_time (Adaptation.settings setup))) in
  (forall p,
      (p < patience)%nat ->
      released_at lab sc st (joy_reads w) p ->
      exists w',
        Adaptation.execute_trial lab setup patience trial perturbation w
        = Raise ValueError w'
        /\ joy_reads w' = (joy_reads w + S p + N_fix)%nat
        /\ clock_reads w' = (clock_reads w + 1 + N_fix)%nat
        /\ length (presented w') = (length (presented w) + 1 + p + N_fix)%nat
        /\ disk w' = disk w)
  /\ ((forall j, (j < patience)%nat -> off_centre lab sc st (joy_reads w) j = true) ->
      exists w',
        Adaptation.execute_trial lab setup patience trial perturbation w
        = Raise StillWaiting w'
        /\ joy_reads w' = (joy_reads w + patience)%nat
        /\ clock_reads w' = clock_reads w
        /\ disk w' = disk w)
  /\ (exists e w',
        Adaptation.execute_trial lab setup patience trial perturbation w
        = Raise e w'
        /\ (e = ValueError \/ e = StillWaiting)
        /\ disk w' = disk w).
Proof.
  intros sc st N_fix. split; [|split].
  - intros p Hp Hrel.
    destruct (execute_trial_released lab setup patience trial perturbation w p
                Hp Hrel) as (w' & Hrun & Hj & Hc & _ & Hl & Hd).
    exists w'. auto.
  - intros Hoff.
    destruct (execute_trial_held lab setup patience trial perturbation w Hoff)
      as (w' & Hrun & Hj & Hc & _ & _ & Hd).
    exists w'. auto.
  - destruct (execute_trial_fails lab setup patience trial perturbation w)
      as (e & w' & Hrun & He & _ & Hd).
    exists e, w'. auto.
Qed.

Lemma execute_trial_stops_after_fixation_witness :
  exists w',
    Adaptation.execute_trial (bench []) (bench_setup 60) 1 0 0 fresh_world
    = Raise ValueError w'
    /\ joy_reads w' = 46%nat
    /\ disk w' = [].
Proof.
  destruct (execute_trial_stops_after_fixation (bench []) (bench_setup 60) 1 0 0
              fresh_world) as (Hrel & _ & _).
  destruct (Hrel 0%nat) as (w' & Hrun & Hj & _ & _ & Hd).
  - lia.
  - split; [intros j Hj; lia | reflexivity].
  - exists w'. split; [exact Hrun|]. split; [exact Hj | exact Hd].
Defined.

(** X7.  [run] of the adaptation task ends normally only if it is asked
    for no trial or q is down at the first quit check; it has then sampled no
    joystick.  Otherwise the first trial ends it with an exception, after one
    quit check: no later trial is started, so no perturbed trial is ever
    run, and nothing is written to the session directory. *)
Theorem run_stops_at_first_trial (lab : Collaborators) (setup : Adaptation.Setup)
    (patience : nat) (w : World) :
  let n := Adaptation.n_trial (Adaptation.settings setup) in
  ((n <= 0)%Z \/ getKeys lab (key_polls w) = true ->
   exists w',
     Adaptation.run lab setup patience w = Ok tt w'
     /\ joy_reads w' = joy_reads w
     /\ clock_reads w' = S (clock_reads w)
     /\ length (presented w') = (length (presented w) + 2)%nat
     /\ disk w' = disk w)
  /\ ((0 < n)%Z -> getKeys lab (key_polls w) = false ->
      exists e w',
        Adaptation.run lab setup patience w = Raise e w'
        /\ (e = ValueError \/ e = StillWaiting)
        /\ key_polls w' = S (key_polls w)
        /\ disk w' = disk w).
Proof.
  intros n.
  assert (Hpre : forall r,
    Adaptation.run lab setup patience w = r <->
    Adaptation.run_loop lab setup patience (map Z.of_nat (seq 0 (Z.to_nat n)))
      (mkWorld (joy_reads w) (S (clock_reads w)) (key_polls w) (rng_draws w)
               (target w) (cursor_pos w) []
               ([drawn_blank]
                :: (back_buffer w ++ [drawn_text "Press space bar to start"])
                :: presented w) (disk w)) = r) by (intros r; reflexivity).
  split.
  - intros Hend. setoid_rewrite Hpre. destruct (Z.to_nat n) as [|m] eqn:En.
    + cbn [seq map Adaptation.run_loop ret]. eexists. split; [reflexivity|].
      cbn. repeat split; lia.
    + destruct Hend as [Hn|Hq]; [lia|].
      cbn [seq map Adaptation.run_loop]. unfold bind at 1. cbn [event_getKeys].
      tidy_world. rewrite Hq. cbn [ret]. eexists. split; [reflexivity|].
      cbn. repeat split; lia.
  - intros Hn Hq. setoid_rewrite Hpre. destruct (Z.to_nat n) as [|m] eqn:En; [lia|].
    cbn [seq map Adaptation.run_loop]. unfold bind at 1. cbn [event_getKeys].
    tidy_world. rewrite Hq.
    match goal with
    | |- context [bind (Adaptation.execute_trial _ _ _ ?t ?pt) _ ?w1] =>
        destruct (execute_trial_fails lab setup patience t pt w1)
          as (e & w' & Hrun & He & Hk & Hd)
    end.
    unfold bind at 1. rewrite Hrun. exists e, w'. cbn in Hk, Hd. auto.
Qed.

Lemma run_stops_at_first_trial_witness :
  exists w',
    Adaptation.run (bench []) (bench_setup 60) 1 fresh_world = Raise ValueError w'
    /\ key_polls w' = 1%nat
    /\ disk w' = [].
Proof.
  destruct (run_stops_at_first_trial (bench []) (bench_setup 60) 1 fresh_world)
    as [_ Hcrash].
  destruct Hcrash as (e & w' & Hrun & _ & Hk & Hd); [reflexivity | reflexivity |].
  exists w'. split; [|split; [exact Hk | exact Hd]].
  rewrite Hrun. f_equal.
  assert (Hv : exists w0, Adaptation.run (bench []) (bench_setup 60) 1 fresh_world
                          = Raise ValueError w0)
    by (vm_compute; eexists; reflexivity).
  destruct Hv as [w0 Hv]. rewrite Hv in Hrun. now inversion Hrun.
Defined.

(** ** What a completed session did *)

Section SessionLog.
Variable lab : Collaborators.
Variable cfg : StopSignal.Settings.
Variable patience : nat.
Variable angle_list : list Q.
Variable go_list : list Z.

Lemma trial_loop_inv : forall n a v w v' w',
  StopSignal.trial_loop lab cfg patience angle_list go_list
    (map Z.of_nat (seq a n)) v w = Ok v' w' ->
  exists rows traces,
    StopSignal.data_dict v' = StopSignal.data_dict v ++ rows
    /\ length traces = length rows
    /\ (length rows <= n)%nat
    /\ map col_trial rows = map Z.of_nat (seq a (length rows))
    /\ (forall j, (j < length rows)%nat -> getKeys lab (key_polls w + j) = false)
    /\ ((length rows < n)%nat -> getKeys lab (key_polls w + length rows) = true)
    /\ key_polls w' = (key_polls w + Nat.min (S (length rows)) n)%nat
    /\ Forall (row_follows cfg angle_list go_list) rows
    /\ Forall (fun joy => length (xs joy) = trial_frames cfg
                          /\ length (ys joy) = trial_frames cfg
                          /\ length (ts joy) = trial_frames cfg) traces
    /\ rev (disk w')
       = rev (disk w) ++ trial_writes (StopSignal.data_dict v) (combine rows traces).
Proof.
  induction n as [|n IH]; intros a v w v' w' H.
  - cbn in H. inversion H; subst. exists [], []. rewrite !app_nil_r. cbn.
    repeat split; auto; try lia.
  - cbn [seq map StopSignal.trial_loop] in H.
    unfold bind at 1 in H. cbn [event_getKeys] in H.
    destruct (getKeys lab (key_polls w)) eqn:Eq.
    + inversion H; subst. exists [], []. rewrite !app_nil_r. cbn [length].
      cbn [key_polls disk combine trial_writes map seq].
      rewrite ?app_nil_r, ?Nat.add_0_r.
      repeat split; auto; try lia.
    + apply bind_Ok in H. destruct H as (v1 & w1 & Hbody & H).
      apply trial_body_inv in Hbody.
      destruct Hbody as (p & angle & go & _ & _ & Hang & Hgo & Hv1 & _ & _ & Hk1
                         & _ & _ & _ & _ & Hd1 & _).
      cbn [joy_reads clock_reads key_polls rng_draws disk] in Hv1, Hk1, Hd1.
      apply IH in H.
      destruct H as (rows & traces & Hdd & Hlen & Hle & Htr & Hno & Hq & Hk
                     & Hrows & Htraces & Hdisk).
      rewrite Hv1 in Hdd, Hdisk. cbn [StopSignal.data_dict] in Hdd, Hdisk.
      match type of Hdd with
      | _ = (_ ++ [?row0]) ++ _ =>
          exists (row0 :: rows),
            (trace_from lab cfg (joy_reads w + S p) (clock_reads w) :: traces)
      end.
      cbn [length combine trial_writes map seq].
      split; [rewrite Hdd, <- app_assoc; reflexivity|].
      split; [lia|]. split; [lia|].
      split; [rewrite Htr; reflexivity|].
      split.
      { intros j Hj. destruct j as [|j].
        - rewrite Nat.add_0_r. exact Eq.
        - replace (key_polls w + S j)%nat with (key_polls w1 + j)%nat by lia.
          apply Hno. lia. }
      split.
      { intros Hlt. replace (key_polls w + S (length rows))%nat
          with (key_polls w1 + length rows)%nat by lia.
        apply Hq. lia. }
      split; [rewrite Hk, Hk1; lia|].
      split.
      { constructor; [|exact Hrows]. unfold row_follows.
        cbn [row_from col_ID col_trial col_target_angle col_GO_Stop]. auto. }
      split.
      { constructor; [|exact Htraces]. apply length_trace_from. }
      rewrite Hdisk, Hd1. cbn [rev row_from col_trial].
      rewrite <- !app_assoc. reflexivity.
Qed.

Lemma session_inv w v w' :
  StopSignal.session lab cfg patience angle_list go_list w = Ok v w' ->
  exists traces,
    let rows := StopSignal.data_dict v in
    let n := Z.to_nat (StopSignal.Ntrial cfg) in
    length traces = length rows
    /\ (length rows <= n)%nat
    /\ map col_trial rows = map Z.of_nat (seq 0 (length rows))
    /\ (forall j, (j < length rows)%nat -> getKeys lab (key_polls w + j) = false)
    /\ ((length rows < n)%nat -> getKeys lab (key_polls w + length rows) = true)
    /\ key_polls w' = (key_polls w + Nat.min (S (length rows)) n)%nat
    /\ Forall (row_follows cfg angle_list go_list) rows
    /\ Forall (fun joy => length (xs joy) = trial_frames cfg
                          /\ length (ys joy) = trial_frames cfg
                          /\ length (ts joy) = trial_frames cfg) traces
    /\ rev (disk w') = rev (disk w) ++ trial_writes [] (combine rows traces).
Proof.
  intros H. unfold StopSignal.session in H.
  unfold bind at 1 in H. unfold text_draw at 1 in H. cbn [draw] in H.
  unfold bind at 1 in H. cbn [win_flip] in H.
  unfold bind at 1 in H. unfold blank_draw at 1 in H. cbn [draw] in H.
  unfold bind at 1 in H. cbn [win_flip] in H.
  unfold bind at 1 in H. cbn [clock_getTime] in H. unfold Py.arange in H.
  apply trial_loop_inv in H.
  destruct H as (rows & traces & Hdd & Hrest).
  cbn [StopSignal.data_dict app key_polls disk] in Hdd, Hrest.
  exists traces. rewrite Hdd. exact Hrest.
Qed.
End SessionLog.

(** X8.  A session of the stop-signal script that runs to its end has one
    row for each trial it ran, numbered 0, 1, 2, ... in order.  It polls the
    keyboard once before each trial and nowhere else, and it stops before the
    first trial at whose poll q is down: with [k] rows, q was up at the first
    [k] polls, and either [k] is the number of trials asked for or q was down
    at the next poll. *)
Theorem session_stops_at_q (lab : Collaborators) (cfg : StopSignal.Settings)
    (patience : nat) (angle_list : list Q) (go_list : list Z)
    (w w' : World) (v : StopSignal.Vars) :
  StopSignal.session lab cfg patience angle_list go_list w = Ok v w' ->
  let k := length (StopSignal.data_dict v) in
  let n := Z.to_nat (StopSignal.Ntrial cfg) in
  map col_trial (StopSignal.data_dict v) = Py.arange (Z.of_nat k)
  /\ (k <= n)%nat
  /\ (forall j, (j < k)%nat -> getKeys lab (key_polls w + j) = false)
  /\ ((k < n)%nat -> getKeys lab (key_polls w + k) = true)
  /\ key_polls w' = (key_polls w + Nat.min (S k) n)%nat.
Proof.
  intros H k n. apply session_inv in H.
  destruct H as (traces & _ & Hle & Htr & Hno & Hq & Hk & _).
  unfold Py.arange. rewrite Nat2Z.id. repeat split; assumption.
Qed.

Lemma session_stops_at_q_witness :
  match StopSignal.session (bench []) bench_cfg 1
          (StopSignal.angle_list_unshuffled (bench []) bench_cfg)
          (StopSignal.go_list_unshuffled bench_cfg) fresh_world with
  | Ok v w' => map col_trial (StopSignal.data_dict v) = [0; 1; 2; 3; 4]%Z
               /\ key_polls w' = 5%nat
  | Raise _ _ => False
  end.
Proof.
  destruct (StopSignal.session (bench []) bench_cfg 1
              (StopSignal.angle_list_unshuffled (bench []) bench_cfg)
              (StopSignal.go_list_unshuffled bench_cfg) fresh_world)
    as [v w'|e w'] eqn:E.
  - destruct (session_stops_at_q _ _ _ _ _ _ _ _ E) as (Htr & Hle & _ & Hq & Hk).
    assert (Hlen : length (StopSignal.data_dict v) = 5%nat).
    { cbn in Hle, Hq.
      destruct (Nat.eq_dec (length (StopSignal.data_dict v)) 5) as [e|ne];
        [exact e|]. assert (Hf : false = true) by (apply Hq; lia). discriminate Hf. }
    rewrite Htr, Hk, Hlen. split; reflexivity.
  - vm_compute in E. discriminate E.
Defined.

(** X9.  Every row of a completed session holds the subject ID of the
    settings and, for its trial number, the entry of the shuffled angle list
    and of the shuffled GO/Stop list at that index; in particular both
    lists had an entry there. *)
Theorem session_rows_follow_the_lists (lab : Collaborators)
    (cfg : StopSignal.Settings) (patience : nat) (angle_list : list Q)
    (go_list : list Z) (w w' : World) (v : StopSignal.Vars) :
  StopSignal.session lab cfg patience angle_list go_list w = Ok v w' ->
  forall i row,
    nth_error (StopSignal.data_dict v) i = Some row ->
    col_trial row = Z.of_nat i
    /\ col_ID row = StopSignal.subj_ID cfg
    /\ nth_error angle_list i = Some (col_target_angle row)
    /\ nth_error go_list i = Some (col_GO_Stop row).
Proof.
  intros H i row Hrow. apply session_inv in H.
  destruct H as (traces & _ & _ & Htr & _ & _ & _ & Hrows & _).
  assert (Hi : (i < length (StopSignal.data_dict v))%nat)
    by (apply nth_error_Some; congruence).
  assert (Ht : col_trial row = Z.of_nat i).
  { pose proof (map_nth_error col_trial _ _ Hrow) as Hm. rewrite Htr in Hm.
    rewrite nth_error_map, nth_error_seq in Hm.
    destruct (Nat.ltb_spec i (length (StopSignal.data_dict v))) as [_|Hge]; [|lia].
    cbn in Hm. congruence. }
  rewrite Forall_forall in Hrows.
  destruct (Hrows row (nth_error_In _ _ Hrow)) as (Hid & Hang & Hgo).
  rewrite Ht, getitem_nonneg, Nat2Z.id in Hang by lia.
  rewrite Ht, getitem_nonneg, Nat2Z.id in Hgo by lia.
  auto.
Qed.

Lemma session_rows_follow_the_lists_witness :
  match StopSignal.session (bench []) bench_cfg 1
          (StopSignal.angle_list_unshuffled (bench []) bench_cfg)
          (StopSignal.go_list_unshuffled bench_cfg) fresh_world with
  | Ok v _ => forall row, nth_error (StopSignal.data_dict v) 4 = Some row ->
                          col_GO_Stop row = 0%Z /\ col_ID row = "0001"%string
  | Raise _ _ => False
  end.
Proof.
  destruct (StopSignal.session (bench []) bench_cfg 1
              (StopSignal.angle_list_unshuffled (bench []) bench_cfg)
              (StopSignal.go_list_unshuffled bench_cfg) fresh_world)
    as [v w'|e w'] eqn:E.
  - intros row Hrow.
    destruct (session_rows_follow_the_lists _ _ _ _ _ _ _ _ E 4%nat row Hrow)
      as (_ & Hid & _ & Hgo).
    split; [|exact Hid].
    assert (Hc : nth_error (StopSignal.go_list_unshuffled bench_cfg) 4 = Some 0%Z)
      by reflexivity.
    rewrite Hc in Hgo. injection Hgo as Hgo. symmetry. exact Hgo.
  - vm_compute in E. discriminate E.
Defined.

(** X10.  The files a completed session has written are, in order and for
    each trial in turn, the whole data frame up to and including that
    trial's row and then the trial's trace, saved under the trial's number:
    two writes a trial and none besides.  Every trace has three rows of as
    many samples as the four phases have frames. *)
Theorem session_disk_log (lab : Collaborators) (cfg : StopSignal.Settings)
    (patience : nat) (angle_list : list Q) (go_list : list Z)
    (w w' : World) (v : StopSignal.Vars) :
  StopSignal.session lab cfg patience angle_list go_list w = Ok v w' ->
  exists traces,
    length traces = length (StopSignal.data_dict v)
    /\ rev (disk w')
       = rev (disk w) ++ trial_writes [] (combine (StopSignal.data_dict v) traces)
    /\ length (disk w')
       = (length (disk w) + 2 * length (StopSignal.data_dict v))%nat
    /\ (forall joy, In joy traces ->
          length (xs joy) = trial_frames cfg
          /\ length (ys joy) = trial_frames cfg
          /\ length (ts joy) = trial_frames cfg).
Proof.
  intros H. apply session_inv in H.
  destruct H as (traces & Hlen & _ & _ & _ & _ & _ & _ & Htraces & Hdisk).
  exists traces. split; [exact Hlen|]. split; [exact Hdisk|]. split.
  - rewrite <- (length_rev (disk w')), Hdisk, length_app, length_rev.
    f_equal. clear Hdisk Htraces. revert Hlen.
    generalize (@nil Row). generalize (StopSignal.data_dict v) as rows.
    revert traces. induction traces as [|joy traces IH]; intros rows done Hlen.
    + destruct rows; [reflexivity | discriminate Hlen].
    + destruct rows as [|row rows]; [discriminate Hlen|].
      cbn [combine trial_writes length]. rewrite IH by (cbn in Hlen; lia). lia.
  - apply Forall_forall. exact Htraces.
Qed.

Lemma session_disk_log_witness :
  match StopSignal.session (bench []) bench_cfg 1
          (StopSignal.angle_list_unshuffled (bench []) bench_cfg)
          (StopSignal.go_list_unshuffled bench_cfg) fresh_world with
  | Ok v w' => length (StopSignal.data_dict v) = 5%nat -> length (disk w') = 10%nat
  | Raise _ _ => False
  end.
Proof.
  destruct (StopSignal.session (bench []) bench_cfg 1
              (StopSignal.angle_list_unshuffled (bench []) bench_cfg)
              (StopSignal.go_list_unshuffled bench_cfg) fresh_world)
    as [v w'|e w'] eqn:E.
  - intros Hlen.
    destruct (session_disk_log _ _ _ _ _ _ _ _ E) as (traces & _ & _ & Hl & _).
    rewrite Hl, Hlen. reflexivity.
  - vm_compute in E. discriminate E.
Defined.

(** ** A session with the joystick at rest *)

Lemma sample_radius_from lab sc r j :
  sample_radius lab sc r j = sample_radius lab sc 0 (r + j).
Proof. reflexivity. Qed.

Lemma at_rest_released lab sc st r :
  at_rest lab sc st -> released_at lab sc st r 0.
Proof.
  intros Hrest. split; [intros j Hj; lia|].
  unfold off_centre. rewrite sample_radius_from. apply Hrest.
Qed.

Lemma at_rest_not_moved lab sc st hd r zone n :
  at_rest lab sc st ->
  zone = in_transit \/ zone = arrived ->
  moved lab sc st hd r zone n = false.
Proof.
  intros Hrest Hzone. destruct (moved lab sc st hd r zone n) eqn:E; [|reflexivity].
  apply moved_true in E. destruct E as (j & _ & Hz).
  assert (Hst : (st <= sample_radius lab sc r j)%Q).
  { destruct Hzone; subst zone.
    - apply in_transit_iff in Hz. tauto.
    - apply arrived_iff in Hz. tauto. }
  apply Qle_bool_iff in Hst. rewrite sample_radius_from in Hst.
  pose proof (Hrest (r + j)%nat) as Hoff. unfold off_centre in Hoff. congruence.
Qed.

Lemma skipn_nth_error {A} (l : list A) : forall a x,
  nth_error l a = Some x -> skipn a l = x :: skipn (S a) l.
Proof.
  induction l as [|y l IH]; intros [|a] x H; try discriminate H.
  - now inversion H.
  - cbn in H. apply IH in H. exact H.
Qed.

Section AtRest.
Variable lab : Collaborators.
Variable cfg : StopSignal.Settings.
Variable patience : nat.
Variable angle_list : list Q.
Variable go_list : list Z.
Hypothesis Hrest :
  at_rest lab (StopSignal.scaling cfg) (StopSignal.starting_radius cfg).
Hypothesis Hpatience : (0 < patience)%nat.

Lemma trial_loop_at_rest : forall n a v w,
  (a + n <= length angle_list)%nat ->
  (a + n <= length go_list)%nat ->
  (forall j, (j < n)%nat -> getKeys lab (key_polls w + j) = false) ->
  exists v' w' rows,
    StopSignal.trial_loop lab cfg patience angle_list go_list
      (map Z.of_nat (seq a n)) v w = Ok v' w'
    /\ StopSignal.data_dict v' = StopSignal.data_dict v ++ rows
    /\ length rows = n
    /\ Forall (fun row => col_start_mov row = 0%Z /\ col_full_mov row = 0%Z) rows
    /\ map col_GO_Stop rows = firstn n (skipn a go_list)
    /\ joy_reads w' = (joy_reads w + n * (1 + trial_frames cfg))%nat
    /\ clock_reads w' = (clock_reads w + n * (5 + trial_frames cfg))%nat
    /\ rng_draws w' = (rng_draws w + n)%nat
    /\ length (presented w')
       = (length (presented w) + n * (2 + trial_frames cfg))%nat.
Proof.
  induction n as [|n IH]; intros a v w Ha Hg Hkeys.
  - exists v, w, []. cbn. rewrite app_nil_r. repeat split; auto; lia.
  - cbn [seq map StopSignal.trial_loop].
    unfold bind at 1. cbn [event_getKeys].
    pose proof (Hkeys 0%nat ltac:(lia)) as Hk0. rewrite Nat.add_0_r in Hk0.
    rewrite Hk0.
    destruct (nth_error angle_list a) as [angle|] eqn:Eangle;
      [|apply nth_error_None in Eangle; lia].
    destruct (nth_error go_list a) as [go|] eqn:Ego;
      [|apply nth_error_None in Ego; lia].
    assert (Hangle : Py.getitem angle_list (Z.of_nat a) = Some angle)
      by (rewrite getitem_nonneg, Nat2Z.id by lia; exact Eangle).
    assert (Hgo : Py.getitem go_list (Z.of_nat a) = Some go)
      by (rewrite getitem_nonneg, Nat2Z.id by lia; exact Ego).
    match goal with
    | |- context [bind (StopSignal.trial_body _ _ _ _ _ _ _) _ ?w0] =>
        destruct (trial_body_eq lab cfg patience angle_list go_list (Z.of_nat a)
                    angle go Hangle Hgo v w0 0 Hpatience
                    (at_rest_released _ _ _ _ Hrest))
          as (w1 & Hrun & Hj1 & Hc1 & Hk1 & Hr1 & _ & _ & Hl1 & _)
    end.
    cbn [joy_reads clock_reads key_polls rng_draws presented]
      in Hrun, Hj1, Hc1, Hk1, Hr1, Hl1.
    unfold bind at 1. rewrite Hrun.
    match goal with
    | |- context [StopSignal.trial_loop _ _ _ _ _ _ ?v1 w1] =>
        destruct (IH (S a) v1 w1) as (v' & w' & rows & Hloop & Hdd & Hlen & Hflags
                                      & Hlab & Hj & Hc & Hr & Hl)
    end; try lia.
    { intros j Hj. rewrite Hk1.
      replace (S (key_polls w) + j)%nat with (key_polls w + S j)%nat by lia.
      apply Hkeys. lia. }
    rewrite Hloop. cbn [StopSignal.data_dict] in Hdd.
    match type of Hdd with
    | _ = (_ ++ [?row0]) ++ _ => exists v', w', (row0 :: rows)
    end.
    split; [reflexivity|].
    split; [rewrite Hdd, <- app_assoc; reflexivity|].
    split; [cbn [length]; lia|].
    split.
    { constructor; [|exact Hflags].
      cbn [row_from col_start_mov col_full_mov].
      rewrite !at_rest_not_moved by auto. split; reflexivity. }
    split.
    { cbn [map row_from col_GO_Stop]. rewrite Hlab.
      rewrite (skipn_nth_error go_list a go Ego). reflexivity. }
    unfold iti_tick, post_go_tick, go_tick, ready_tick, trial_frames in *.
    repeat split; lia.
Qed.
End AtRest.

(** With no movement completed, every stop trial raises the delay. *)
Lemma staircase_run_raises cfg (labels : list Z) : forall s0,
  staircase_run cfg (map (fun go => (go, 0%Z)) labels) s0
  = Nat.iter (length (filter (fun go => negb (Py.truthy go)) labels))
             (fun s => Py.float (s + StopSignal.ssd_step cfg)) s0.
Proof.
  unfold staircase_run.
  induction labels as [|go labels IH]; intros s0; cbn [map filter fold_left fst snd].
  - reflexivity.
  - unfold StopSignal.staircase at 2. change (Py.truthy 0) with false.
    destruct (negb (Py.truthy go)); cbn [length].
    + rewrite IH, Nat.iter_succ_r. reflexivity.
    + apply IH.
Qed.

Lemma outcomes_at_rest (rows : list Row) :
  Forall (fun row => col_start_mov row = 0%Z /\ col_full_mov row = 0%Z) rows ->
  map outcome_of rows = map (fun go => (go, 0%Z)) (map col_GO_Stop rows).
Proof.
  induction 1 as [|row rows [_ Hfull] _ IH]; [reflexivity|].
  cbn [map]. unfold outcome_of at 1. rewrite Hfull, IH. reflexivity.
Qed.

(** X11.  With the joystick at rest inside the start radius, q never down
    and both lists as long as the number of trials, the session of the
    stop-signal script runs every trial to its end.  Each gate passes at its
    first poll, so every trial samples the joystick once more than it has
    frames; no row has a movement flag set; every stop trial therefore counts
    as a successful stop, and the stop-signal delay the session ends with is
    the initial one raised by the step, and rounded to a double, once for
    each stop trial of the list.  Two files are written for each trial. *)
Theorem session_at_rest (lab : Collaborators) (cfg : StopSignal.Settings)
    (patience : nat) (angle_list : list Q) (go_list : list Z) (w : World) :
  let n := Z.to_nat (StopSignal.Ntrial cfg) in
  at_rest lab (StopSignal.scaling cfg) (StopSignal.starting_radius cfg) ->
  (0 < patience)%nat ->
  (n <= length angle_list)%nat ->
  (n <= length go_list)%nat ->
  (forall j, (j < n)%nat -> getKeys lab (key_polls w + j) = false) ->
  exists v w',
    StopSignal.session lab cfg patience angle_list go_list w = Ok v w'
    /\ length (StopSignal.data_dict v) = n
    /\ (forall row, In row (StopSignal.data_dict v) ->
          col_start_mov row = 0%Z /\ col_full_mov row = 0%Z)
    /\ StopSignal.ssd v
       = Nat.iter (Z.to_nat (stop_trials_among go_list n))
                  (fun s => Py.float (s + StopSignal.ssd_step cfg))
                  (StopSignal.ssd_start cfg)
    /\ joy_reads w' = (joy_reads w + n * (1 + trial_frames cfg))%nat
    /\ clock_reads w' = (clock_reads w + 1 + n * (5 + trial_frames cfg))%nat
    /\ length (presented w')
       = (length (presented w) + 2 + n * (2 + trial_frames cfg))%nat
    /\ length (disk w') = (length (disk w) + 2 * n)%nat.
Proof.
  intros n Hrest Hpatience Ha Hg Hkeys.
  assert (Hpre : forall r,
    StopSignal.session lab cfg patience angle_list go_list w = r <->
    StopSignal.trial_loop lab cfg patience angle_list go_list
      (map Z.of_nat (seq 0 n)) (StopSignal.mkVars (StopSignal.ssd_start cfg) [])
      (mkWorld (joy_reads w) (S (clock_reads w)) (key_polls w) (rng_draws w)
               (target w) (cursor_pos w) []
               ([drawn_blank]
                :: (back_buffer w ++ [drawn_text "Press space bar to start"])
                :: presented w) (disk w)) = r) by (intros r; reflexivity).
  match type of Hpre with
  | forall r, _ <-> StopSignal.trial_loop _ _ _ _ _ _ ?v0 ?w0 = r =>
      destruct (trial_loop_at_rest lab cfg patience angle_list go_list Hrest
                  Hpatience n 0 v0 w0)
        as (v & w' & rows & Hloop & Hdd & Hlen & Hflags & Hlab & Hj & Hc & _ & Hl)
  end; try (cbn [key_polls]; assumption).
  apply Hpre in Hloop. cbn [StopSignal.data_dict app] in Hdd.
  cbn [joy_reads clock_reads presented length] in Hj, Hc, Hl.
  exists v, w'. split; [exact Hloop|].
  split; [rewrite Hdd; exact Hlen|].
  split; [rewrite Hdd; apply Forall_forall; exact Hflags|].
  split.
  { destruct (session_Ok lab cfg patience angle_list go_list w v w' Hloop)
      as [_ Hssd].
    rewrite Hssd, Hdd, (outcomes_at_rest rows Hflags), staircase_run_raises, Hlab.
    cbn [skipn]. unfold stop_trials_among. rewrite Nat2Z.id. reflexivity. }
  split; [exact Hj|]. split; [lia|]. split; [lia|].
  destruct (session_inv lab cfg patience angle_list go_list w v w' Hloop)
    as (traces & Htl & _ & _ & _ & _ & _ & _ & _ & Hdisk).
  cbv zeta in Htl, Hdisk.
  rewrite <- (length_rev (disk w')), Hdisk, length_app, length_rev.
  f_equal. rewrite Hdd in Htl |- *. rewrite <- Hlen. clear - Htl.
  revert Htl. generalize (@nil Row). revert traces.
  induction rows as [|row rows IH]; intros traces done Htl.
  - destruct traces; [reflexivity | discriminate Htl].
  - destruct traces as [|joy traces]; [discriminate Htl|].
    cbn [combine trial_writes length]. rewrite IH by (cbn in Htl; lia). lia.
Qed.

Lemma bench_at_rest : at_rest (bench []) 1 1.
Proof.
  intros k. unfold off_centre, sample_radius, sample_x, sample_y.
  cbn [bench getX getY cart2pol snd]. destruct k; reflexivity.
Qed.

Lemma session_at_rest_witness :
  exists v w',
    StopSignal.session (bench []) bench_cfg 1
      (StopSignal.angle_list_unshuffled (bench []) bench_cfg)
      (StopSignal.go_list_unshuffled bench_cfg) fresh_world = Ok v w'
    /\ length (StopSignal.data_dict v) = 5%nat
    /\ StopSignal.ssd v = (1351079888211149 # 2251799813685248)%Q
    /\ (0.6 < StopSignal.ssd v)%Q
    /\ joy_reads w' = 55%nat.
Proof.
  destruct (session_at_rest (bench []) bench_cfg 1
              (StopSignal.angle_list_unshuffled (bench []) bench_cfg)
              (StopSignal.go_list_unshuffled bench_cfg) fresh_world)
    as (v & w' & Hrun & Hlen & _ & Hssd & Hj & _).
  - exact bench_at_rest.
  - lia.
  - vm_compute. lia.
  - vm_compute. lia.
  - intros j _. reflexivity.
  - exists v, w'. split; [exact Hrun|]. split; [exact Hlen|].
    assert (Hval : StopSignal.ssd v = (1351079888211149 # 2251799813685248)%Q)
      by (rewrite Hssd; vm_compute; reflexivity).
    split; [exact Hval|]. split.
    + rewrite Hval. reflexivity.
    + rewrite Hj. reflexivity.
Defined.

(** ** The two lists a session is drawn from *)

Lemma filter_length_perm {A} (f : A -> bool) (l l' : list A) :
  Permutation l l' -> length (filter f l) = length (filter f l').
Proof.
  induction 1 as [|x l l' _ IH|x y l|l l' l'' _ IH1 _ IH2]; cbn [filter].
  - reflexivity.
  - destruct (f x); cbn [length]; congruence.
  - destruct (f x), (f y); reflexivity.
  - congruence.
Qed.

Lemma filter_list_mul {A} (f : A -> bool) (l : list A) (k : Z) :
  length (filter f (Py.list_mul l k)) = (Z.to_nat k * length (filter f l))%nat.
Proof.
  unfold Py.list_mul. induction (Z.to_nat k) as [|m IH]; cbn [repeat concat].
  - reflexivity.
  - rewrite filter_app, length_app, IH. lia.
Qed.

Lemma In_list_mul {A} (l : list A) (k : Z) (a : A) :
  In a (Py.list_mul l k) -> In a l.
Proof.
  unfold Py.list_mul. induction (Z.to_nat k) as [|m IH]; cbn [repeat concat].
  - intros [].
  - rewrite in_app_iff. tauto.
Qed.

(** X12.  The GO/Stop list, in whatever order the shuffle leaves it, holds
    nothing but the labels 1 and 0: [Ntrial - stop_trial] times 1 and
    [stop_trial] times 0, a negative count giving none.  With
    [0 <= stop_trial <= Ntrial] it has one label for each trial, so the
    label of every trial is found; with more stop trials than trials it has
    only stop labels, and more of them than there are trials. *)
Theorem go_list_counts (cfg : StopSignal.Settings) (go_list : list Z) :
  Permutation (StopSignal.go_list_unshuffled cfg) go_list ->
  let N := StopSignal.Ntrial cfg in
  let s := StopSignal.stop_trial cfg in
  length (filter (fun go => (go =? 1)%Z) go_list) = Z.to_nat (N - s)
  /\ length (filter (fun go => (go =? 0)%Z) go_list) = Z.to_nat s
  /\ length go_list = (Z.to_nat (N - s) + Z.to_nat s)%nat
  /\ stop_trials_among go_list (length go_list) = Z.max 0 s
  /\ ((0 <= s <= N)%Z ->
      length go_list = Z.to_nat N
      /\ forall trial, In trial (Py.arange N) ->
           exists go, Py.getitem go_list trial = Some go /\ (go = 0 \/ go = 1)%Z)
  /\ ((0 <= N < s)%Z ->
      (Z.to_nat N < length go_list)%nat
      /\ forall go, In go go_list -> go = 0%Z).
Proof.
  intros Hperm N s.
  assert (Hones : length (filter (fun go => (go =? 1)%Z) go_list) = Z.to_nat (N - s)).
  { rewrite <- (filter_length_perm _ _ _ Hperm). unfold StopSignal.go_list_unshuffled.
    rewrite filter_app, length_app, !filter_list_mul. cbn. fold N s. lia. }
  assert (Hzeros : length (filter (fun go => (go =? 0)%Z) go_list) = Z.to_nat s).
  { rewrite <- (filter_length_perm _ _ _ Hperm). unfold StopSignal.go_list_unshuffled.
    rewrite filter_app, length_app, !filter_list_mul. cbn. fold N s. lia. }
  assert (Hlen : length go_list = (Z.to_nat (N - s) + Z.to_nat s)%nat).
  { rewrite <- (Permutation_length Hperm). unfold StopSignal.go_list_unshuffled.
    rewrite length_app, !length_list_mul. cbn [length]. fold N s. lia. }
  assert (Hlabels : forall go, In go go_list ->
            (go = 1%Z /\ (0 < N - s)%Z) \/ (go = 0%Z /\ (0 < s)%Z)).
  { intros go Hin. apply (Permutation_in _ (Permutation_sym Hperm)) in Hin.
    unfold StopSignal.go_list_unshuffled in Hin. fold N s in Hin.
    apply in_app_iff in Hin. destruct Hin as [Hin|Hin].
    - left. split.
      + apply In_list_mul in Hin. destruct Hin as [<-|[]]. reflexivity.
      + destruct (Z.to_nat (N - s)) eqn:E; [|lia].
        unfold Py.list_mul in Hin. rewrite E in Hin. destruct Hin.
    - right. split.
      + apply In_list_mul in Hin. destruct Hin as [<-|[]]. reflexivity.
      + destruct (Z.to_nat s) eqn:E; [|lia].
        unfold Py.list_mul in Hin. rewrite E in Hin. destruct Hin. }
  split; [exact Hones|]. split; [exact Hzeros|]. split; [exact Hlen|]. split.
  { unfold stop_trials_among. rewrite firstn_all.
    rewrite (filter_ext (fun go => negb (Py.truthy go)) (fun go => (go =? 0)%Z)).
    - rewrite Hzeros. lia.
    - intros go. unfold Py.truthy. apply negb_involutive. }
  split.
  - intros Hs. assert (Hn : length go_list = Z.to_nat N) by lia.
    split; [exact Hn|]. intros trial Hin. apply In_arange in Hin.
    rewrite getitem_nonneg by lia.
    destruct (nth_error go_list (Z.to_nat trial)) as [go|] eqn:E.
    + exists go. split; [reflexivity|].
      destruct (Hlabels go (nth_error_In _ _ E)) as [[-> _]|[-> _]]; auto.
    + apply nth_error_None in E. lia.
  - intros Hs. split; [lia|]. intros go Hin.
    destruct (Hlabels go Hin) as [[_ Hpos]|[-> _]]; [lia | reflexivity].
Qed.

Lemma go_list_counts_witness :
  length (StopSignal.go_list_unshuffled bench_cfg) = 5%nat
  /\ stop_trials_among (StopSignal.go_list_unshuffled bench_cfg) 5 = 2%Z.
Proof.
  destruct (go_list_counts bench_cfg (StopSignal.go_list_unshuffled bench_cfg)
              (Permutation_refl _)) as (_ & _ & Hlen & Hstop & _).
  split; [exact Hlen|].
  replace 5%nat with (length (StopSignal.go_list_unshuffled bench_cfg))
    by reflexivity.
  exact Hstop.
Defined.

(** X13.  The list of target angles is balanced over the five directions
    [radians(target_angle * i)], [i] from 0 to 4: in whatever order the
    shuffle leaves it, it holds no other angle, and the angles that meet
    any given test are [int(n / 5)] times those of the five directions that
    meet it.  This holds for the list of the adaptation runner and for the
    one of the stop-signal script. *)
Theorem angle_list_balanced (lab : Collaborators) (setup : Adaptation.Setup)
    (cfg : StopSignal.Settings) (angles : list Q) (n : Z) (target_angle : Q) :
  (Adaptation.n_trial (Adaptation.settings setup) = n
   /\ Adaptation.target_angle (Adaptation.settings setup) = target_angle
   /\ Permutation (Adaptation.generate_angle_list lab setup) angles)
  \/ (StopSignal.Ntrial cfg = n
      /\ StopSignal.target_angle cfg = target_angle
      /\ Permutation (StopSignal.angle_list_unshuffled lab cfg) angles) ->
  let directions :=
    map (fun i => radians lab (target_angle * inject_Z i)) [0; 1; 2; 3; 4]%Z in
  (forall f : Q -> bool,
      length (filter f angles)
      = (Z.to_nat (Z.quot n 5) * length (filter f directions))%nat)
  /\ (forall angle, In angle angles -> In angle directions)
  /\ length angles = (5 * Z.to_nat (Z.quot n 5))%nat.
Proof.
  intros Hgen directions.
  assert (Hperm : Permutation (Py.list_mul directions (Z.quot n 5)) angles).
  { destruct Hgen as [(Hn & Ha & Hp)|(Hn & Ha & Hp)].
    - unfold Adaptation.generate_angle_list in Hp.
      rewrite int_fifth, Hn, Ha in Hp. exact Hp.
    - unfold StopSignal.angle_list_unshuffled in Hp.
      rewrite int_fifth, Hn, Ha in Hp. exact Hp. }
  split; [|split].
  - intros f. rewrite <- (filter_length_perm f _ _ Hperm). apply filter_list_mul.
  - intros angle Hin. apply (Permutation_in _ (Permutation_sym Hperm)) in Hin.
    apply In_list_mul in Hin. exact Hin.
  - rewrite <- (Permutation_length Hperm), length_list_mul. reflexivity.
Qed.

Lemma angle_list_balanced_witness :
  length (filter (fun a => Qle_bool a 0)
                 (Adaptation.generate_angle_list (bench []) (bench_setup 60)))
  = 2%nat.
Proof.
  destruct (angle_list_balanced (bench []) (bench_setup 60) bench_cfg
              (Adaptation.generate_angle_list (bench []) (bench_setup 60)) 10 45)
    as (Hcount & _).
  - left. split; [reflexivity|]. split; [reflexivity|]. apply Permutation_refl.
  - rewrite Hcount. reflexivity.
Defined.

(** ** What the frame loops put on the screen *)

(** X14.  In the fixation and post-GO loops of the stop-signal script every
    frame shows the target alone, as it was when the loop began; in the ready
    loop every frame shows the cursor alone, where the joystick of that frame
    puts it.  So the cursor is not shown during fixation and post-GO, and the
    target is not shown while the subject gets ready. *)
Theorem rest_loops_display (lab : Collaborators) (cfg : StopSignal.Settings)
    (duration : Q) (show_cursor : bool) (tr : Trace) (w : World) :
  back_buffer w = [] ->
  let N := Z.to_nat (Py.int (StopSignal.framerate_r cfg * duration)) in
  exists tr' w',
    for_each (Py.arange (Py.int (StopSignal.framerate_r cfg * duration)))
             (StopSignal.rest_frame lab cfg
                (if show_cursor then cursor_draw else target_draw)) tr w
    = Ok tr' w'
    /\ length (presented w') = (length (presented w) + N)%nat
    /\ target w' = target w
    /\ forall j, (j < N)%nat ->
         frame_no w w' j
         = Some [if show_cursor
                 then drawn_cursor
                        (cursor_plain lab (StopSignal.scaling cfg) (joy_reads w) j)
                 else drawn_target (target w)]
         /\ (forall frame, frame_no w w' j = Some frame ->
               shows_cursor frame = show_cursor).
Proof.
  intros Hb N. unfold Py.arange. fold N.
  destruct (rest_frames_run lab cfg show_cursor tr w N)
    as (w' & Hrun & (_ & _ & _ & _ & _ & Hl) & Ht & Hp).
  destruct (Hp Hb) as [_ Hpres].
  eexists. exists w'. split; [exact Hrun|]. split; [exact Hl|]. split; [exact Ht|].
  intros j Hj.
  pose proof (frame_no_spec _ w w' N j Hpres Hj) as Hf.
  unfold rest_screen in Hf. split; [exact Hf|].
  intros frame Hframe. rewrite Hf in Hframe. injection Hframe as <-.
  destruct show_cursor; reflexivity.
Qed.

Lemma rest_loops_display_witness :
  exists tr' w',
    for_each (Py.arange (Py.int (StopSignal.framerate_r bench_cfg * 0.5)))
             (StopSignal.rest_frame (bench [2]) bench_cfg cursor_draw)
             empty_trace fresh_world = Ok tr' w'
    /\ frame_no fresh_world w' 1 = Some [drawn_cursor (2, 0)].
Proof.
  destruct (rest_loops_display (bench [2]) bench_cfg 0.5 true empty_trace
              fresh_world eq_refl) as (tr' & w' & Hrun & _ & _ & Hframes).
  exists tr', w'. split; [exact Hrun|].
  destruct (Hframes 1%nat) as [Hf _]; [vm_compute; lia|].
  rewrite Hf. vm_compute. reflexivity.
Defined.

(** X15.  The two scripts draw a GO frame in opposite orders.  The GO loop
    of the stop-signal script draws the target first and the cursor, when it
    is shown, after it; the GO phase of the adaptation runner draws the
    cursor, when it is shown, first and the target last.  In both the cursor
    is left out exactly on the frames whose radius lies between the start
    radius and 0.9 of the hidden radius. *)
Theorem go_frame_draw_order (lab : Collaborators) :
  (forall cfg go_list trial ssd go tv w,
      Py.getitem go_list trial = Some go ->
      back_buffer w = [] ->
      let N := Z.to_nat (Py.int (StopSignal.framerate_r cfg
                                 * StopSignal.go_time cfg)) in
      exists tv' w',
        StopSignal.go_loop lab cfg go_list trial ssd tv w = Ok tv' w'
        /\ forall j, (j < N)%nat ->
             exists t rest,
               frame_no w w' j = Some (drawn_target t :: rest)
               /\ rest
                  = (if in_transit (StopSignal.starting_radius cfg)
                          (StopSignal.hidden_radius cfg)
                          (sample_radius lab (StopSignal.scaling cfg) (joy_reads w) j)
                     then []
                     else [drawn_cursor
                             (cursor_plain lab (StopSignal.scaling cfg)
                                (joy_reads w) j)]))
  /\ (forall setup duration perturbation w,
        back_buffer w = [] ->
        let N := Z.to_nat (Py.int (Adaptation.framerate_r setup * duration)) in
        let sc := Adaptation.scaling (Adaptation.settings setup) in
        exists r w',
          Adaptation.run_phase lab setup duration perturbation "go" true w
          = Ok r w'
          /\ forall j, (j < N)%nat ->
               frame_no w w' j
               = Some ((if in_transit
                             (Adaptation.starting_radius (Adaptation.settings setup))
                             (Adaptation.hidden_radius (Adaptation.settings setup))
                             (sample_radius lab sc (joy_reads w) j)
                        then []
                        else [drawn_cursor
                                (cursor_at lab sc (joy_reads w) perturbation j)])
                       ++ [drawn_target (target w)])).
Proof.
  split.
  - intros cfg go_list trial ssd go tv w Hgo Hb N.
    unfold StopSignal.go_loop, Py.arange. fold N.
    destruct (go_frames_run lab cfg go_list trial ssd go Hgo tv w N)
      as (w' & Hrun & _ & _ & Hp).
    destruct (Hp Hb) as [_ Hpres].
    eexists. exists w'. split; [exact Hrun|]. intros j Hj.
    pose proof (frame_no_spec _ w w' N j Hpres Hj) as Hf.
    unfold go_screen in Hf. eexists. eexists. split; [exact Hf | reflexivity].
  - intros setup duration perturbation w Hb N sc.
    destruct (run_phase_eq lab setup duration perturbation "go" true w)
      as (w' & Hrun & _ & _ & _ & _ & _ & Hp).
    eexists. exists w'. split; [exact Hrun|]. intros j Hj.
    pose proof (frame_no_spec _ w w' N j (Hp Hb) Hj) as Hf.
    rewrite Hf. unfold phase_screen. cbn [andb String.eqb Ascii.eqb Bool.eqb].
    destruct (in_transit _ _ _); reflexivity.
Qed.

Lemma go_frame_draw_order_witness :
  exists r w',
    Adaptation.run_phase (bench [5]) (bench_setup 60) 0.05 1 "go" true fresh_world
    = Ok r w'
    /\ frame_no fresh_world w' 0
       = Some [drawn_target (mkCircle None white (0, 0))].
Proof.
  destruct (go_frame_draw_order (bench [5])) as [_ Hrun].
  destruct (Hrun (bench_setup 60) 0.05 1 fresh_world eq_refl)
    as (r & w' & Hr & Hframes).
  exists r, w'. split; [exact Hr|].
  rewrite (Hframes 0%nat) by (vm_compute; lia). reflexivity.
Defined.

(** ** The names of the files of a session *)

Lemma string_length_app (a b : string) :
  String.length (a ++ b) = (String.length a + String.length b)%nat.
Proof. induction a as [|c a IH]; cbn; [reflexivity | now rewrite IH]. Qed.

Lemma string_app_inv_head (a b c : string) : (a ++ b = a ++ c)%string -> b = c.
Proof.
  induction a as [|x a IH]; cbn; intros H; [exact H|].
  injection H as H. apply IH. exact H.
Qed.

Lemma string_app_inv_tail (c : string) : forall a b : string,
  (a ++ c = b ++ c)%string -> a = b.
Proof.
  induction a as [|x a IH]; intros [|y b] H.
  - reflexivity.
  - apply (f_equal String.length) in H. cbn in H. rewrite string_length_app in H. lia.
  - apply (f_equal String.length) in H. cbn in H. rewrite string_length_app in H. lia.
  - cbn in H. injection H as -> H. f_equal. apply IH. exact H.
Qed.

Lemma string_app_assoc (a b c : string) :
  ((a ++ b) ++ c = a ++ (b ++ c))%string.
Proof. induction a as [|x a IH]; cbn; [reflexivity | now rewrite IH]. Qed.

Lemma substring_prefix (a b : string) :
  substring 0 (String.length a) (a ++ b) = a.
Proof. induction a as [|x a IH]; cbn; [now destruct b | now rewrite IH]. Qed.

Lemma of_uint_zeros_then k d : Z.of_uint (zeros_then k d) = Z.of_uint d.
Proof. induction k as [|k IH]; [reflexivity | exact IH]. Qed.

Lemma string_of_zeros_then k d :
  NilEmpty.string_of_uint (zeros_then k d)
  = (string_of_list_ascii (repeat "0"%char k) ++ NilEmpty.string_of_uint d)%string.
Proof. induction k as [|k IH]; cbn; [reflexivity | now rewrite IH]. Qed.

(** The digits of a number that is not negative. *)
Lemma str_digits (n : Z) :
  (0 <= n)%Z ->
  exists d, str n = NilEmpty.string_of_uint d /\ Z.of_uint d = n
            /\ d <> Decimal.Nil.
Proof.
  intros Hn. pose proof (DecimalZ.of_to n) as Hof. unfold str.
  destruct n as [|p|p]; [| |lia].
  - exists (Decimal.D0 Decimal.Nil). repeat split. discriminate.
  - cbn [Z.to_int NilZero.string_of_int] in *.
    exists (Pos.to_uint p). cbn [Z.of_int] in Hof.
    assert (Hnil : Pos.to_uint p <> Decimal.Nil).
    { intros E. rewrite E in Hof. discriminate Hof. }
    split; [|split; [exact Hof | exact Hnil]].
    unfold NilZero.string_of_uint. destruct (Pos.to_uint p); [congruence|..];
      reflexivity.
Qed.

Lemma digits_no_sign d c rest :
  NilEmpty.string_of_uint d = String c rest ->
  (Ascii.eqb c "-" || Ascii.eqb c "+")%bool = false.
Proof. destruct d; cbn; intros H; inversion H; reflexivity. Qed.

Lemma zfill_digits (n : Z) (width : nat) :
  (0 <= n)%Z ->
  exists d,
    zfill (str n) width = NilEmpty.string_of_uint d /\ Z.of_uint d = n.
Proof.
  intros Hn. destruct (str_digits n Hn) as (d & Hs & Hd & Hnil).
  exists (zeros_then (width - String.length (str n)) d).
  rewrite of_uint_zeros_then, string_of_zeros_then. split; [|exact Hd].
  unfold zfill. rewrite Hs.
  destruct (NilEmpty.string_of_uint d) as [|c rest] eqn:E.
  - destruct d; [congruence | discriminate E ..].
  - rewrite (digits_no_sign d c rest E). reflexivity.
Qed.

Lemma int_of_zfill (n : Z) (width : nat) :
  (0 <= n)%Z -> int_of_digits (zfill (str n) width) = Some n.
Proof.
  intros Hn. destruct (zfill_digits n width Hn) as (d & Hs & Hd).
  unfold int_of_digits. rewrite Hs, NilEmpty.usu. cbn. now rewrite Hd.
Qed.

Lemma length_zfill (s : string) (width : nat) :
  String.length (zfill s width) = Nat.max (String.length s) width.
Proof.
  assert (Hz : forall k, String.length (string_of_list_ascii (repeat "0"%char k)) = k)
    by (induction k as [|k IH]; cbn; [reflexivity | now rewrite IH]).
  unfold zfill. destruct s as [|c rest].
  - rewrite Hz. cbn. lia.
  - destruct (Ascii.eqb c "-" || Ascii.eqb c "+")%bool; cbn [String.length];
      rewrite string_length_app, Hz; cbn [String.length]; lia.
Qed.

(** X16.  The zero-padded field of a file name reads back as the number it
    was made from: for a trial number or subject number that is not negative,
    [int(str(n).zfill(width))] is [n], whatever the width.  The field is as
    long as the longer of the width and the plain decimal, so padding never
    cuts a digit, and a number below 10000 gives exactly four characters. *)
Theorem zfill_reads_back (n : Z) (width : nat) :
  (0 <= n)%Z ->
  int_of_digits (zfill (str n) width) = Some n
  /\ String.length (zfill (str n) width) = Nat.max (String.length (str n)) width
  /\ ((n < 10000)%Z -> String.length (subj_id n) = 4%nat).
Proof.
  intros Hn. split; [exact (int_of_zfill n width Hn)|].
  split; [apply length_zfill|].
  intros Hlt. unfold subj_id. rewrite length_zfill.
  assert (Hall : forallb (fun k => (String.length (str (Z.of_nat k)) <=? 4)%nat)
                         (seq 0 (Z.to_nat 10000)) = true) by (vm_compute; reflexivity).
  rewrite forallb_forall in Hall.
  pose proof (Hall (Z.to_nat n)) as Hk. rewrite Z2Nat.id in Hk by lia.
  assert (Hle : (String.length (str n) <= 4)%nat).
  { apply Nat.leb_le, Hk, in_seq. lia. }
  lia.
Qed.

Lemma zfill_reads_back_witness :
  int_of_digits (zfill (str 42) 4) = Some 42%Z
  /\ zfill (str 42) 4 = "0042"%string.
Proof.
  split; [|reflexivity].
  destruct (zfill_reads_back 42 4) as [Hread _]; [lia | exact Hread].
Defined.

(** X17.  Within a session no two trials save their trace under the same
    name: for trial numbers that are not negative the name of the trace file
    determines the trial.  No trace file has the name of the data frame, and
    the session directory is the name of the data frame without its
    [.csv]. *)
Theorem joy_filename_injective (session : Z) (subj_ID : string) (t1 t2 : Z) :
  (0 <= t1)%Z -> (0 <= t2)%Z ->
  (joy_filename session subj_ID t1 = joy_filename session subj_ID t2 -> t1 = t2)
  /\ joy_filename session subj_ID t1 <> data_filename session subj_ID
  /\ (data_filename session subj_ID = joy_dir session subj_ID ++ ".csv")%string
  /\ (joy_dir session subj_ID = "ses" ++ str session ++ "_" ++ subj_ID)%string.
Proof.
  intros H1 H2.
  assert (Hdir : (joy_dir session subj_ID
                  = "ses" ++ str session ++ "_" ++ subj_ID)%string).
  { unfold joy_dir, data_filename.
    replace ("ses" ++ str session ++ "_" ++ subj_ID ++ ".csv")%string
      with (("ses" ++ str session ++ "_" ++ subj_ID) ++ ".csv")%string
      by (rewrite !string_app_assoc; reflexivity).
    rewrite string_length_app. cbn [String.length].
    rewrite Nat.add_sub. apply substring_prefix. }
  split; [|split; [|split; [|exact Hdir]]].
  - unfold joy_filename. intros H.
    do 5 apply string_app_inv_head in H.
    apply string_app_inv_tail in H.
    pose proof (int_of_zfill t1 4 H1) as E1.
    pose proof (int_of_zfill t2 4 H2) as E2.
    rewrite H in E1. congruence.
  - unfold joy_filename, data_filename. intros H.
    do 4 apply string_app_inv_head in H. discriminate H.
  - rewrite Hdir. rewrite !string_app_assoc. reflexivity.
Qed.

Lemma joy_filename_injective_witness :
  joy_filename 1 "0007" 12 = "ses1_0007_trial0012.npy"%string
  /\ joy_filename 1 "0007" 12 <> data_filename 1 "0007"
  /\ joy_dir 1 "0007" = "ses1_0007"%string.
Proof.
  split; [reflexivity|].
  destruct (joy_filename_injective 1 "0007" 12 12) as (_ & Hne & _ & Hdir);
    [lia | lia |].
  split; [exact Hne|]. rewrite Hdir. reflexivity.
Defined.

(** ** What a trial shows *)

Lemma length_trial_screens lab cfg b0 t0 angle go ssd p r :
  length (trial_screens lab cfg b0 t0 angle go ssd p r)
  = (2 + p + trial_frames cfg)%nat.
Proof.
  unfold trial_screens, trial_frames. cbn [app length].
  rewrite !length_app, repeat_length, !length_map, !length_seq. cbn [length]. lia.
Qed.



Lemma no_red_rest_screen lab sc r show_cursor t j :
  lineColor t <> red -> fillColor t <> Some red ->
  shows_stop_cue (rest_screen lab sc r show_cursor t j) = false.
Proof.
  intros Hline Hfill. unfold rest_screen. destruct show_cursor; [reflexivity|].
  cbn. destruct (fillColor t) as [[]|], (lineColor t); cbn; congruence.
Qed.

(** X19.  A trial labelled GO never shows the stop cue: if the target is
    not red when the trial starts and nothing is waiting in the back buffer,
    no frame the trial presents holds a target with a red fill or a red
    line. *)
Theorem go_trial_shows_no_stop_cue (lab : Collaborators)
    (cfg : StopSignal.Settings) (patience : nat) (angle_list : list Q)
    (go_list : list Z) (trial go : Z) (v v' : StopSignal.Vars) (w w' : World) :
  StopSignal.trial_body lab cfg patience angle_list go_list trial v w = Ok v' w' ->
  Py.getitem go_list trial = Some go ->
  Py.truthy go = true ->
  back_buffer w = [] ->
  lineColor (target w) <> red ->
  fillColor (target w) <> Some red ->
  exists screens,
    rev (presented w') = rev (presented w) ++ screens
    /\ Forall (fun frame => shows_stop_cue frame = false) screens.
Proof.
  intros H Hgo Htruthy Hb Hline Hfill. apply trial_body_inv in H.
  destruct H as (p & angle & go' & _ & _ & _ & Hgo' & _ & _ & _ & _ & _ & _
                 & _ & _ & _ & Hscreens).
  assert (go' = go) by congruence. subst go'.
  eexists. split; [exact Hscreens|].
  unfold trial_screens. rewrite Hb. cbn [app].
  constructor.
  { cbn. destruct (fillColor (target w)) as [[]|], (lineColor (target w));
      cbn; congruence. }
  repeat rewrite Forall_app. repeat split.
  - apply Forall_forall. intros frame Hin. apply repeat_spec in Hin. subst frame.
    reflexivity.
  - apply Forall_forall. intros frame Hin. apply in_map_iff in Hin.
    destruct Hin as (j & <- & _). apply no_red_rest_screen; cbn; congruence.
  - apply Forall_forall. intros frame Hin. apply in_map_iff in Hin.
    destruct Hin as (j & <- & _). apply no_red_rest_screen; cbn; congruence.
  - apply Forall_forall. intros frame Hin. apply in_map_iff in Hin.
    destruct Hin as (j & <- & _). unfold go_screen, target_after.
    rewrite Htruthy. cbn [negb andb].
    destruct (in_transit _ _ _); reflexivity.
  - apply Forall_forall. intros frame Hin. apply in_map_iff in Hin.
    destruct Hin as (j & <- & _). apply no_red_rest_screen; cbn; congruence.
  - constructor; [reflexivity | constructor].
Qed.

Lemma go_trial_shows_no_stop_cue_witness :
  match StopSignal.trial_body (bench [0; 5]) bench_cfg 1
          (StopSignal.angle_list_unshuffled (bench []) bench_cfg)
          (StopSignal.go_list_unshuffled bench_cfg) 1 (StopSignal.mkVars 0.5 [])
          fresh_world with
  | Ok _ w' => Forall (fun frame => shows_stop_cue frame = false)
                      (rev (presented w'))
  | Raise _ _ => False
  end.
Proof.
  destruct (StopSignal.trial_body (bench [0; 5]) bench_cfg 1
              (StopSignal.angle_list_unshuffled (bench []) bench_cfg)
              (StopSignal.go_list_unshuffled bench_cfg) 1 (StopSignal.mkVars 0.5 [])
              fresh_world) as [v' w'|e w'] eqn:E.
  - destruct (go_trial_shows_no_stop_cue _ _ _ _ _ _ 1%Z _ _ _ _ E)
      as (screens & Hs & Hall).
    + reflexivity.
    + reflexivity.
    + reflexivity.
    + discriminate.
    + discriminate.
    + rewrite Hs. exact Hall.
  - vm_compute in E. discriminate E.
Defined.
